(** * The migration harness: phase pipeline, gates, result store, progress
      log, report bridge and configuration loading

    A shallow embedding of the Python package [migration_harness] and the
    properties of its specification.

    Layout: Part I holds the model (Python values and the operations the
    code applies to them, the JSON documents kept in files, the world the
    code runs in, then one module per source module).  Part II holds the
    lemmas and the theorems.

    Modelled: [state/manager.py], [state/progress.py], [pipeline/gates.py],
    [pipeline/runner.py], [orchestrator.py], [config.py] with the models of
    [schema.py] it builds, and [pipeline/gradle_runner.py].  The agent
    behind [PhaseRunner._execute_phase], the build process and the
    conversions Pydantic applies to [bool] and [int] fields are parameters
    of the model. *)

From Stdlib Require Import ZArith Lia Ascii String List Bool Sorted.
From stdpp Require Import base option list strings gmap.
Import ListNotations.

Local Open Scope string_scope.

(* ===================================================================== *)
(** * Part I: the model *)
(* ===================================================================== *)

(** ** Python values

    The values the code handles are what [json.load] returns and what
    [json.dump] accepts: [None], booleans, integers, strings, lists, tuples
    and dictionaries with string keys (a dictionary keeps its insertion
    order, so it is an association list without repeated keys).  Floating
    point numbers are left out.  A string is a sequence of characters with
    code points below 256. *)

#[warnings="-register-all"]
Inductive pyval : Type :=
| PNone
| PBool (b : bool)
| PInt (z : Z)
| PStr (s : string)
| PList (l : list pyval)
| PTuple (l : list pyval)
| PDict (d : list (string * pyval)).

(** [type(v).__name__], as the interpreter's error messages print it. *)
Definition type_name (v : pyval) : string :=
  match v with
  | PNone => "NoneType"
  | PBool _ => "bool"
  | PInt _ => "int"
  | PStr _ => "str"
  | PList _ => "list"
  | PTuple _ => "tuple"
  | PDict _ => "dict"
  end.

(** [bool(v)]: the truth value tested by [if v], [not v] and [v or w]. *)
Definition truthy (v : pyval) : bool :=
  match v with
  | PNone => false
  | PBool b => b
  | PInt z => negb (Z.eqb z 0)
  | PStr s => negb (String.eqb s "")
  | PList l | PTuple l => match l with [] => false | _ => true end
  | PDict d => match d with [] => false | _ => true end
  end.

(** [a or b] *)
Definition py_or (a b : pyval) : pyval := if truthy a then a else b.

(** *** Dictionaries *)

Fixpoint dict_get {A : Type} (d : list (string * A)) (k : string) : option A :=
  match d with
  | [] => None
  | (k', v) :: r => if String.eqb k' k then Some v else dict_get r k
  end.

(** [d[k] = v]: an existing key keeps its place, a new key goes last. *)
Fixpoint dict_set {A : Type} (d : list (string * A)) (k : string) (v : A)
  : list (string * A) :=
  match d with
  | [] => [(k, v)]
  | (k', v') :: r =>
      if String.eqb k' k then (k', v) :: r else (k', v') :: dict_set r k v
  end.

(** [d.update(other)] and [dict(pairs)]: the pairs are set from left to
    right. *)
Definition dict_update {A : Type} (d other : list (string * A))
  : list (string * A) :=
  fold_left (fun acc kv => dict_set acc (fst kv) (snd kv)) other d.

Definition dict_of_pairs {A : Type} (pairs : list (string * A))
  : list (string * A) :=
  dict_update [] pairs.

Definition dict_keys {A : Type} (d : list (string * A)) : list string :=
  List.map fst d.

(** *** Equality [a == b]

    Booleans compare as the integers 0 and 1, sequences element by
    element, dictionaries key by key whatever their order. *)

Fixpoint py_eq (a b : pyval) {struct a} : bool :=
  match a with
  | PNone => match b with PNone => true | _ => false end
  | PBool x =>
      match b with
      | PBool y => Bool.eqb x y
      | PInt z => Z.eqb (Z.b2z x) z
      | _ => false
      end
  | PInt x =>
      match b with
      | PInt y => Z.eqb x y
      | PBool y => Z.eqb x (Z.b2z y)
      | _ => false
      end
  | PStr s => match b with PStr t => String.eqb s t | _ => false end
  | PList l =>
      match b with
      | PList l' =>
          (fix all2 (xs ys : list pyval) : bool :=
             match xs, ys with
             | [], [] => true
             | x :: xs', y :: ys' => py_eq x y && all2 xs' ys'
             | _, _ => false
             end) l l'
      | _ => false
      end
  | PTuple l =>
      match b with
      | PTuple l' =>
          (fix all2 (xs ys : list pyval) : bool :=
             match xs, ys with
             | [], [] => true
             | x :: xs', y :: ys' => py_eq x y && all2 xs' ys'
             | _, _ => false
             end) l l'
      | _ => false
      end
  | PDict d =>
      match b with
      | PDict d' =>
          Nat.eqb (List.length d) (List.length d')
          && (fix all (kvs : list (string * pyval)) : bool :=
                match kvs with
                | [] => true
                | (k, v) :: r =>
                    match dict_get d' k with
                    | Some v' => py_eq v v'
                    | None => false
                    end && all r
                end) d
      | _ => false
      end
  end.

(** *** Strings *)

(** [str.isspace] on the code points below 256: TAB to CR, FS to US, the
    space, NEL and the no-break space. *)
Definition isspace (c : ascii) : bool :=
  let n := nat_of_ascii c in
  (((9 <=? n) && (n <=? 13)) || ((28 <=? n) && (n <=? 32))
   || (n =? 133) || (n =? 160))%nat.

Fixpoint lstrip (s : string) : string :=
  match s with
  | EmptyString => EmptyString
  | String c r => if isspace c then lstrip r else s
  end.

Fixpoint rstrip (s : string) : string :=
  match s with
  | EmptyString => EmptyString
  | String c r =>
      match rstrip r with
      | EmptyString => if isspace c then EmptyString else String c EmptyString
      | r' => String c r'
      end
  end.

(** [s.strip()] *)
Definition strip (s : string) : string := lstrip (rstrip s).

(** [sub in s] for two strings *)
Fixpoint str_contains (s sub : string) : bool :=
  String.prefix sub s
  || match s with
     | EmptyString => false
     | String _ r => str_contains r sub
     end.

(** [s.endswith(suffix)] *)
Fixpoint endswith (s suffix : string) : bool :=
  String.eqb s suffix
  || match s with
     | EmptyString => false
     | String _ r => endswith r suffix
     end.

(** ** Exceptions and results

    An exception has a class and a text, [exn_msg], which is [str(e)].
    The handlers of the package name [Exception]: [is_Exception] tells
    whether the class derives from it.  The classes that do not are the
    interpreter's [KeyboardInterrupt], [SystemExit] and [GeneratorExit],
    [asyncio.CancelledError], and any class a collaborator derives from
    [BaseException] itself. *)

Record exn : Type := Raised {
  exn_class : string;
  exn_msg : string;
  is_Exception : bool
}.

(** An instance of a class that derives from [Exception]. *)
Definition Exn (class msg : string) : exn := Raised class msg true.

(** [asyncio.CancelledError], which derives from [BaseException]. *)
Definition CancelledError (msg : string) : exn :=
  Raised "CancelledError" msg false.

Inductive res (A : Type) : Type :=
| Ok (a : A)
| Raise (e : exn).
Arguments Ok {A} a.
Arguments Raise {A} e.

Definition TypeError (msg : string) : exn := Exn "TypeError" msg.
Definition AttributeError (msg : string) : exn := Exn "AttributeError" msg.
Definition KeyError (msg : string) : exn := Exn "KeyError" msg.
Definition ValueError (msg : string) : exn := Exn "ValueError" msg.
Definition FileNotFoundError (msg : string) : exn :=
  Exn "FileNotFoundError" msg.

Definition no_attribute (v : pyval) (attr : string) : exn :=
  AttributeError
    ("'" +:+ type_name v +:+ "' object has no attribute '" +:+ attr +:+ "'").

Definition res_bind {A B : Type} (r : res A) (k : A -> res B) : res B :=
  match r with
  | Ok a => k a
  | Raise e => Raise e
  end.

(** *** Operations of the interpreter that can raise *)

(** [o[k]] with a string subscript; the text of a [KeyError] is the key
    between quotes. *)
Definition py_getitem (o : pyval) (k : string) : res pyval :=
  match o with
  | PDict d =>
      match dict_get d k with
      | Some v => Ok v
      | None => Raise (KeyError ("'" +:+ k +:+ "'"))
      end
  | PList _ =>
      Raise (TypeError "list indices must be integers or slices, not str")
  | PTuple _ =>
      Raise (TypeError "tuple indices must be integers or slices, not str")
  | PStr _ => Raise (TypeError "string indices must be integers, not 'str'")
  | _ =>
      Raise (TypeError ("'" +:+ type_name o +:+ "' object is not subscriptable"))
  end.

(** [k in o] for a string [k] *)
Definition py_contains (k : string) (o : pyval) : res bool :=
  match o with
  | PDict d => Ok (match dict_get d k with Some _ => true | None => false end)
  | PList l | PTuple l => Ok (existsb (fun x => py_eq x (PStr k)) l)
  | PStr s => Ok (str_contains s k)
  | _ =>
      Raise (TypeError
               ("argument of type '" +:+ type_name o +:+ "' is not iterable"))
  end.

(** [o[k] = v] with a string subscript; the result is [o] after the
    assignment. *)
Definition py_setitem (o : pyval) (k : string) (v : pyval) : res pyval :=
  match o with
  | PDict d => Ok (PDict (dict_set d k v))
  | PList _ =>
      Raise (TypeError "list indices must be integers or slices, not str")
  | _ =>
      Raise (TypeError
               ("'" +:+ type_name o +:+ "' object does not support item assignment"))
  end.

(** [o.get(k, default)] *)
Definition py_get (o : pyval) (k : string) (default : pyval) : res pyval :=
  match o with
  | PDict d => Ok (match dict_get d k with Some v => v | None => default end)
  | _ => Raise (no_attribute o "get")
  end.

(** [o[k1][k2]...], the subscripts applied from left to right. *)
Definition py_path (o : pyval) (keys : list string) : res pyval :=
  fold_left (fun r k => res_bind r (fun v => py_getitem v k)) keys (Ok o).

(** The field [k] of [o], when [o] is a dictionary that has it. *)
Definition py_field (o : pyval) (k : string) : option pyval :=
  match o with
  | PDict d => dict_get d k
  | _ => None
  end.

(** [o.strip()] *)
Definition py_strip (o : pyval) : res pyval :=
  match o with
  | PStr s => Ok (PStr (strip s))
  | _ => Raise (no_attribute o "strip")
  end.

(** The items a [for] loop over [o] visits. *)
Definition py_iter (o : pyval) : res (list pyval) :=
  match o with
  | PList l | PTuple l => Ok l
  | PDict d => Ok (List.map PStr (dict_keys d))
  | PStr s => Ok (List.map (fun c => PStr (String c EmptyString)) (list_ascii_of_string s))
  | _ => Raise (TypeError ("'" +:+ type_name o +:+ "' object is not iterable"))
  end.

(** [o.append(x)]; the result is [o] after the call. *)
Definition py_append (o : pyval) (x : pyval) : res pyval :=
  match o with
  | PList l => Ok (PList (l ++ [x]))
  | _ => Raise (no_attribute o "append")
  end.

(** ** JSON documents

    What a file written by [json.dump] holds, and what [json.load] reads:
    the text itself is the [json] module's business, the document is what
    the package depends on.  [json.dump] writes a tuple as an array;
    [json.load] builds a dictionary from an object's members, a repeated
    name keeping its first place and its last value. *)

#[warnings="-register-all"]
Inductive json : Type :=
| JNull
| JBool (b : bool)
| JNumber (z : Z)
| JString (s : string)
| JArray (items : list json)
| JObject (members : list (string * json)).

Fixpoint json_dump (v : pyval) : json :=
  match v with
  | PNone => JNull
  | PBool b => JBool b
  | PInt z => JNumber z
  | PStr s => JString s
  | PList l | PTuple l => JArray (List.map json_dump l)
  | PDict d => JObject (List.map (fun kv => (fst kv, json_dump (snd kv))) d)
  end.

Fixpoint json_load (j : json) : pyval :=
  match j with
  | JNull => PNone
  | JBool b => PBool b
  | JNumber z => PInt z
  | JString s => PStr s
  | JArray items => PList (List.map json_load items)
  | JObject members =>
      PDict (dict_of_pairs
               (List.map (fun kv => (fst kv, json_load (snd kv))) members))
  end.

(** The values [json.load] can return: no tuple anywhere, and the keys of
    every dictionary distinct. *)
Fixpoint distinct (keys : list string) : bool :=
  match keys with
  | [] => true
  | k :: r => negb (existsb (String.eqb k) r) && distinct r
  end.

Fixpoint json_native (v : pyval) : bool :=
  match v with
  | PTuple _ => false
  | PList l => forallb json_native l
  | PDict d =>
      distinct (dict_keys d) && forallb (fun kv => json_native (snd kv)) d
  | _ => true
  end.

(** ** The world

    The files under the working directory (each a JSON document, by path),
    the clock ([clock w n] is the ISO text of the [n]-th reading of
    [datetime.utcnow()]) and what has been printed.  Directories are not
    modelled: a path is a key. *)

Record world : Type := World {
  files : gmap string json;
  clock : nat -> string;
  ticks : nat;
  stdout : list string
}.

Definition set_files (f : gmap string json -> gmap string json) (w : world)
  : world :=
  World (f (files w)) (clock w) (ticks w) (stdout w).

(** [datetime.utcnow().isoformat()] *)
Definition utcnow_isoformat (w : world) : string * world :=
  (clock w (ticks w), World (files w) (clock w) (S (ticks w)) (stdout w)).

(** [print(line)] *)
Definition print (line : string) (w : world) : world :=
  World (files w) (clock w) (ticks w) (stdout w ++ [line]).

(** [Path(dir) / name] *)
Definition path_join (dir name : string) : string := dir +:+ "/" +:+ name.

(** [json.dump(v, f)] on a file opened for writing: the file is replaced. *)
Definition write_json (path : string) (v : pyval) (w : world) : world :=
  set_files (fun fs => <[path := json_dump v]> fs) w.

(** ** Computations with state and exceptions

    [ST S A] is a statement sequence that runs on a state [S] and either
    yields an [A] or raises; the state at the raise is kept, as Python keeps
    the effects that came before an exception. *)

Definition ST (S A : Type) : Type := S -> S * res A.

Definition ret {S A : Type} (a : A) : ST S A := fun s => (s, Ok a).

Definition raise {S A : Type} (e : exn) : ST S A := fun s => (s, Raise e).

Definition bind {S A B : Type} (m : ST S A) (k : A -> ST S B) : ST S B :=
  fun s =>
    match m s with
    | (s', Ok a) => k a s'
    | (s', Raise e) => (s', Raise e)
    end.

(** [try: m  except Exception as e: h e]: an exception whose class does
    not derive from [Exception] passes the handler by. *)
Definition try_except {S A : Type} (m : ST S A) (h : exn -> ST S A)
  : ST S A :=
  fun s =>
    match m s with
    | (s', Ok a) => (s', Ok a)
    | (s', Raise e) => if is_Exception e then h e s' else (s', Raise e)
    end.

(** A step that only reads the state. *)
Definition reading {S A : Type} (f : S -> res A) : ST S A :=
  fun s => (s, f s).

(** A step that changes the state and cannot raise. *)
Definition effect {S : Type} (f : S -> S) : ST S unit :=
  fun s => (f s, Ok tt).

Notation "'let*' x ':=' m 'in' k" := (bind m (fun x => k))
  (at level 10, x name, m at level 100, k at level 200, only parsing).
Notation "'let?' x ':=' r 'in' k" := (res_bind r (fun x => k))
  (at level 10, x name, r at level 100, k at level 200, only parsing).
Notation "m ';;;' k" := (bind m (fun _ => k))
  (at level 100, k at level 200, right associativity, only parsing).

(** The package's code on the world. *)
Definition M (A : Type) : Type := ST world A.

(** ** state/manager.py *)

Module StateManager.

Record t : Type := Build { work_dir : string }.

(** [StateManager(work_dir)]; the [mkdir] has no effect on a world
    without directories. *)
Definition __init__ (work_dir : string) : t := Build work_dir.

Definition _get_state_file (self : t) (phase : string) : string :=
  path_join (work_dir self) (phase +:+ "-result.json").

Definition _save_result (self : t) (phase : string) (result : pyval)
  : world -> world :=
  write_json (_get_state_file self phase) result.

(** [None] when the file does not exist. *)
Definition _get_result (self : t) (phase : string) (w : world) : pyval :=
  match files w !! _get_state_file self phase with
  | None => PNone
  | Some doc => json_load doc
  end.

Definition save_discovery_result (self : t) := _save_result self "discovery".
Definition get_discovery_result (self : t) := _get_result self "discovery".
Definition save_narrowing_result (self : t) := _save_result self "narrowing".
Definition get_narrowing_result (self : t) := _get_result self "narrowing".
Definition save_generation_result (self : t) := _save_result self "generation".
Definition get_generation_result (self : t) := _get_result self "generation".
Definition save_migration_result (self : t) := _save_result self "migration".
Definition get_migration_result (self : t) := _get_result self "migration".
Definition save_validation_result (self : t) := _save_result self "validation".
Definition get_validation_result (self : t) := _get_result self "validation".

End StateManager.

(** ** state/progress.py *)

Module ProgressTracker.

Definition PROGRESS_FILE : string := "migration-progress.txt".

Record t : Type := Build { work_dir : string; progress_file : string }.

Definition __init__ (work_dir : string) : t :=
  Build work_dir (path_join work_dir PROGRESS_FILE).

(** [None] when the file does not exist. *)
Definition read_progress (self : t) (w : world) : pyval :=
  match files w !! progress_file self with
  | None => PNone
  | Some doc => json_load doc
  end.

Definition _write_progress (self : t) (progress : pyval) : world -> world :=
  write_json (progress_file self) progress.

Definition init_progress (self : t) (project_name : string) (w : world)
  : world :=
  let (now, w1) := utcnow_isoformat w in
  _write_progress self
    (PDict [("project", PStr project_name);
            ("started_at", PStr (now +:+ "Z"));
            ("phases", PDict [])]) w1.

(** The statements the three [mark_phase_*] methods start with:
<<
    progress = self.read_progress() or {"phases": {}}
    if phase not in progress["phases"]:
        progress["phases"][phase] = {}
>>
    and the lookup of [progress["phases"][phase].update].  The result is
    the content of [progress], of [progress["phases"]] and of the phase's
    entry; the two subscripts have succeeded when the last branch is
    reached, so it raises only for an entry that is no dictionary. *)
Definition phase_entry (self : t) (phase : string) (w : world)
  : res (list (string * pyval) * list (string * pyval)
         * list (string * pyval)) :=
  let progress :=
    py_or (read_progress self w) (PDict [("phases", PDict [])]) in
  let? phases := py_getitem progress "phases" in
  let? present := py_contains phase phases in
  let? phases' :=
    (if present then Ok phases else py_setitem phases phase (PDict [])) in
  let? entry := py_getitem phases' phase in
  match progress, phases', entry with
  | PDict pr, PDict ph, PDict e => Ok (pr, ph, e)
  | _, _, _ => Raise (no_attribute entry "update")
  end.

(** [progress["phases"][phase].update(fields); self._write_progress(progress)]
    where [fields] holds one reading of the clock. *)
Definition update_entry (self : t) (phase : string)
    (fields : string -> list (string * pyval)) : M unit :=
  fun w =>
    match phase_entry self phase w with
    | Raise e => (w, Raise e)
    | Ok (pr, ph, e) =>
        let (now, w1) := utcnow_isoformat w in
        let entry := PDict (dict_update e (fields (now +:+ "Z"))) in
        let progress :=
          PDict (dict_set pr "phases" (PDict (dict_set ph phase entry))) in
        (_write_progress self progress w1, Ok tt)
    end.

Definition mark_phase_started (self : t) (phase : string) : M unit :=
  update_entry self phase
    (fun now => [("status", PStr "in_progress"); ("started_at", PStr now)]).

Definition mark_phase_completed (self : t) (phase : string)
    (summary : string) : M unit :=
  update_entry self phase
    (fun now => [("status", PStr "completed");
                 ("completed_at", PStr now);
                 ("summary", PStr summary)]).

Definition mark_phase_failed (self : t) (phase : string) (error : string)
  : M unit :=
  update_entry self phase
    (fun now => [("status", PStr "failed");
                 ("failed_at", PStr now);
                 ("error", PStr error)]).

(** [add_session_log].  The lookups and the two [if] statements come first
    and read no clock; the session's dictionary is built next, with one
    reading of the clock; the list is then looked up again for [append],
    which fails on anything but a list.  The dictionaries are changed in
    place in the source: here the changed list is put back in the entry,
    the entry in the phases and the phases in the record, and these three
    assignments do not fail once the lookups have passed. *)
Definition add_session_log (self : t) (phase session_id model : string)
    (turns : Z) : M unit :=
  fun w =>
    let progress :=
      py_or (read_progress self w) (PDict [("phases", PDict [])]) in
    let prepared :=
      let? phases := py_getitem progress "phases" in
      let? present := py_contains phase phases in
      let? phases' :=
        (if present then Ok phases else py_setitem phases phase (PDict [])) in
      let? entry := py_getitem phases' phase in
      let? logged := py_contains "sessions" entry in
      let? entry' :=
        (if logged then Ok entry else py_setitem entry "sessions" (PList [])) in
      Ok (phases', entry') in
    match prepared with
    | Raise e => (w, Raise e)
    | Ok (phases', entry') =>
        let (now, w1) := utcnow_isoformat w in
        let session_log :=
          PDict [("session_id", PStr session_id);
                 ("model", PStr model);
                 ("turns", PInt turns);
                 ("logged_at", PStr (now +:+ "Z"))] in
        let appended :=
          let? sessions := py_getitem entry' "sessions" in
          let? sessions' := py_append sessions session_log in
          let? entry'' := py_setitem entry' "sessions" sessions' in
          let? phases'' := py_setitem phases' phase entry'' in
          py_setitem progress "phases" phases'' in
        match appended with
        | Raise e => (w1, Raise e)
        | Ok progress' => (_write_progress self progress' w1, Ok tt)
        end
    end.

End ProgressTracker.

(** ** pipeline/gates.py

    A gate runs on the object it is handed: the state of its steps is that
    object, and every step is one of the reads the source performs
    ([isinstance], [dict.get], iteration, [str.strip]). *)

Module gates.

Definition GateError (msg : string) : exn := Exn "GateError" msg.

Definition is_GateError (e : exn) : bool :=
  String.eqb (exn_class e) "GateError".

(** [isinstance(result, dict)] *)
Definition isinstance_dict : ST pyval bool :=
  reading (fun result =>
             Ok (match result with PDict _ => true | _ => false end)).

(** [result.get(key, default)] *)
Definition result_get (key : string) (default : pyval) : ST pyval pyval :=
  reading (fun result => py_get result key default).

Definition validate_discovery_gate : ST pyval unit :=
  let* is_dict := isinstance_dict in
  if negb is_dict
  then raise (GateError "Discovery result must be a dictionary")
  else
    let* phase := result_get "phase" PNone in
    if negb (py_eq phase (PStr "discovery"))
    then raise (GateError "Discovery result must have phase='discovery'")
    else
      let* usages := result_get "usages" (PList []) in
      if negb (truthy usages)
      then raise (GateError "Discovery must find at least one usage")
      else ret tt.

Definition validate_narrowing_gate : ST pyval unit :=
  let* is_dict := isinstance_dict in
  if negb is_dict
  then raise (GateError "Narrowing result must be a dictionary")
  else
    let* phase := result_get "phase" PNone in
    if negb (py_eq phase (PStr "narrowing"))
    then raise (GateError "Narrowing result must have phase='narrowing'")
    else
      let* usages := result_get "narrowed_usages" (PList []) in
      if negb (truthy usages)
      then raise
             (GateError "Narrowing must produce at least one narrowed usage")
      else ret tt.

(** The body of [for migration in migrations], item after item. *)
Fixpoint check_migrations (migrations : list pyval) : res unit :=
  match migrations with
  | [] => Ok tt
  | migration :: rest =>
      let? query := py_get migration "graphql_query" (PStr "") in
      let? query' := py_strip query in
      if negb (truthy query')
      then Raise (GateError "All migrations must have non-empty graphql_query")
      else
        let? code := py_get migration "new_code" (PStr "") in
        let? code' := py_strip code in
        if negb (truthy code')
        then Raise (GateError "All migrations must have non-empty new_code")
        else check_migrations rest
  end.

Definition validate_generation_gate : ST pyval unit :=
  let* is_dict := isinstance_dict in
  if negb is_dict
  then raise (GateError "Generation result must be a dictionary")
  else
    let* phase := result_get "phase" PNone in
    if negb (py_eq phase (PStr "generation"))
    then raise (GateError "Generation result must have phase='generation'")
    else
      let* migrations := result_get "generated_migrations" (PList []) in
      if negb (truthy migrations)
      then raise (GateError "Generation must produce at least one migration")
      else
        reading (fun _ =>
                   let? items := py_iter migrations in
                   check_migrations items).

End gates.

(** ** schema.py: the configuration models and the validation check *)

Module schema.

Record RestEndpoint : Type := Build_RestEndpoint {
  id : string;
  method : string;
  path : string;
  patterns : list string
}.

Record AttributeMapping : Type := Build_AttributeMapping {
  endpoint_id : string;
  rest_attribute : string;
  graphql_field : string;
  graphql_type : string
}.

Record Repository : Type := Build_Repository {
  name : string;
  url : string;
  branch : string;
  language : string
}.

Record ConfigOptions : Type := Build_ConfigOptions {
  dry_run : bool;
  create_branches : bool;
  branch_prefix : string;
  max_concurrent_repos : Z;
  model : string;
  max_turns_per_phase : Z
}.

Record Config : Type := Build_Config {
  project_name : string;
  work_dir : string;
  repositories : list Repository;
  rest_endpoints : list RestEndpoint;
  attribute_mappings : list AttributeMapping;
  graphql_endpoint : string;
  graphql_schema_path : string;
  options : ConfigOptions
}.

Record ValidationCheck : Type := Build_ValidationCheck {
  check_name : string;
  passed : bool;
  details : string
}.

(** [ConfigOptions()]: every field at its default. *)
Definition default_options : ConfigOptions :=
  Build_ConfigOptions true true "migration/rest-to-graphql" 2
    "claude-sonnet-4-5-20250929" 50.

End schema.

(** ** pipeline/runner.py *)

Module PhaseRunner.

Record t : Type := Build {
  config : schema.Config;
  state_manager : StateManager.t;
  progress_tracker : ProgressTracker.t;
  phase : string
}.

Definition __init__ (config : schema.Config)
    (state_manager : StateManager.t)
    (progress_tracker : ProgressTracker.t) (phase : string) : t :=
  Build config state_manager progress_tracker phase.

(** The body [_execute_phase] has in the source: a placeholder for the
    agent session, which yields [None]. *)
Definition placeholder (self : t) : M pyval := ret PNone.

Section Collaborator.

(** The external collaborator behind [_execute_phase]: whatever runs
    there sees the runner and the world, changes the world, and yields
    a value or raises. *)
Variable _execute_phase : t -> M pyval.

Definition run (self : t) : M pyval :=
  ProgressTracker.mark_phase_started (progress_tracker self) (phase self)
  ;;;
  try_except
    (let* result := _execute_phase self in
     (if truthy result
      then ProgressTracker.mark_phase_completed (progress_tracker self)
             (phase self)
             ("Phase " +:+ phase self +:+ " completed successfully")
      else ProgressTracker.mark_phase_failed (progress_tracker self)
             (phase self)
             ("Phase " +:+ phase self +:+ " produced no results"))
     ;;;
     ret result)
    (fun e =>
       ProgressTracker.mark_phase_failed (progress_tracker self)
         (phase self) (exn_msg e)
       ;;;
       raise e).

End Collaborator.

End PhaseRunner.

(** ** orchestrator.py *)

Module Orchestrator.

Record t : Type := Build {
  config : schema.Config;
  state_manager : StateManager.t;
  progress_tracker : ProgressTracker.t
}.

Definition PHASES : list string :=
  ["discovery"; "narrowing"; "generation"; "migration"; "validation"].

Definition __init__ (config : schema.Config) : t :=
  Build config
    (StateManager.__init__ (schema.work_dir config))
    (ProgressTracker.__init__ (schema.work_dir config)).

(** The gate of a phase, if it has one: the [if]/[elif] chain of
    [_validate_phase_result]. *)
Definition gate_of (phase : string) : option (ST pyval unit) :=
  if String.eqb phase "discovery" then Some gates.validate_discovery_gate
  else if String.eqb phase "narrowing" then Some gates.validate_narrowing_gate
  else if String.eqb phase "generation"
       then Some gates.validate_generation_gate
  else None.

Definition _validate_phase_result (self : t) (phase : string)
    (result : pyval) : M bool :=
  match gate_of phase with
  | None => ret true
  | Some gate =>
      match snd (gate result) with
      | Ok _ => ret true
      | Raise e =>
          if gates.is_GateError e
          then effect (print ("Gate validation failed for " +:+ phase
                              +:+ ": " +:+ exn_msg e))
               ;;; ret false
          else raise e
      end
  end.

Section Collaborator.

Variable _execute_phase : PhaseRunner.t -> M pyval.

(** The [for phase in self.PHASES] loop, from the phases still to run;
    the value is what [run_pipeline] returns from inside the loop or
    after it. *)
Fixpoint run_phases (self : t) (phases : list string) : M bool :=
  match phases with
  | [] => ret true
  | phase :: rest =>
      effect (print ("Starting phase: " +:+ phase)) ;;;
      let runner :=
        PhaseRunner.__init__ (config self) (state_manager self)
          (progress_tracker self) phase in
      let* result := PhaseRunner.run _execute_phase runner in
      if negb (truthy result)
      then effect (print ("Phase " +:+ phase +:+ " failed")) ;;; ret false
      else
        let* valid := _validate_phase_result self phase result in
        if negb valid
        then effect (print ("Phase " +:+ phase +:+ " validation failed"))
             ;;; ret false
        else
          effect (print ("Phase " +:+ phase +:+ " completed successfully"))
          ;;; run_phases self rest
  end.

(** The loop runs under [except Exception as e], which prints and returns
    [False]; an exception of another kind leaves [run_pipeline]. *)
Definition run_pipeline (self : t) : M bool :=
  fun w =>
    let w0 :=
      ProgressTracker.init_progress (progress_tracker self)
        (schema.project_name (config self)) w in
    match run_phases self PHASES w0 with
    | (w', Ok b) => (w', Ok b)
    | (w', Raise e) =>
        if is_Exception e
        then (print ("Pipeline failed: " +:+ exn_msg e) w', Ok false)
        else (w', Raise e)
    end.

End Collaborator.

Definition get_pipeline_status (self : t) (w : world) : pyval :=
  ProgressTracker.read_progress (progress_tracker self) w.

End Orchestrator.

(** ** config.py, with the checks the call of [Config] on the items of [config_dict] runs

    Pydantic validates a model field by field: a required field must be
    there, a [str] field takes a string only, a [List] field takes a list
    or a tuple and validates every item, a [Literal] field takes one of
    its values, a nested model takes a dictionary of its own fields, names
    the model does not declare are ignored, and a [field_validator] runs on
    a field that passed.  The model is built when no field failed. *)

Module config.

Import schema.

Definition as_str (v : pyval) : option string :=
  match v with PStr s => Some s | _ => None end.

Definition as_list (v : pyval) : option (list pyval) :=
  match v with PList l | PTuple l => Some l | _ => None end.

Definition required {A : Type} (f : pyval -> option A)
    (d : list (string * pyval)) (k : string) : option A :=
  dict_get d k ≫= f.

Definition with_default {A : Type} (f : pyval -> option A)
    (d : list (string * pyval)) (k : string) (default : A) : option A :=
  match dict_get d k with
  | None => Some default
  | Some v => f v
  end.

Definition list_of {A : Type} (f : pyval -> option A) (v : pyval)
  : option (list A) :=
  as_list v ≫= mapM f.

(** [if not v: raise ValueError(...)] of a [field_validator] on a list *)
Definition not_empty {A : Type} (v : list A) : option (list A) :=
  match v with [] => None | _ => Some v end.

Definition validate_RestEndpoint (v : pyval) : option RestEndpoint :=
  match v with
  | PDict d =>
      id ← required as_str d "id";
      method ← required as_str d "method";
      path ← required as_str d "path";
      patterns ← required (list_of as_str) d "patterns" ≫= not_empty;
      Some (Build_RestEndpoint id method path patterns)
  | _ => None
  end.

Definition validate_AttributeMapping (v : pyval) : option AttributeMapping :=
  match v with
  | PDict d =>
      endpoint_id ← required as_str d "endpoint_id";
      rest_attribute ← required as_str d "rest_attribute";
      graphql_field ← required as_str d "graphql_field";
      graphql_type ← required as_str d "graphql_type";
      Some (Build_AttributeMapping endpoint_id rest_attribute graphql_field
              graphql_type)
  | _ => None
  end.

(** [Literal["javascript", "java"]] *)
Definition as_language (v : pyval) : option string :=
  s ← as_str v;
  if String.eqb s "javascript" || String.eqb s "java" then Some s else None.

Definition validate_Repository (v : pyval) : option Repository :=
  match v with
  | PDict d =>
      name ← required as_str d "name";
      url ← required as_str d "url";
      branch ← required as_str d "branch";
      language ← required as_language d "language";
      Some (Build_Repository name url branch language)
  | _ => None
  end.

Section Pydantic.

(** What the library does and the package does not say: the values a
    [bool] and an [int] field accept and what they become, and the text
    of the exception the call of [Config] on the items of [config_dict] raises for an input. *)
Variable as_bool : pyval -> option bool.
Variable as_int : pyval -> option Z.
Variable error_text : pyval -> string.

Definition validate_ConfigOptions (v : pyval) : option ConfigOptions :=
  match v with
  | PDict d =>
      dry_run ← with_default as_bool d "dry_run" true;
      create_branches ← with_default as_bool d "create_branches" true;
      branch_prefix ←
        with_default as_str d "branch_prefix" "migration/rest-to-graphql";
      max_concurrent_repos ←
        with_default as_int d "max_concurrent_repos" 2%Z;
      model ← with_default as_str d "model" "claude-sonnet-4-5-20250929";
      max_turns_per_phase ←
        with_default as_int d "max_turns_per_phase" 50%Z;
      Some (Build_ConfigOptions dry_run create_branches branch_prefix
              max_concurrent_repos model max_turns_per_phase)
  | _ => None
  end.

(** the call of [Config] on the items of [config_dict]; [None] stands for the exception. *)
Definition validate_Config (config_dict : pyval) : option Config :=
  match config_dict with
  | PDict d =>
      project_name ← required as_str d "project_name";
      work_dir ← required as_str d "work_dir";
      repositories ←
        required (list_of validate_Repository) d "repositories"
        ≫= not_empty;
      rest_endpoints ←
        required (list_of validate_RestEndpoint) d "rest_endpoints";
      attribute_mappings ←
        required (list_of validate_AttributeMapping) d
          "attribute_mappings";
      graphql_endpoint ← required as_str d "graphql_endpoint";
      graphql_schema_path ← required as_str d "graphql_schema_path";
      options ←
        with_default validate_ConfigOptions d "options" default_options;
      Some (Build_Config project_name work_dir repositories rest_endpoints
              attribute_mappings graphql_endpoint graphql_schema_path
              options)
  | _ => None
  end.

Definition load_config (config_source : pyval) (w : world) : res Config :=
  let? config_dict :=
    match config_source with
    | PStr config_path =>
        match files w !! config_path with
        | None =>
            Raise (FileNotFoundError
                     ("Config file not found: " +:+ config_path))
        | Some doc => Ok (json_load doc)
        end
    | _ => Ok config_source
    end in
  match validate_Config config_dict with
  | Some cfg => Ok cfg
  | None =>
      Raise (ValueError
               ("Invalid configuration: " +:+ error_text config_dict))
  end.

End Pydantic.

End config.

(** ** pipeline/gradle_runner.py *)

Module GradleRunner.

Import schema.

(** An element of a parsed XML document, as [xml.etree.ElementTree] holds
    it: tag, attributes, the text before the first child, children. *)
#[warnings="-register-all"]
Inductive Element : Type :=
| Elem (tag : string) (attrib : list (string * string))
       (text : option string) (children : list Element).

Definition tag (e : Element) : string :=
  match e with Elem t _ _ _ => t end.
Definition attrib (e : Element) : list (string * string) :=
  match e with Elem _ a _ _ => a end.
Definition text (e : Element) : option string :=
  match e with Elem _ _ x _ => x end.
Definition children (e : Element) : list Element :=
  match e with Elem _ _ _ c => c end.

(** [e.get(key, default)] *)
Definition get (e : Element) (key : string) (default : string) : string :=
  match dict_get (attrib e) key with
  | Some v => v
  | None => default
  end.

(** [e.find(t)]: the first child with that tag. *)
Definition find (e : Element) (t : string) : option Element :=
  List.find (fun c => String.eqb (tag c) t) (children e).

(** [e.iter(t)]: the element and its descendants in document order, those
    with that tag. *)
Fixpoint iter (t : string) (e : Element) : list Element :=
  match e with
  | Elem t' _ _ cs =>
      ((if String.eqb t' t then [e] else []) ++ List.flat_map (iter t) cs)%list
  end.

(** [ET.parse(xml_file)]: the tree of a document that is well formed, the
    [ParseError] of one that is not, or an exception of another class,
    which [_parse_single_xml] does not catch ([LookupError] for an encoding
    the parser does not know, [ValueError] for one of several bytes,
    [OSError] for an entry that cannot be read as a file). *)
Inductive parsed : Type :=
| Tree (root : Element)
| ParseError
| Fails (e : exn).

(** The project directory: whether [build.gradle] is there, and the
    entries of [build/test-results/test] when that directory exists, each
    a file name with what [ET.parse] makes of the file. *)
Record project : Type := Project {
  build_gradle : bool;
  test_results : option (list (string * parsed))
}.

Record t : Type := Build { repo_path : string }.

Definition __init__ (repo_path : string) (p : project) : res t :=
  if build_gradle p then Ok (Build repo_path)
  else Raise (ValueError ("No build.gradle found in " +:+ repo_path)).

(** [sorted] on the paths of one directory: by file name. *)
Fixpoint insert_sorted {A : Type} (x : string * A) (l : list (string * A))
  : list (string * A) :=
  match l with
  | [] => [x]
  | y :: r =>
      if String.leb (fst x) (fst y) then x :: l else y :: insert_sorted x r
  end.

Definition sorted {A : Type} (l : list (string * A)) : list (string * A) :=
  fold_right insert_sorted [] l.

(** [report_dir.glob("*.xml")] *)
Definition glob_xml {A : Type} (entries : list (string * A))
  : list (string * A) :=
  List.filter (fun entry => endswith (fst entry) ".xml") entries.

(** The body of [for testcase in tree.iter("testcase")]: the check the
    loop appends for one element. *)
Definition check_of (testcase : Element) : ValidationCheck :=
  let class_name := get testcase "classname" "" in
  let test_name := get testcase "name" "" in
  let check_name := class_name +:+ "." +:+ test_name in
  let failure := find testcase "failure" in
  let error := find testcase "error" in
  let skipped := find testcase "skipped" in
  match skipped with
  | Some _ => Build_ValidationCheck check_name true "SKIPPED"
  | None =>
      match (match failure with Some f => Some f | None => error end) with
      | Some node =>
          let message :=
            get node "message"
              (match text node with Some x => x | None => "" end) in
          Build_ValidationCheck check_name false (substring 0 500 message)
      | None => Build_ValidationCheck check_name true "PASSED"
      end
  end.

Definition _parse_single_xml (xml_file : parsed)
  : res (list ValidationCheck) :=
  match xml_file with
  | ParseError => Ok []
  | Fails e => Raise e
  | Tree tree =>
      Ok (fold_left
            (fun checks testcase => (checks ++ [check_of testcase])%list)
            (iter "testcase" tree) [])
  end.

(** The loop [for xml_file in sorted(...)]: it stops at the first file on
    which [_parse_single_xml] raises. *)
Definition _parse_junit_xml (self : t) (p : project)
  : res (list ValidationCheck) :=
  match test_results p with
  | None => Ok []
  | Some entries =>
      fold_left
        (fun acc xml_file =>
           let? checks := acc in
           let? more := _parse_single_xml (snd xml_file) in
           Ok (checks ++ more)%list)
        (sorted (glob_xml entries)) (Ok [])
  end.

Section Subprocess.

(** [subprocess.run(cmd, cwd=..., capture_output=True, text=True)]: the
    build changes the project directory and ends with a return code and
    its two outputs, or the process cannot be started and the call
    raises. *)
Variable subprocess_run :
  list string -> string -> ST project (Z * string * string).

Definition _invoke_gradle (self : t) (extra_args : list string)
  : ST project (bool * string) :=
  let cmd :=
    (["gradle"; "test"; "--daemon"; "--continue"] ++ extra_args)%list in
  let* result := subprocess_run cmd (repo_path self) in
  let output := snd (fst result) +:+ snd result in
  ret (Z.eqb (fst (fst result)) 0, output).

(** [extra_args or []] is the list given when it is given and not empty,
    the empty list otherwise. *)
Definition run_tests (self : t) (extra_args : option (list string))
  : ST project (list ValidationCheck) :=
  let* invoked :=
    _invoke_gradle self
      (match extra_args with
       | Some (arg :: args) => arg :: args
       | _ => []
       end) in
  let success := fst invoked in
  let output := snd invoked in
  let* checks := reading (fun p => _parse_junit_xml self p) in
  match checks with
  | [] =>
      ret [Build_ValidationCheck "gradle-build" success
             (if negb success then output
              else "Build succeeded, no test cases found")]
  | _ => ret checks
  end.

End Subprocess.

End GradleRunner.

(** ** tools/registry.py

    [get_graphql_schema] reads a text file, which the world does not hold;
    it is left out. *)

Module ToolRegistry.

Import schema.

Record t : Type := Build {
  config : Config;
  state_manager : StateManager.t
}.

Definition __init__ (config : Config) (state_manager : StateManager.t) : t :=
  Build config state_manager.

(** [model_dump()]: a dictionary of the model's fields in the order of
    their declaration, nested models dumped in turn. *)
Definition dump_RestEndpoint (ep : RestEndpoint) : pyval :=
  PDict [("id", PStr (id ep));
         ("method", PStr (method ep));
         ("path", PStr (path ep));
         ("patterns", PList (List.map PStr (patterns ep)))].

Definition dump_AttributeMapping (m : AttributeMapping) : pyval :=
  PDict [("endpoint_id", PStr (endpoint_id m));
         ("rest_attribute", PStr (rest_attribute m));
         ("graphql_field", PStr (graphql_field m));
         ("graphql_type", PStr (graphql_type m))].

Definition dump_Repository (r : Repository) : pyval :=
  PDict [("name", PStr (name r));
         ("url", PStr (url r));
         ("branch", PStr (branch r));
         ("language", PStr (language r))].

Definition dump_ConfigOptions (o : ConfigOptions) : pyval :=
  PDict [("dry_run", PBool (dry_run o));
         ("create_branches", PBool (create_branches o));
         ("branch_prefix", PStr (branch_prefix o));
         ("max_concurrent_repos", PInt (max_concurrent_repos o));
         ("model", PStr (model o));
         ("max_turns_per_phase", PInt (max_turns_per_phase o))].

Definition dump_Config (c : Config) : pyval :=
  PDict [("project_name", PStr (project_name c));
         ("work_dir", PStr (work_dir c));
         ("repositories", PList (List.map dump_Repository (repositories c)));
         ("rest_endpoints",
          PList (List.map dump_RestEndpoint (rest_endpoints c)));
         ("attribute_mappings",
          PList (List.map dump_AttributeMapping (attribute_mappings c)));
         ("graphql_endpoint", PStr (graphql_endpoint c));
         ("graphql_schema_path", PStr (graphql_schema_path c));
         ("options", dump_ConfigOptions (options c))].

Definition get_config (self : t) : pyval := dump_Config (config self).

Definition get_endpoints (self : t) : pyval :=
  PDict [("endpoints",
          PList (List.map dump_RestEndpoint (rest_endpoints (config self))))].

Definition get_mappings (self : t) : pyval :=
  PDict [("mappings",
          PList (List.map dump_AttributeMapping
                   (attribute_mappings (config self))))].

(** The confirmation a [save_*_result] tool returns. *)
Definition saved (phase : string) : pyval :=
  PDict [("status", PStr "saved"); ("phase", PStr phase)].

Definition save_discovery_result (self : t) (result : pyval) (w : world)
  : world * pyval :=
  (StateManager.save_discovery_result (state_manager self) result w,
   saved "discovery").

Definition get_discovery_result (self : t) : world -> pyval :=
  StateManager.get_discovery_result (state_manager self).

Definition save_narrowing_result (self : t) (result : pyval) (w : world)
  : world * pyval :=
  (StateManager.save_narrowing_result (state_manager self) result w,
   saved "narrowing").

Definition get_narrowing_result (self : t) : world -> pyval :=
  StateManager.get_narrowing_result (state_manager self).

Definition save_generation_result (self : t) (result : pyval) (w : world)
  : world * pyval :=
  (StateManager.save_generation_result (state_manager self) result w,
   saved "generation").

Definition get_generation_result (self : t) : world -> pyval :=
  StateManager.get_generation_result (state_manager self).

Definition save_migration_result (self : t) (result : pyval) (w : world)
  : world * pyval :=
  (StateManager.save_migration_result (state_manager self) result w,
   saved "migration").

Definition get_migration_result (self : t) : world -> pyval :=
  StateManager.get_migration_result (state_manager self).

Definition save_validation_result (self : t) (result : pyval) (w : world)
  : world * pyval :=
  (StateManager.save_validation_result (state_manager self) result w,
   saved "validation").

Definition get_validation_result (self : t) : world -> pyval :=
  StateManager.get_validation_result (state_manager self).

End ToolRegistry.

(** ** hooks/security.py *)

Module security.

(** The elements of the two sets. *)
Definition DANGEROUS_COMMANDS : list string :=
  ["rm -rf"; "rm -f /"; "curl | sh"; "wget | sh"; "chmod 777"; "sudo";
   "dd if=/dev/"; "mkfs"; "fdisk"; "shutdown"; "reboot"; ":(){:|:;};:";
   "truncate -s 0"].

Definition SAFE_COMMANDS : list string :=
  ["git"; "ls"; "cd"; "cat"; "grep"; "find"; "mkdir"; "cp"; "mv"; "head";
   "tail"; "echo"; "sed"; "awk"; "python"; "npm"; "pip"; "make"].

(** [s.split()]: the maximal runs of characters that are not white space. *)
Fixpoint split (s : string) : list string :=
  match s with
  | EmptyString => []
  | String c r =>
      if isspace c then split r
      else
        match r with
        | EmptyString => [String c EmptyString]
        | String c' _ =>
            if isspace c' then String c EmptyString :: split r
            else
              match split r with
              | word :: words => String c word :: words
              | [] => [String c EmptyString]
              end
        end
  end.

(** [s.split(sep)] for a separator of one character: the pieces between
    the separators, at least one. *)
Fixpoint split_on (sep : ascii) (s : string) : list string :=
  match s with
  | EmptyString => [EmptyString]
  | String c r =>
      if Ascii.eqb c sep then EmptyString :: split_on sep r
      else
        match split_on sep r with
        | piece :: pieces => String c piece :: pieces
        | [] => [String c EmptyString]
        end
  end.

Section SetOrder.

(** A [for] loop over a set of strings visits its elements in an order the
    language does not fix: [order] is the order of one run. *)
Variable order : list string.

(** [None] is the [None] of the source: the command is let through. *)
Definition validate_bash_command (command : string) : option string :=
  match List.find (fun dangerous => str_contains command dangerous) order with
  | Some dangerous =>
      Some ("Command blocked: contains dangerous operation '" +:+ dangerous
            +:+ "'")
  | None =>
      match split command with
      | [] => Some "Empty command"
      | first :: _ =>
          let base_cmd := List.last (split_on "/"%char first) EmptyString in
          if existsb (String.eqb base_cmd) SAFE_COMMANDS then None
          else Some ("Command '" +:+ base_cmd +:+ "' is not in allowlist")
      end
  end.

End SetOrder.

End security.

(** ** hooks/validation_gates.py *)

Module validation_gates.

Section JsonText.

(** [json.loads] on a text: the document it holds, or [None] when the call
    raises [JSONDecodeError]. *)
Variable json_loads : string -> option json.

(** [json.loads(output) if isinstance(output, str) else output] *)
Definition loaded (output : pyval) : option pyval :=
  match output with
  | PStr text => json_load <$> json_loads text
  | _ => Some output
  end.

Definition validate_discovery_output (output : pyval) : bool :=
  match loaded output with
  | None => false
  | Some data =>
      match data with
      | PDict d =>
          if negb (py_eq (default PNone (dict_get d "phase"))
                     (PStr "discovery"))
          then false
          else
            match default (PList []) (dict_get d "usages") with
            | PList _ => true
            | _ => false
            end
      | _ => false
      end
  end.

Definition validate_narrowing_output (output : pyval) : bool :=
  match loaded output with
  | None => false
  | Some data =>
      match data with
      | PDict d =>
          if negb (py_eq (default PNone (dict_get d "phase"))
                     (PStr "narrowing"))
          then false
          else
            match default (PList []) (dict_get d "narrowed_usages") with
            | PList _ => true
            | _ => false
            end
      | _ => false
      end
  end.

Definition validate_generation_output (output : pyval) : bool :=
  match loaded output with
  | None => false
  | Some data =>
      match data with
      | PDict d =>
          if negb (py_eq (default PNone (dict_get d "phase"))
                     (PStr "generation"))
          then false
          else
            match default (PList []) (dict_get d "generated_migrations") with
            | PList _ => true
            | _ => false
            end
      | _ => false
      end
  end.

End JsonText.

End validation_gates.

(** ** pipeline/rollback.py *)

Module RollbackManager.

Record t : Type := Build { repo_path : string }.

Definition __init__ (repo_path : string) : t := Build repo_path.

Definition RuntimeError (msg : string) : exn := Exn "RuntimeError" msg.

Section Git.

(** The repository and whatever else git works on, and
    [subprocess.run(cmd, check=True, capture_output=True)]: the process
    ends with a return code and its two outputs, or cannot be started and
    the call raises.  With [check=True] a return code other than 0 is a
    [CalledProcessError]; the handlers below are written on the return
    code.  The error output is taken as text: the bytes of a process
    started without [text=True] are taken to decode. *)
Variable G : Type.
Variable subprocess_run : list string -> ST G (Z * string * string).

Definition create_savepoint (self : t) (phase : string) : ST G string :=
  let branch_name := "savepoint/" +:+ phase in
  let* result :=
    subprocess_run
      ["git"; "-C"; repo_path self; "checkout"; "-b"; branch_name] in
  if Z.eqb (fst (fst result)) 0 then ret branch_name
  else raise (RuntimeError ("Failed to create savepoint: " +:+ snd result)).

(** The listing is started with [text=True]: the [stderr] of its
    [CalledProcessError] is a [str], and [e.stderr.decode()] in the handler
    raises [AttributeError]. *)
Definition rollback_to_savepoint (self : t) (branch_name : string)
  : ST G unit :=
  let* listing :=
    subprocess_run ["git"; "-C"; repo_path self; "branch"; "-a"] in
  if negb (Z.eqb (fst (fst listing)) 0)
  then raise (no_attribute (PStr (snd listing)) "decode")
  else
    let* result :=
      subprocess_run ["git"; "-C"; repo_path self; "checkout"; branch_name] in
    if Z.eqb (fst (fst result)) 0 then ret tt
    else raise (RuntimeError
                  ("Failed to rollback to savepoint: " +:+ snd result)).

Definition delete_savepoint (self : t) (branch_name : string) : ST G unit :=
  let* result :=
    subprocess_run ["git"; "-C"; repo_path self; "branch"; "-D"; branch_name] in
  ret tt.

(** [None] is the [None] of the source. *)
Definition get_current_commit (self : t) : ST G (option string) :=
  let* result :=
    subprocess_run ["git"; "-C"; repo_path self; "rev-parse"; "HEAD"] in
  if Z.eqb (fst (fst result)) 0 then ret (Some (strip (snd (fst result))))
  else ret None.

End Git.

End RollbackManager.

(** ** main.py, with [Orchestrator.from_config_file]

    The arguments are taken as [argparse] has parsed them. *)

Module main.

Record args : Type := Args { config : string; status : bool }.

(** [json.JSONDecodeError], a [ValueError]. *)
Definition JSONDecodeError (msg : string) : exn := Exn "JSONDecodeError" msg.

Section Environment.

Variable as_bool : pyval -> option bool.
Variable as_int : pyval -> option Z.
Variable error_text : pyval -> string.
(** [str(status)] of the progress record, as the f-string prints it. *)
Variable py_str : pyval -> string.
Variable _execute_phase : PhaseRunner.t -> M pyval.
(** The files of the world hold JSON documents.  A file that exists and
    holds none, an empty or a cut one, is not among them: [undecodable]
    gives, for the path of such a file, the text of the [JSONDecodeError]
    that [json.load] raises on it. *)
Variable undecodable : string -> option string.

(** [path.exists()] *)
Definition exists_ (path : string) (w : world) : bool :=
  match files w !! path, undecodable path with
  | None, None => false
  | _, _ => true
  end.

(** [json.load] on the file at a path that exists: the exception it
    raises, if any. *)
Definition decode_error (path : string) (w : world) : option exn :=
  match files w !! path with
  | Some _ => None
  | None => JSONDecodeError <$> undecodable path
  end.

(** [Orchestrator.from_config_file(config_path)] *)
Definition from_config_file (config_path : string) (w : world)
  : res Orchestrator.t :=
  match decode_error config_path w with
  | Some e => Raise e
  | None =>
      let? cfg :=
        config.load_config as_bool as_int error_text (PStr config_path) w in
      Ok (Orchestrator.__init__ cfg)
  end.

(** [orchestrator.get_pipeline_status()], which reads the progress file. *)
Definition get_pipeline_status (orchestrator : Orchestrator.t) (w : world)
  : res pyval :=
  match decode_error
          (ProgressTracker.progress_file
             (Orchestrator.progress_tracker orchestrator)) w with
  | Some e => Raise e
  | None => Ok (Orchestrator.get_pipeline_status orchestrator w)
  end.

(** The handler [except Exception as e] of [main]: the world, the lines
    printed on the standard error and the value returned, or the exception
    that passes the handler by. *)
Definition handler (w : world) (e : exn) : world * list string * res Z :=
  if is_Exception e then (w, ["Error: " +:+ exn_msg e], Ok 1%Z)
  else (w, [], Raise e).

(** The world after the call, the lines printed on the standard error, and
    the value returned, which is the exit code. *)
Definition main (a : args) (w : world) : world * list string * res Z :=
  if negb (exists_ (config a) w)
  then (w, ["Error: Config file not found: " +:+ config a], Ok 1%Z)
  else
    match from_config_file (config a) w with
    | Raise e => handler w e
    | Ok orchestrator =>
        if status a
        then
          match get_pipeline_status orchestrator w with
          | Raise e => handler w e
          | Ok status =>
              if truthy status
              then (print ("Pipeline status: " +:+ py_str status) w, [],
                    Ok 0%Z)
              else (print "Pipeline not yet started" w, [], Ok 0%Z)
          end
        else
          let w1 :=
            print ("Starting migration pipeline with config: " +:+ config a)
              w in
          match Orchestrator.run_pipeline _execute_phase orchestrator w1 with
          | (w2, Raise e) => handler w2 e
          | (w2, Ok success) =>
              if success
              then (print "Pipeline completed successfully!" w2, [], Ok 0%Z)
              else (w2, ["Pipeline failed"], Ok 1%Z)
          end
    end.

End Environment.

End main.

(** ** Vocabulary of the statements *)

(** The three gated phases: name, required collection, gate. *)
Definition gated : list (string * string * ST pyval unit) :=
  [("discovery", "usages", gates.validate_discovery_gate);
   ("narrowing", "narrowed_usages", gates.validate_narrowing_gate);
   ("generation", "generated_migrations", gates.validate_generation_gate)].

(** An item of a generation result whose query and code are strings that
    are not blank once stripped. *)
Definition filled_migration (m : pyval) : Prop :=
  exists query code,
    py_field m "graphql_query" = Some (PStr query)
    /\ strip query <> ""
    /\ py_field m "new_code" = Some (PStr code)
    /\ strip code <> "".

(** The record [update_entry] writes, from the three dictionaries
    [phase_entry] yields and the new content of the entry. *)
Definition updated_record (pr ph : list (string * pyval)) (phase : string)
    (entry : list (string * pyval)) : pyval :=
  PDict (dict_set pr "phases" (PDict (dict_set ph phase (PDict entry)))).

(** The tools of the registry that write and read a phase's slot: phase,
    save tool, get tool. *)
Definition registry_tools
  : list (string
          * (ToolRegistry.t -> pyval -> world -> world * pyval)
          * (ToolRegistry.t -> world -> pyval)) :=
  [("discovery", ToolRegistry.save_discovery_result,
    ToolRegistry.get_discovery_result);
   ("narrowing", ToolRegistry.save_narrowing_result,
    ToolRegistry.get_narrowing_result);
   ("generation", ToolRegistry.save_generation_result,
    ToolRegistry.get_generation_result);
   ("migration", ToolRegistry.save_migration_result,
    ToolRegistry.get_migration_result);
   ("validation", ToolRegistry.save_validation_result,
    ToolRegistry.get_validation_result)].

(** The record the [mark_phase_*] methods and [add_session_log] work on:
    what is read, or the fresh dictionary when nothing or an empty value is
    read. *)
Definition working_record (self : ProgressTracker.t) (w : world) : pyval :=
  py_or (ProgressTracker.read_progress self w) (PDict [("phases", PDict [])]).

(** The entry of a phase among the phases of a record: empty when the
    phase has none, [None] when what is there is no dictionary. *)
Definition entry_of (ph : list (string * pyval)) (phase : string)
  : option (list (string * pyval)) :=
  match dict_get ph phase with
  | None => Some []
  | Some (PDict e) => Some e
  | Some _ => None
  end.

(** The sessions logged in an entry: none when the entry has no list yet,
    [None] when what is there is no list. *)
Definition sessions_of (e : list (string * pyval)) : option (list pyval) :=
  match dict_get e "sessions" with
  | None => Some []
  | Some (PList l) => Some l
  | Some _ => None
  end.

(** The three [mark_phase_*] methods, each with the fields it sets; the
    time is the reading of the clock with its [Z]. *)
Definition marks (summary error : string)
  : list ((ProgressTracker.t -> string -> M unit)
          * (string -> list (string * pyval))) :=
  [(ProgressTracker.mark_phase_started,
    fun now => [("status", PStr "in_progress"); ("started_at", PStr now)]);
   (fun self phase => ProgressTracker.mark_phase_completed self phase summary,
    fun now => [("status", PStr "completed"); ("completed_at", PStr now);
                ("summary", PStr summary)]);
   (fun self phase => ProgressTracker.mark_phase_failed self phase error,
    fun now => [("status", PStr "failed"); ("failed_at", PStr now);
                ("error", PStr error)])].

(** The output hooks, with the phase and the collection each one names. *)
Definition output_hooks (json_loads : string -> option json)
  : list (string * string * (pyval -> bool)) :=
  [("discovery", "usages",
    validation_gates.validate_discovery_output json_loads);
   ("narrowing", "narrowed_usages",
    validation_gates.validate_narrowing_output json_loads);
   ("generation", "generated_migrations",
    validation_gates.validate_generation_output json_loads)].

(** The text of the answer to a command that holds a dangerous pattern. *)
Definition blocked (dangerous : string) : string :=
  "Command blocked: contains dangerous operation '" +:+ dangerous +:+ "'".

(** A command of white space only, the empty one included. *)
Definition blank (command : string) : Prop :=
  forall c, In c (list_ascii_of_string command) -> isspace c = true.

(** The report files of a directory listing: the [*.xml] entries of which
    [ET.parse] makes a tree. *)
Definition parsed_reports (entries : list (string * GradleRunner.parsed))
  : list (string * GradleRunner.parsed) :=
  List.filter
    (fun entry =>
       match snd entry with GradleRunner.Tree _ => true | _ => false end)
    (GradleRunner.glob_xml entries).

(** *** The words of the report mapping

    These follow the description of the mapping, not the code: they are
    what the code is compared with. *)

(** The elements of a document: an element, then those of its children,
    child after child. *)
Fixpoint elements (e : GradleRunner.Element) : list GradleRunner.Element :=
  match e with
  | GradleRunner.Elem _ _ _ cs => e :: List.flat_map elements cs
  end.

(** The test-case records of a report file that parses, in the order of
    the file; a file that is no XML document has none. *)
Definition test_case_records (file : GradleRunner.parsed)
  : list GradleRunner.Element :=
  match file with
  | GradleRunner.Tree root =>
      List.filter (fun e => String.eqb (GradleRunner.tag e) "testcase")
        (elements root)
  | _ => []
  end.

(** A marker of a case: its first child of that name. *)
Definition marker (name : string) (case node : GradleRunner.Element) : Prop :=
  exists before after,
    GradleRunner.children case = (before ++ node :: after)%list
    /\ GradleRunner.tag node = name
    /\ Forall (fun c => GradleRunner.tag c <> name) before.

Definition unmarked (name : string) (case : GradleRunner.Element) : Prop :=
  Forall (fun c => GradleRunner.tag c <> name) (GradleRunner.children case).

(** An attribute of an element, the empty text when it has none. *)
Definition attribute (e : GradleRunner.Element) (name : string) : string :=
  default "" (dict_get (GradleRunner.attrib e) name).

(** The message of a marker: its [message] attribute, or its body text
    when it has none. *)
Definition message_of (node : GradleRunner.Element) : string :=
  match dict_get (GradleRunner.attrib node) "message" with
  | Some message => message
  | None => default "" (GradleRunner.text node)
  end.

(** The check a test-case record maps to. *)
Definition maps_to (case : GradleRunner.Element)
    (check : schema.ValidationCheck) : Prop :=
  schema.check_name check
  = attribute case "classname" +:+ "." +:+ attribute case "name"
  /\ ((exists node, marker "skipped" case node) ->
      schema.passed check = true /\ schema.details check = "SKIPPED")
  /\ (unmarked "skipped" case ->
      forall node,
        marker "failure" case node
        \/ (unmarked "failure" case /\ marker "error" case node) ->
        schema.passed check = false
        /\ schema.details check = substring 0 500 (message_of node)
        /\ String.length (schema.details check) <= 500)
  /\ (unmarked "skipped" case -> unmarked "failure" case ->
      unmarked "error" case ->
      schema.passed check = true /\ schema.details check = "PASSED").

(** The [*.xml] files of a directory in the order of their names. *)
Definition report_files (entries files : list (string * GradleRunner.parsed))
  : Prop :=
  (forall file,
     In file files
     <-> In file entries /\ exists stem, fst file = stem +:+ ".xml")
  /\ StronglySorted (fun a b => String.ltb (fst a) (fst b) = true) files.

(** No file on which [ET.parse] raises something else than [ParseError]. *)
Definition readable (files : list (string * GradleRunner.parsed)) : Prop :=
  Forall (fun file => forall e, snd file <> GradleRunner.Fails e) files.

(** What the validators of the models ask of a configuration. *)
Definition valid_Config (c : schema.Config) : Prop :=
  schema.repositories c <> []
  /\ Forall (fun r => schema.language r = "javascript"
                      \/ schema.language r = "java")
       (schema.repositories c)
  /\ Forall (fun ep => schema.patterns ep <> []) (schema.rest_endpoints c).

(** A progress record the pipeline can work on: a dictionary whose
    [phases] is a dictionary of dictionaries. *)
Definition well_formed_record (record : pyval) : Prop :=
  exists pr ph,
    record = PDict pr
    /\ dict_get pr "phases" = Some (PDict ph)
    /\ Forall (fun kv => exists e, snd kv = PDict e) ph.

(** ** Induction on nested values

    A list or a dictionary inside a value holds values: the induction
    hypothesis is wanted for each of them. *)

Section pyval_induction.

Variable P : pyval -> Prop.
Hypothesis HNone : P PNone.
Hypothesis HBool : forall b, P (PBool b).
Hypothesis HInt : forall z, P (PInt z).
Hypothesis HStr : forall s, P (PStr s).
Hypothesis HList : forall l, Forall P l -> P (PList l).
Hypothesis HTuple : forall l, Forall P l -> P (PTuple l).
Hypothesis HDict :
  forall d, Forall (fun kv => P (snd kv)) d -> P (PDict d).

Fixpoint pyval_nested_ind (v : pyval) : P v :=
  match v with
  | PNone => HNone
  | PBool b => HBool b
  | PInt z => HInt z
  | PStr s => HStr s
  | PList l =>
      HList l
        ((fix all (l : list pyval) : Forall P l :=
            match l with
            | [] => List.Forall_nil P
            | x :: r => List.Forall_cons P x r (pyval_nested_ind x) (all r)
            end) l)
  | PTuple l =>
      HTuple l
        ((fix all (l : list pyval) : Forall P l :=
            match l with
            | [] => List.Forall_nil P
            | x :: r => List.Forall_cons P x r (pyval_nested_ind x) (all r)
            end) l)
  | PDict d =>
      HDict d
        ((fix all (d : list (string * pyval))
            : Forall (fun kv => P (snd kv)) d :=
            match d with
            | [] => List.Forall_nil _
            | kv :: r =>
                List.Forall_cons (fun kv => P (snd kv)) kv r
                  (pyval_nested_ind (snd kv)) (all r)
            end) d)
  end.

End pyval_induction.

Section Element_induction.

Variable P : GradleRunner.Element -> Prop.
Hypothesis HElem :
  forall t a x cs, Forall P cs -> P (GradleRunner.Elem t a x cs).

Fixpoint Element_nested_ind (e : GradleRunner.Element) : P e :=
  match e with
  | GradleRunner.Elem t a x cs =>
      HElem t a x cs
        ((fix all (l : list GradleRunner.Element) : Forall P l :=
            match l with
            | [] => List.Forall_nil P
            | c :: r => List.Forall_cons P c r (Element_nested_ind c) (all r)
            end) cs)
  end.

End Element_induction.

Section json_induction.

Variable P : json -> Prop.
Hypothesis HNull : P JNull.
Hypothesis HBool : forall b, P (JBool b).
Hypothesis HNumber : forall z, P (JNumber z).
Hypothesis HString : forall s, P (JString s).
Hypothesis HArray : forall items, Forall P items -> P (JArray items).
Hypothesis HObject :
  forall members, Forall (fun kv => P (snd kv)) members -> P (JObject members).

Fixpoint json_nested_ind (j : json) : P j :=
  match j with
  | JNull => HNull
  | JBool b => HBool b
  | JNumber z => HNumber z
  | JString s => HString s
  | JArray items =>
      HArray items
        ((fix all (l : list json) : Forall P l :=
            match l with
            | [] => List.Forall_nil P
            | x :: r => List.Forall_cons P x r (json_nested_ind x) (all r)
            end) items)
  | JObject members =>
      HObject members
        ((fix all (d : list (string * json))
            : Forall (fun kv => P (snd kv)) d :=
            match d with
            | [] => List.Forall_nil _
            | kv :: r =>
                List.Forall_cons (fun kv => P (snd kv)) kv r
                  (json_nested_ind (snd kv)) (all r)
            end) members)
  end.

End json_induction.

(** ** Sample data: worlds, builds, configurations, collaborators *)

(** A world with no file, a clock that reads the empty text, and nothing
    printed. *)
Definition empty_world : world := World ∅ (fun _ => "") 0 [].

(** A build that ends with return code 0 and leaves the project directory
    as it was (no report is written). *)
Definition build_succeeds_without_reports
  : list string -> string -> ST GradleRunner.project (Z * string * string) :=
  fun _ _ => ret (0%Z, "BUILD SUCCESSFUL", "").

(** Two report files.  The first has a case that passes and one that
    fails with a message; the second, in a nested suite, a case with an
    error that has a body and no message, and a case that is skipped and
    has a failure as well. *)
Definition report_users : GradleRunner.Element :=
  GradleRunner.Elem "testsuite" [("name", "UserTest")] None
    [GradleRunner.Elem "properties" [] None [];
     GradleRunner.Elem "testcase"
       [("classname", "com.example.UserTest"); ("name", "loads")] None [];
     GradleRunner.Elem "testcase"
       [("classname", "com.example.UserTest"); ("name", "saves")] None
       [GradleRunner.Elem "system-out" [] (Some "log") [];
        GradleRunner.Elem "failure" [("message", "expected 1 but was 2")]
          (Some "at UserTest.saves") []]].

Definition report_orders : GradleRunner.Element :=
  GradleRunner.Elem "testsuites" [] None
    [GradleRunner.Elem "testsuite" [("name", "OrderTest")] None
       [GradleRunner.Elem "testcase"
          [("classname", "com.example.OrderTest"); ("name", "ships")] None
          [GradleRunner.Elem "error" [("type", "java.io.IOException")]
             (Some "connection refused") []];
        GradleRunner.Elem "testcase" [("name", "refunds")] None
          [GradleRunner.Elem "failure" [("message", "not run")] None [];
           GradleRunner.Elem "skipped" [] None []]]].

(** A report directory, as the file system lists it: the two reports out
    of order, a file that is no report and a report that is cut. *)
Definition report_directory : list (string * GradleRunner.parsed) :=
  [("TEST-users.xml", GradleRunner.Tree report_users);
   ("index.html", GradleRunner.Tree (GradleRunner.Elem "html" [] None []));
   ("TEST-cut.xml", GradleRunner.ParseError);
   ("TEST-orders.xml", GradleRunner.Tree report_orders)].

(** A build that fails before any report is written. *)
Definition build_fails_without_reports
  : list string -> string -> ST GradleRunner.project (Z * string * string) :=
  fun _ _ => ret (1%Z, "", "error: package does not exist").

(** The sample configuration of the tests, without the optional [options]
    block and with an empty list of endpoints. *)
Definition config_without_endpoints : pyval :=
  PDict [("project_name", PStr "test-migration");
         ("work_dir", PStr "/tmp/test-workspace");
         ("repositories",
          PList [PDict [("name", PStr "test-frontend");
                        ("url", PStr "https://github.com/test/frontend.git");
                        ("branch", PStr "main");
                        ("language", PStr "javascript")]]);
         ("rest_endpoints", PList []);
         ("attribute_mappings",
          PList [PDict [("endpoint_id", PStr "get-user");
                        ("rest_attribute", PStr "user_name");
                        ("graphql_field", PStr "userName");
                        ("graphql_type", PStr "User")]]);
         ("graphql_endpoint", PStr "https://api.example.com/graphql");
         ("graphql_schema_path", PStr "./schema.graphql")].

(** A complete configuration, after the sample of the tests: one
    repository, one endpoint, one mapping and no [options] block. *)
Definition sample_config_dict : list (string * pyval) :=
  [("project_name", PStr "test-migration");
   ("work_dir", PStr "/tmp/test-workspace");
   ("repositories",
    PList [PDict [("name", PStr "test-frontend");
                  ("url", PStr "https://github.com/test/frontend.git");
                  ("branch", PStr "main");
                  ("language", PStr "javascript")]]);
   ("rest_endpoints",
    PList [PDict [("id", PStr "get-user");
                  ("method", PStr "GET");
                  ("path", PStr "/api/v1/users/{id}");
                  ("patterns", PList [PStr "fetch('/api/v1/users/'"])]]);
   ("attribute_mappings",
    PList [PDict [("endpoint_id", PStr "get-user");
                  ("rest_attribute", PStr "user_name");
                  ("graphql_field", PStr "userName");
                  ("graphql_type", PStr "User")]]);
   ("graphql_endpoint", PStr "https://api.example.com/graphql");
   ("graphql_schema_path", PStr "./schema.graphql")].

(** A result with a tuple in it, as a collaborator written in Python can
    hand over. *)
Definition result_with_tuple : pyval :=
  PDict [("phase", PStr "discovery"); ("usages", PTuple [PInt 1; PInt 2])].

(** The configuration of the tests' fixture, as [Config] holds it. *)
Definition sample_Config : schema.Config :=
  schema.Build_Config "test-migration" "/tmp/test-workspace"
    [schema.Build_Repository "test-frontend"
       "https://github.com/test/frontend.git" "main" "javascript"]
    [schema.Build_RestEndpoint "get-user" "GET" "/api/v1/users/{id}"
       ["fetch('/api/v1/users/'"]]
    [schema.Build_AttributeMapping "get-user" "user_name" "userName" "User"]
    "https://api.example.com/graphql" "./schema.graphql"
    schema.default_options.


(** A collaborator that raises at once. *)
Definition raising_collaborator (e : exn) : PhaseRunner.t -> M pyval :=
  fun _ => raise e.

(** A collaborator that answers from a script, phase by phase, and touches
    no file. *)
Definition scripted_collaborator (script : list (string * pyval))
  : PhaseRunner.t -> M pyval :=
  fun self =>
    ret (match dict_get script (PhaseRunner.phase self) with
         | Some result => result
         | None => PNone
         end).

(** A collaborator that saves its result in the phase's slot, as the tool
    surface lets it, and returns it. *)
Definition saving_collaborator (script : list (string * pyval))
  : PhaseRunner.t -> M pyval :=
  fun self w =>
    let result :=
      match dict_get script (PhaseRunner.phase self) with
      | Some result => result
      | None => PNone
      end in
    (StateManager._save_result (PhaseRunner.state_manager self)
       (PhaseRunner.phase self) result w,
     Ok result).

Definition discovery_result : pyval :=
  PDict [("phase", PStr "discovery");
         ("timestamp", PStr "2026-01-01T00:00:00Z");
         ("usages",
          PList [PDict [("endpoint_id", PStr "get-user");
                        ("repo", PStr "test-frontend");
                        ("file", PStr "src/api.js");
                        ("line", PInt 42);
                        ("snippet", PStr "fetch('/api/v1/users/' + id)");
                        ("language", PStr "javascript")]])].

Definition narrowing_result : pyval :=
  PDict [("phase", PStr "narrowing");
         ("timestamp", PStr "2026-01-01T00:00:01Z");
         ("narrowed_usages",
          PList [PDict [("endpoint_id", PStr "get-user");
                        ("repo", PStr "test-frontend");
                        ("file", PStr "src/api.js");
                        ("line", PInt 42);
                        ("snippet", PStr "fetch('/api/v1/users/' + id)");
                        ("language", PStr "javascript");
                        ("matched_mappings", PList [PStr "user_name"]);
                        ("complexity", PStr "low")]])].

Definition generation_result : pyval :=
  PDict [("phase", PStr "generation");
         ("timestamp", PStr "2026-01-01T00:00:02Z");
         ("generated_migrations",
          PList [PDict [("endpoint_id", PStr "get-user");
                        ("repo", PStr "test-frontend");
                        ("file", PStr "src/api.js");
                        ("graphql_query", PStr "query { user { userName } }");
                        ("new_code", PStr "client.query(GET_USER)");
                        ("imports", PList [])]])].

Definition migration_result : pyval :=
  PDict [("phase", PStr "migration");
         ("timestamp", PStr "2026-01-01T00:00:03Z");
         ("applied_migrations", PList [])].

Definition validation_result : pyval :=
  PDict [("phase", PStr "validation");
         ("timestamp", PStr "2026-01-01T00:00:04Z");
         ("checks", PList [])].

(** Every phase answers with a result that passes its gate; nothing is
    saved. *)
Definition complete_script : list (string * pyval) :=
  [("discovery", discovery_result); ("narrowing", narrowing_result);
   ("generation", generation_result); ("migration", migration_result);
   ("validation", validation_result)].

(** The migration phase answers with an empty dictionary. *)
Definition empty_migration_script : list (string * pyval) :=
  [("discovery", discovery_result); ("narrowing", narrowing_result);
   ("generation", generation_result); ("migration", PDict [])].

(* ===================================================================== *)
(** * Part II: lemmas and theorems *)
(* ===================================================================== *)

(** ** Strings and dictionaries *)

Lemma py_eq_str (v : pyval) (s : string) :
  py_eq v (PStr s) = true <-> v = PStr s.
Proof.
  destruct v; simpl; split; intros H; try discriminate.
  - apply String.eqb_eq in H. now subst.
  - injection H as ->. apply String.eqb_refl.
Qed.

Lemma truthy_str (s : string) : truthy (PStr s) = true <-> s <> "".
Proof.
  simpl. rewrite negb_true_iff. split.
  - intros H ->. discriminate.
  - intros H. apply String.eqb_neq. exact H.
Qed.

Lemma dict_get_set_eq {A : Type} (d : list (string * A)) k v :
  dict_get (dict_set d k v) k = Some v.
Proof.
  induction d as [|[k' v'] d IH]; simpl.
  - now rewrite String.eqb_refl.
  - destruct (String.eqb k' k) eqn:E; simpl; rewrite E; auto.
Qed.

Lemma dict_get_set_ne {A : Type} (d : list (string * A)) k k' v :
  k <> k' -> dict_get (dict_set d k v) k' = dict_get d k'.
Proof.
  intros Hne. induction d as [|[k0 v0] d IH]; simpl.
  - apply String.eqb_neq in Hne. now rewrite Hne.
  - destruct (String.eqb k0 k) eqn:E; simpl.
    + apply String.eqb_eq in E. subst k0.
      apply String.eqb_neq in Hne. now rewrite Hne.
    + now rewrite IH.
Qed.

(** ** The gates *)

(** [gated] lists the gates as the orchestrator dispatches them. *)
Lemma gated_gate_of (P coll : string) (gate : ST pyval unit) :
  In (P, coll, gate) gated -> Orchestrator.gate_of P = Some gate.
Proof.
  simpl. intros [H|[H|[H|[]]]]; injection H as <- <- <-; reflexivity.
Qed.

Section Gates.

Import gates.

Lemma check_migrations_filled (items : list pyval) :
  Forall filled_migration items -> check_migrations items = Ok tt.
Proof.
  induction 1 as [|m items Hm _ IH]; simpl; [reflexivity|].
  destruct Hm as (q & c & Hq & Hq' & Hc & Hc').
  destruct m; simpl in Hq, Hc; try discriminate.
  simpl. rewrite Hq. simpl.
  rewrite (proj2 (String.eqb_neq _ _) Hq'). simpl.
  rewrite Hc. simpl.
  rewrite (proj2 (String.eqb_neq _ _) Hc'). simpl.
  exact IH.
Qed.

Lemma gate_reads (P coll : string) (gate : ST pyval unit) (r : pyval) :
  In (P, coll, gate) gated -> fst (gate r) = r.
Proof.
  intros Hin. simpl in Hin.
  destruct Hin as [H|[H|[H|[]]]]; injection H as <- <- <-;
    unfold validate_discovery_gate, validate_narrowing_gate,
      validate_generation_gate, bind, isinstance_dict, result_get,
      reading, raise, ret;
    destruct r; simpl; try reflexivity;
    repeat match goal with
      | |- context [dict_get ?d ?k] => destruct (dict_get d k); simpl
      | |- context [if negb ?b then _ else _] => destruct b; simpl
      | |- context [if ?b then _ else _] => destruct b; simpl
      end; reflexivity.
Qed.

End Gates.

(** C3. A result tagged with the gated phase's name, whose required
    collection is present and not empty and, for generation, whose items
    all carry a query and a code that are not blank once stripped, passes
    the gate of that phase: the gate returns normally. *)
Theorem C3_gate_passes_complete_result
    (P coll : string) (gate : ST pyval unit) (r : pyval)
    (items : list pyval) :
  In (P, coll, gate) gated ->
  py_field r "phase" = Some (PStr P) ->
  py_field r coll = Some (PList items) ->
  items <> [] ->
  (P = "generation" -> Forall filled_migration items) ->
  snd (gate r) = Ok tt.
Proof.
  intros Hin Hphase Hcoll Hne Hgen. simpl in Hin.
  destruct r; simpl in Hphase, Hcoll; try discriminate.
  destruct items as [|item items]; [congruence|].
  destruct Hin as [H|[H|[H|[]]]]; injection H as <- <- <-;
    cbv [gates.validate_discovery_gate gates.validate_narrowing_gate
         gates.validate_generation_gate bind gates.isinstance_dict
         gates.result_get reading raise ret py_get negb];
    rewrite Hphase; simpl; rewrite Hcoll; simpl; try reflexivity.
  exact (check_migrations_filled (item :: items) (Hgen eq_refl)).
Qed.

Lemma C3_gate_passes_complete_result_witness :
  snd (gates.validate_generation_gate
         (PDict [("phase", PStr "generation");
                 ("generated_migrations",
                  PList [PDict [("graphql_query", PStr " query { a } ");
                                ("new_code", PStr "fetchA()")]])]))
  = Ok tt.
Proof.
  apply (C3_gate_passes_complete_result "generation" "generated_migrations"
           gates.validate_generation_gate _
           [PDict [("graphql_query", PStr " query { a } ");
                   ("new_code", PStr "fetchA()")]]).
  - simpl. right. right. left. reflexivity.
  - reflexivity.
  - reflexivity.
  - discriminate.
  - intros _. constructor; [|constructor].
    exists " query { a } ", "fetchA()".
    repeat split; try reflexivity; vm_compute; discriminate.
Defined.

(** C4. The gate of a gated phase raises a [GateError] whenever its input
    has no [phase] field, has a [phase] field other than the phase's name,
    or has its required collection absent or empty; and when it does not
    raise, the object it was handed is as it was. *)
Theorem C4_gate_rejects_and_reads_only
    (P coll : string) (gate : ST pyval unit) (r : pyval) :
  In (P, coll, gate) gated ->
  (py_field r "phase" = None
   \/ (exists v, py_field r "phase" = Some v /\ v <> PStr P)
   \/ py_field r coll = None
   \/ py_field r coll = Some (PList []) ->
   exists msg, snd (gate r) = Raise (gates.GateError msg))
  /\ (snd (gate r) = Ok tt -> fst (gate r) = r).
Proof.
  intros Hin. split; [|intros _; exact (gate_reads P coll gate r Hin)].
  intros Hbad. simpl in Hin.
  assert (Hcases :
    (exists d, r = PDict d)
    -> match py_field r "phase" with
       | Some v => py_eq v (PStr P) = false
       | None => True
       end
       \/ match py_field r coll with
          | Some v => truthy v = false
          | None => True
          end).
  { intros _. destruct Hbad as [H|[(v & H & Hv)|[H|H]]]; rewrite H; auto.
    left. destruct (py_eq v (PStr P)) eqn:E; [|reflexivity].
    apply py_eq_str in E. contradiction. }
  destruct Hin as [H|[H|[H|[]]]]; injection H as <- <- <-;
    cbv [gates.validate_discovery_gate gates.validate_narrowing_gate
         gates.validate_generation_gate bind gates.isinstance_dict
         gates.result_get reading raise ret py_get negb];
    (destruct r; simpl; try (eexists; reflexivity));
    (destruct Hcases as [Hp|Hc]; [eexists; reflexivity | |]; simpl in *);
    repeat match goal with
      | |- context [dict_get ?d ?k] =>
          let E := fresh "E" in destruct (dict_get d k) eqn:E; simpl
      | H : py_eq _ _ = false |- _ => rewrite H; simpl
      | H : truthy _ = false |- _ => rewrite H; simpl
      | |- context [if py_eq ?a ?b then _ else _] =>
          destruct (py_eq a b); simpl
      | |- exists _, Raise _ = Raise _ => eexists; reflexivity
      end.
Qed.

Lemma C4_gate_rejects_and_reads_only_witness :
  (exists msg,
     snd (gates.validate_narrowing_gate
            (PDict [("phase", PStr "narrowing"); ("narrowed_usages", PList [])]))
     = Raise (gates.GateError msg))
  /\ fst (gates.validate_discovery_gate
            (PDict [("phase", PStr "discovery"); ("usages", PList [PInt 1])]))
     = PDict [("phase", PStr "discovery"); ("usages", PList [PInt 1])].
Proof.
  split.
  - apply (C4_gate_rejects_and_reads_only "narrowing" "narrowed_usages"
             gates.validate_narrowing_gate).
    + simpl. right. left. reflexivity.
    + right. right. right. reflexivity.
  - apply (C4_gate_rejects_and_reads_only "discovery" "usages"
             gates.validate_discovery_gate).
    + simpl. left. reflexivity.
    + reflexivity.
Defined.

(** ** The report bridge *)

Section Reports.

Import schema GradleRunner.

Lemma fold_append_map {A B : Type} (f : A -> B) (l : list A) (acc : list B) :
  fold_left (fun checks x => (checks ++ [f x])%list) l acc
  = (acc ++ List.map f l)%list.
Proof.
  revert acc. induction l as [|x l IH]; intros acc; simpl.
  - now rewrite List.app_nil_r.
  - rewrite IH. now rewrite <- List.app_assoc.
Qed.

Lemma substring_length_le (m : nat) (s : string) :
  String.length (substring 0 m s) <= m.
Proof.
  revert s. induction m as [|m IH]; intros s.
  - destruct s; simpl; lia.
  - destruct s as [|c s]; simpl; [lia|]. specialize (IH s). lia.
Qed.

(** *** The order of the files *)

(** [sorted] rearranges the files and puts the names in order. *)
Lemma insert_sorted_perm {A : Type} (x : string * A) (l : list (string * A)) :
  Permutation (insert_sorted x l) (x :: l).
Proof.
  induction l as [|y l IH]; simpl; [reflexivity|].
  destruct (String.leb (fst x) (fst y)); [reflexivity|].
  rewrite IH. apply perm_swap.
Qed.

Lemma sorted_perm {A : Type} (l : list (string * A)) :
  Permutation (sorted l) l.
Proof.
  induction l as [|x l IH]; simpl; [reflexivity|].
  rewrite insert_sorted_perm. now rewrite IH.
Qed.

Lemma insert_sorted_ordered {A : Type} (x : string * A)
    (l : list (string * A)) :
  Sorted (fun a b => String.leb (fst a) (fst b) = true) l ->
  Sorted (fun a b => String.leb (fst a) (fst b) = true) (insert_sorted x l).
Proof.
  induction 1 as [|y l Hs IH Hhd]; simpl.
  - repeat constructor.
  - destruct (String.leb (fst x) (fst y)) eqn:E.
    + constructor; [constructor; assumption|]. constructor. exact E.
    + constructor; [exact IH|].
      destruct l as [|z l]; simpl.
      * constructor. destruct (String.leb_total (fst x) (fst y)); congruence.
      * destruct (String.leb (fst x) (fst z)).
        -- constructor.
           destruct (String.leb_total (fst x) (fst y)); congruence.
        -- constructor. now inversion Hhd.
Qed.

Lemma sorted_ordered {A : Type} (l : list (string * A)) :
  Sorted (fun a b => String.leb (fst a) (fst b) = true) (sorted l).
Proof.
  induction l as [|x l IH]; simpl; [constructor|].
  now apply insert_sorted_ordered.
Qed.

Lemma leb_trans (a b c : string) :
  String.leb a b = true -> String.leb b c = true -> String.leb a c = true.
Proof.
  intros Hab Hbc. apply Is_true_true.
  apply Is_true_true in Hab, Hbc.
  exact (transitivity (R := String.le) Hab Hbc).
Qed.

Lemma ltb_leb (a b : string) :
  String.ltb a b = true -> String.leb a b = true.
Proof.
  unfold String.ltb, String.leb. destruct (String.compare a b); auto.
Qed.

Lemma ltb_irrefl (a : string) : String.ltb a a = false.
Proof.
  unfold String.ltb. pose proof (String.compare_antisym a a) as H.
  destruct (String.compare a a); try reflexivity; discriminate H.
Qed.

Lemma sorted_strongly {A : Type} (l : list (string * A)) :
  StronglySorted (fun a b => String.leb (fst a) (fst b) = true) (sorted l).
Proof.
  apply Sorted_StronglySorted; [|apply sorted_ordered].
  intros a b c. apply leb_trans.
Qed.

Lemma filter_perm {A : Type} (f : A -> bool) (l l' : list A) :
  Permutation l l' -> Permutation (List.filter f l) (List.filter f l').
Proof.
  induction 1 as [|x l l' _ IH|x y l|l l' l'' _ IH _ IH']; simpl.
  - reflexivity.
  - destruct (f x); [now constructor|exact IH].
  - destruct (f x), (f y); try reflexivity. apply perm_swap.
  - now transitivity (List.filter f l').
Qed.

Lemma filter_strongly_sorted {A : Type} (R : A -> A -> Prop) (f : A -> bool)
    (l : list A) :
  StronglySorted R l -> StronglySorted R (List.filter f l).
Proof.
  induction 1 as [|x l Hs IH Hall]; simpl; [constructor|].
  destruct (f x); [|exact IH].
  constructor; [exact IH|].
  rewrite List.Forall_forall in Hall |- *.
  intros y Hy. apply Hall. apply List.filter_In in Hy. tauto.
Qed.

(** Two listings in the order of their names, with the same files, no name
    twice: the same listing. *)
Lemma sorted_unique {A : Type} (l l' : list (string * A)) :
  StronglySorted (fun a b => String.leb (fst a) (fst b) = true) l ->
  StronglySorted (fun a b => String.leb (fst a) (fst b) = true) l' ->
  NoDup (List.map fst l) ->
  Permutation l l' ->
  l = l'.
Proof.
  intros Hs. revert l'.
  induction Hs as [|a l Hs IH Ha]; intros l' Hs' Hnodup Hperm.
  - apply Permutation_nil in Hperm. now subst.
  - destruct Hs' as [|b l' Hs' Hb].
    { symmetry in Hperm. apply Permutation_nil in Hperm. discriminate. }
    rewrite List.Forall_forall in Ha, Hb.
    simpl in Hnodup. apply NoDup_cons in Hnodup as [Hnotin Hnodup].
    assert (Hab : a = b).
    { assert (Hina : In a (b :: l'))
        by (apply (Permutation_in _ Hperm); now left).
      assert (Hinb : In b (a :: l))
        by (apply (Permutation_in _ (Permutation_sym Hperm)); now left).
      destruct Hina as [->|Hina]; [reflexivity|].
      destruct Hinb as [->|Hinb]; [reflexivity|].
      assert (Hname : fst a = fst b)
        by (apply String.leb_antisym; [now apply Ha|now apply Hb]).
      exfalso. apply Hnotin.
      rewrite Hname. apply list_elem_of_In. now apply List.in_map. }
    subst b. f_equal. apply IH; [exact Hs'|exact Hnodup|].
    now apply Permutation_cons_inv in Hperm.
Qed.

Lemma strictly_sorted_leb {A : Type} (l : list (string * A)) :
  StronglySorted (fun a b => String.ltb (fst a) (fst b) = true) l ->
  StronglySorted (fun a b => String.leb (fst a) (fst b) = true) l.
Proof.
  induction 1 as [|x l _ IH Hall]; constructor; [exact IH|].
  eapply List.Forall_impl; [|exact Hall]. intros y. apply ltb_leb.
Qed.

Lemma strictly_sorted_names {A : Type} (l : list (string * A)) :
  StronglySorted (fun a b => String.ltb (fst a) (fst b) = true) l ->
  NoDup (List.map fst l).
Proof.
  induction 1 as [|x l _ IH Hall]; simpl; [constructor|].
  apply NoDup_cons. split; [|exact IH].
  rewrite list_elem_of_In, in_map_iff. intros (y & Hname & Hy).
  rewrite List.Forall_forall in Hall. specialize (Hall y Hy).
  rewrite Hname, ltb_irrefl in Hall. discriminate.
Qed.

Lemma NoDup_names {A : Type} (l : list (string * A)) :
  NoDup (List.map fst l) -> NoDup l.
Proof.
  induction l as [|x l IH]; simpl; intros H; [constructor|].
  apply NoDup_cons in H as [Hx H]. apply NoDup_cons. split; [|now apply IH].
  intros Hin. apply Hx. rewrite list_elem_of_In in Hin.
  rewrite list_elem_of_In. now apply List.in_map.
Qed.

Lemma NoDup_filter_names {A : Type} (f : string * A -> bool)
    (l : list (string * A)) :
  NoDup (List.map fst l) -> NoDup (List.map fst (List.filter f l)).
Proof.
  induction l as [|x l IH]; simpl; intros H; [constructor|].
  apply NoDup_cons in H as [Hx H].
  destruct (f x); simpl; [|now apply IH].
  apply NoDup_cons. split; [|now apply IH].
  intros Hin. apply Hx. rewrite list_elem_of_In in Hin.
  rewrite list_elem_of_In.
  apply in_map_iff in Hin as (y & Hname & Hy).
  apply List.filter_In in Hy as [Hy _]. rewrite <- Hname.
  now apply List.in_map.
Qed.

Lemma endswith_spec (s suffix : string) :
  endswith s suffix = true <-> exists stem, s = stem +:+ suffix.
Proof.
  split.
  - induction s as [|c s IH]; cbn [endswith].
    + rewrite orb_false_r. intros H. apply String.eqb_eq in H.
      exists "". now subst.
    + intros H. apply orb_true_iff in H as [H|H].
      * apply String.eqb_eq in H. exists "". now subst.
      * destruct (IH H) as [stem ->]. now exists (String c stem).
  - intros [stem ->]. induction stem as [|c stem IH].
    + change ("" +:+ suffix) with suffix.
      destruct suffix; cbn [endswith]; now rewrite String.eqb_refl.
    + change (String c stem +:+ suffix) with (String c (stem +:+ suffix)).
      cbn [endswith]. rewrite IH. apply orb_true_r.
Qed.

(** The files the loop of [_parse_junit_xml] visits are the report files
    of the directory. *)
Lemma report_files_sorted (entries files : list (string * parsed)) :
  NoDup (List.map fst entries) ->
  report_files entries files ->
  sorted (glob_xml entries) = files.
Proof.
  intros Hnames [Hfiles Hsorted].
  symmetry.
  apply sorted_unique.
  - now apply strictly_sorted_leb.
  - apply sorted_strongly.
  - now apply strictly_sorted_names.
  - transitivity (glob_xml entries); [|symmetry; apply sorted_perm].
    apply NoDup_Permutation.
    + apply NoDup_names. now apply strictly_sorted_names.
    + apply NoDup_names. unfold glob_xml. now apply NoDup_filter_names.
    + intros file. rewrite !list_elem_of_In, Hfiles. unfold glob_xml.
      rewrite List.filter_In, endswith_spec. reflexivity.
Qed.

(** *** The cases of a file *)

Lemma filter_flat_map {A B : Type} (f : B -> bool) (g : A -> list B)
    (l : list A) :
  List.filter f (List.flat_map g l)
  = List.flat_map (fun x => List.filter f (g x)) l.
Proof.
  induction l as [|x l IH]; simpl; [reflexivity|].
  now rewrite List.filter_app, IH.
Qed.

Lemma iter_elements (t : string) (e : Element) :
  iter t e = List.filter (fun x => String.eqb (tag x) t) (elements e).
Proof.
  induction e as [t' a x cs IH] using Element_nested_ind.
  cbn [iter elements List.filter tag].
  destruct (String.eqb t' t); cbn [app]; [f_equal|];
    rewrite filter_flat_map; clear -IH;
    (induction IH as [|c cs Hc _ IHcs]; simpl; [reflexivity|];
     now rewrite Hc, IHcs).
Qed.

Lemma marker_find (name : string) (case node : Element) :
  marker name case node -> find case name = Some node.
Proof.
  intros (before & after & Hchildren & Htag & Hbefore).
  unfold find. rewrite Hchildren. clear Hchildren.
  induction Hbefore as [|c before Hc _ IH]; simpl.
  - rewrite Htag, String.eqb_refl. reflexivity.
  - apply String.eqb_neq in Hc. rewrite Hc. exact IH.
Qed.

Lemma unmarked_find (name : string) (case : Element) :
  unmarked name case -> find case name = None.
Proof.
  unfold unmarked, find.
  induction 1 as [|c cs Hc _ IH]; simpl; [reflexivity|].
  apply String.eqb_neq in Hc. rewrite Hc. exact IH.
Qed.

(** The check of the loop body is the one the case maps to. *)
Lemma check_of_maps_to (case : Element) : maps_to case (check_of case).
Proof.
  unfold maps_to, check_of, get, attribute, message_of, default.
  split; [|split; [|split]].
  - destruct (find case "skipped"); [reflexivity|].
    destruct (find case "failure"); [reflexivity|].
    destruct (find case "error"); reflexivity.
  - intros [node Hnode]. rewrite (marker_find _ _ _ Hnode). split; reflexivity.
  - intros Hskipped node Hnode. rewrite (unmarked_find _ _ Hskipped).
    destruct Hnode as [Hnode|[Hfailure Hnode]].
    + rewrite (marker_find _ _ _ Hnode). cbn [passed details].
      repeat split. apply substring_length_le.
    + rewrite (unmarked_find _ _ Hfailure), (marker_find _ _ _ Hnode).
      cbn [passed details]. repeat split. apply substring_length_le.
  - intros Hskipped Hfailure Herror.
    rewrite (unmarked_find _ _ Hskipped), (unmarked_find _ _ Hfailure),
      (unmarked_find _ _ Herror).
    split; reflexivity.
Qed.

Lemma parse_single_xml_cases (file : parsed) :
  (forall e, file <> Fails e) ->
  _parse_single_xml file = Ok (List.map check_of (test_case_records file)).
Proof.
  intros Hreadable. destruct file as [root| |e]; simpl.
  - rewrite (fold_append_map check_of). simpl.
    now rewrite iter_elements.
  - reflexivity.
  - now destruct (Hreadable e).
Qed.

(** *** The loop over the files *)

Lemma parse_loop_raised (files : list (string * parsed)) (e : exn) :
  fold_left
    (fun acc xml_file =>
       let? checks := acc in
       let? more := _parse_single_xml (snd xml_file) in
       Ok (checks ++ more)%list)
    files (Raise e)
  = Raise e.
Proof. induction files as [|file files IH]; simpl; auto. Qed.

Lemma parse_loop_readable (files : list (string * parsed))
    (acc : list ValidationCheck) :
  readable files ->
  fold_left
    (fun acc xml_file =>
       let? checks := acc in
       let? more := _parse_single_xml (snd xml_file) in
       Ok (checks ++ more)%list)
    files (Ok acc)
  = Ok (acc
        ++ List.map check_of
             (List.flat_map (fun file => test_case_records (snd file))
                files))%list.
Proof.
  intros Hreadable. revert acc.
  induction Hreadable as [|file files Hfile _ IH]; intros acc; simpl.
  - now rewrite List.app_nil_r.
  - rewrite (parse_single_xml_cases (snd file) Hfile). cbn [res_bind].
    rewrite IH, List.map_app, List.app_assoc. reflexivity.
Qed.

Lemma parse_loop_fails (before after : list (string * parsed))
    (file : string * parsed) (e : exn) (acc : list ValidationCheck) :
  readable before ->
  snd file = Fails e ->
  fold_left
    (fun acc xml_file =>
       let? checks := acc in
       let? more := _parse_single_xml (snd xml_file) in
       Ok (checks ++ more)%list)
    (before ++ file :: after) (Ok acc)
  = Raise e.
Proof.
  intros Hbefore Hfile. rewrite fold_left_app.
  rewrite (parse_loop_readable before acc Hbefore). simpl.
  rewrite Hfile. simpl. apply parse_loop_raised.
Qed.

End Reports.

(** C6. Every test-case record of the report files that parse gives one
    check, in the order of the files (the [*.xml] entries of the directory
    by name) and then of the document: its name is the class name, a dot
    and the case's name; a case with a [skipped] marker passes with details
    [SKIPPED]; otherwise a case with a [failure] marker, or else an [error]
    marker, fails with that marker's message (its [message] attribute, or
    its body text when it has none) cut to 500 characters; any other case
    passes with details [PASSED].  A file that is no XML document gives no
    check; a file on which the parser raises another exception ends the
    parse with that exception. *)
Theorem C6_report_cases_map_to_checks
    (self : GradleRunner.t) (p : GradleRunner.project)
    (entries files : list (string * GradleRunner.parsed)) :
  GradleRunner.test_results p = Some entries ->
  NoDup (List.map fst entries) ->
  report_files entries files ->
  (readable files ->
   exists checks,
     GradleRunner._parse_junit_xml self p = Ok checks
     /\ Forall2 maps_to
          (List.flat_map (fun file => test_case_records (snd file)) files)
          checks)
  /\ (forall before file after e,
        files = (before ++ file :: after)%list ->
        readable before ->
        snd file = GradleRunner.Fails e ->
        GradleRunner._parse_junit_xml self p = Raise e).
Proof.
  intros Hentries Hnames Hfiles.
  unfold GradleRunner._parse_junit_xml. rewrite Hentries.
  rewrite (report_files_sorted entries files Hnames Hfiles).
  split.
  - intros Hreadable. eexists. split.
    + apply (parse_loop_readable files [] Hreadable).
    + cbn [app].
      induction (List.flat_map (fun file => test_case_records (snd file))
                   files) as [|case cases IH]; simpl; constructor;
        [apply check_of_maps_to|exact IH].
  - intros before file after e -> Hbefore Hfile.
    now apply parse_loop_fails.
Qed.

Lemma C6_report_cases_map_to_checks_witness :
  let p := GradleRunner.Project true (Some report_directory) in
  let checks :=
    [schema.Build_ValidationCheck "com.example.OrderTest.ships" false
       "connection refused";
     schema.Build_ValidationCheck ".refunds" true "SKIPPED";
     schema.Build_ValidationCheck "com.example.UserTest.loads" true "PASSED";
     schema.Build_ValidationCheck "com.example.UserTest.saves" false
       "expected 1 but was 2"] in
  GradleRunner._parse_junit_xml (GradleRunner.Build "/repo") p = Ok checks
  /\ Forall2 maps_to
       (List.flat_map (fun file => test_case_records (snd file))
          [("TEST-cut.xml", GradleRunner.ParseError);
           ("TEST-orders.xml", GradleRunner.Tree report_orders);
           ("TEST-users.xml", GradleRunner.Tree report_users)])
       checks.
Proof.
  intros p checks.
  destruct (C6_report_cases_map_to_checks (GradleRunner.Build "/repo") p
              report_directory
              [("TEST-cut.xml", GradleRunner.ParseError);
               ("TEST-orders.xml", GradleRunner.Tree report_orders);
               ("TEST-users.xml", GradleRunner.Tree report_users)]
              eq_refl) as [Hmapped _].
  - apply (bool_decide_unpack _). vm_compute. exact I.
  - split.
    + intros file. split.
      * intros [<-|[<-|[<-|[]]]]; simpl;
          (split; [tauto|apply endswith_spec; reflexivity]).
      * intros [[<-|[<-|[<-|[<-|[]]]]] Hxml]; simpl; auto.
        apply endswith_spec in Hxml. vm_compute in Hxml. discriminate Hxml.
    + repeat constructor.
  - destruct Hmapped as (parsed & Hparsed & Hall).
    + repeat constructor; discriminate.
    + assert (Hchecks : parsed = checks).
      { vm_compute in Hparsed. injection Hparsed as <-. reflexivity. }
      rewrite Hchecks in Hparsed, Hall. split; [exact Hparsed|exact Hall].
Defined.

(** C1, as stated, fails: a successful build with no parsed test case does
    not yield zero checks. *)
Lemma C1_counterexample :
  ~ (forall subprocess_run self extra_args p p' returncode out err,
        subprocess_run
          (["gradle"; "test"; "--daemon"; "--continue"]
           ++ match extra_args with Some args => args | None => [] end)%list
          (GradleRunner.repo_path self) p
        = (p', Ok (returncode, out, err)) ->
        returncode = 0%Z ->
        GradleRunner._parse_junit_xml self p' = Ok [] ->
        snd (GradleRunner.run_tests subprocess_run self extra_args p) = Ok []).
Proof.
  intros H.
  specialize (H build_succeeds_without_reports (GradleRunner.Build "/repo")
                None (GradleRunner.Project true None)
                (GradleRunner.Project true None) 0%Z "BUILD SUCCESSFUL" ""
                eq_refl eq_refl eq_refl).
  discriminate H.
Qed.

(** C1, amended.  When the build command has run, [run_tests] returns the
    per-case checks whenever parsing the report files yields at least one;
    when parsing yields none it returns exactly one check named
    [gradle-build] whose [passed] is the build's success: on a failed build
    its details are the captured output, standard output then standard
    error, and on a successful build they are the fixed text
    [Build succeeded, no test cases found].  When parsing raises, on a
    report file that cannot be read, [run_tests] raises the same
    exception. *)
Theorem C1_run_tests_checks
    (subprocess_run :
       list string -> string -> ST GradleRunner.project (Z * string * string))
    (self : GradleRunner.t) (extra_args : option (list string))
    (p p' : GradleRunner.project) (returncode : Z) (out err : string) :
  subprocess_run
    (["gradle"; "test"; "--daemon"; "--continue"]
     ++ match extra_args with Some args => args | None => [] end)%list
    (GradleRunner.repo_path self) p
  = (p', Ok (returncode, out, err)) ->
  (forall parsed,
     GradleRunner._parse_junit_xml self p' = Ok parsed ->
     exists checks,
       GradleRunner.run_tests subprocess_run self extra_args p
       = (p', Ok checks)
       /\ (parsed <> [] -> checks = parsed)
       /\ (parsed = [] -> returncode <> 0%Z ->
           checks
           = [schema.Build_ValidationCheck "gradle-build" false
                (out +:+ err)])
       /\ (parsed = [] -> returncode = 0%Z ->
           checks
           = [schema.Build_ValidationCheck "gradle-build" true
                "Build succeeded, no test cases found"]))
  /\ (forall e,
        GradleRunner._parse_junit_xml self p' = Raise e ->
        GradleRunner.run_tests subprocess_run self extra_args p
        = (p', Raise e)).
Proof.
  intros Hrun.
  assert (Hargs :
    match extra_args with Some (arg :: args) => arg :: args | _ => [] end
    = match extra_args with Some args => args | None => [] end).
  { destruct extra_args as [[|a args]|]; reflexivity. }
  unfold GradleRunner.run_tests, GradleRunner._invoke_gradle, bind, ret,
    reading.
  rewrite Hargs, Hrun. cbn [fst snd].
  split.
  - intros parsed ->. destruct parsed as [|c cs].
    + eexists. split; [reflexivity|]. split; [congruence|]. split.
      * intros _ Hrc. apply Z.eqb_neq in Hrc. now rewrite Hrc.
      * intros _ ->. reflexivity.
    + eexists. split; [reflexivity|]. split; [reflexivity|].
      split; intros; discriminate.
  - intros e ->. reflexivity.
Qed.

Lemma C1_run_tests_checks_witness :
  GradleRunner.run_tests build_fails_without_reports
    (GradleRunner.Build "/repo") None (GradleRunner.Project true None)
  = (GradleRunner.Project true None,
     Ok [schema.Build_ValidationCheck "gradle-build" false
           "error: package does not exist"]).
Proof.
  destruct (C1_run_tests_checks build_fails_without_reports
              (GradleRunner.Build "/repo") None
              (GradleRunner.Project true None)
              (GradleRunner.Project true None) 1%Z ""
              "error: package does not exist" eq_refl)
    as [Hparsed _].
  destruct (Hparsed [] eq_refl) as (checks & Hrun & _ & Hfail & _).
  rewrite Hrun. rewrite (Hfail eq_refl); [reflexivity|discriminate].
Defined.

(** ** Configuration loading *)

(** C9, as stated, fails: a configuration with an empty endpoint list
    loads. *)
Lemma C9_counterexample :
  ~ (forall as_bool as_int error_text (d : list (string * pyval)) w,
        dict_get d "rest_endpoints" = Some (PList []) ->
        exists e,
          config.load_config as_bool as_int error_text (PDict d) w = Raise e).
Proof.
  intros H.
  destruct (H (fun _ => None) (fun _ => None) (fun _ => "")
              (match config_without_endpoints with PDict d => d | _ => [] end)
              empty_world eq_refl) as [e He].
  vm_compute in He. discriminate He.
Qed.

(** C9, amended.  Loading a configuration whose list of target
    repositories is empty fails with a [ValueError]; an empty list of
    endpoint definitions is no error: a configuration that loads with some
    list of endpoints loads with the empty list as well, and gives the same
    [Config] with no endpoint. *)
Theorem C9_load_config_empty_lists
    (as_bool : pyval -> option bool) (as_int : pyval -> option Z)
    (error_text : pyval -> string) (d : list (string * pyval)) (w : world) :
  (dict_get d "repositories" = Some (PList []) ->
   config.load_config as_bool as_int error_text (PDict d) w
   = Raise (ValueError ("Invalid configuration: " +:+ error_text (PDict d))))
  /\ (forall endpoints cfg,
        config.load_config as_bool as_int error_text
          (PDict (dict_set d "rest_endpoints" (PList endpoints))) w
        = Ok cfg ->
        config.load_config as_bool as_int error_text
          (PDict (dict_set d "rest_endpoints" (PList []))) w
        = Ok (schema.Build_Config
                (schema.project_name cfg) (schema.work_dir cfg)
                (schema.repositories cfg) []
                (schema.attribute_mappings cfg) (schema.graphql_endpoint cfg)
                (schema.graphql_schema_path cfg) (schema.options cfg))).
Proof.
  split.
  - intros Hrepos.
    unfold config.load_config, config.validate_Config, config.required.
    simpl res_bind. rewrite Hrepos. simpl.
    destruct (dict_get d "project_name" ≫= config.as_str); simpl;
      [|reflexivity].
    destruct (dict_get d "work_dir" ≫= config.as_str); reflexivity.
  - intros endpoints cfg.
    unfold config.load_config, config.validate_Config, config.required,
      config.with_default.
    simpl res_bind.
    rewrite !dict_get_set_eq.
    rewrite !(dict_get_set_ne d "rest_endpoints") by discriminate.
    destruct (dict_get d "project_name" ≫= config.as_str); simpl;
      [|discriminate].
    destruct (dict_get d "work_dir" ≫= config.as_str); simpl; [|discriminate].
    destruct ((dict_get d "repositories"
               ≫= config.list_of config.validate_Repository)
              ≫= config.not_empty); simpl; [|discriminate].
    destruct (config.list_of config.validate_RestEndpoint (PList endpoints));
      simpl; [|discriminate].
    destruct (dict_get d "attribute_mappings"
              ≫= config.list_of config.validate_AttributeMapping); simpl;
      [|discriminate].
    destruct (dict_get d "graphql_endpoint" ≫= config.as_str); simpl;
      [|discriminate].
    destruct (dict_get d "graphql_schema_path" ≫= config.as_str); simpl;
      [|discriminate].
    destruct (match dict_get d "options" with
              | Some v => config.validate_ConfigOptions as_bool as_int v
              | None => Some schema.default_options
              end); simpl; [|discriminate].
    intros H. injection H as <-. reflexivity.
Qed.

Lemma C9_load_config_empty_lists_witness :
  let load :=
    config.load_config (fun _ => None) (fun _ => None) (fun _ => "rejected") in
  load (PDict sample_config_dict) empty_world = Ok sample_Config
  /\ load (PDict (dict_set sample_config_dict "repositories" (PList [])))
       empty_world
     = Raise (ValueError "Invalid configuration: rejected")
  /\ load (PDict (dict_set sample_config_dict "rest_endpoints" (PList [])))
       empty_world
     = Ok (schema.Build_Config "test-migration" "/tmp/test-workspace"
             [schema.Build_Repository "test-frontend"
                "https://github.com/test/frontend.git" "main" "javascript"]
             []
             [schema.Build_AttributeMapping "get-user" "user_name" "userName"
                "User"]
             "https://api.example.com/graphql" "./schema.graphql"
             schema.default_options).
Proof.
  intros load. split; [reflexivity|]. split.
  - apply (proj1 (C9_load_config_empty_lists (fun _ => None) (fun _ => None)
                    (fun _ => "rejected")
                    (dict_set sample_config_dict "repositories" (PList []))
                    empty_world)).
    reflexivity.
  - apply (proj2 (C9_load_config_empty_lists (fun _ => None) (fun _ => None)
                    (fun _ => "rejected") sample_config_dict empty_world)
             [PDict [("id", PStr "get-user");
                     ("method", PStr "GET");
                     ("path", PStr "/api/v1/users/{id}");
                     ("patterns", PList [PStr "fetch('/api/v1/users/'"])]]
             sample_Config).
    reflexivity.
Defined.

(** ** JSON documents: what is written is what is read *)

Lemma existsb_eqb_elem_of (k : string) (l : list string) :
  existsb (String.eqb k) l = true <-> k ∈ l.
Proof.
  induction l as [|a l IH]; simpl.
  - split; [discriminate|]. intros H. inversion H.
  - rewrite orb_true_iff, IH, elem_of_cons, String.eqb_eq. reflexivity.
Qed.

Lemma distinct_NoDup (l : list string) : distinct l = true <-> NoDup l.
Proof.
  induction l as [|a l IH]; simpl.
  - split; [constructor|reflexivity].
  - rewrite andb_true_iff, negb_true_iff, NoDup_cons, IH.
    rewrite <- not_true_iff_false, existsb_eqb_elem_of. reflexivity.
Qed.

Lemma dict_get_None {A : Type} (d : list (string * A)) (k : string) :
  dict_get d k = None <-> k ∉ dict_keys d.
Proof.
  induction d as [|[k' v] d IH]; simpl.
  - split; [|reflexivity]. intros _ H. inversion H.
  - rewrite not_elem_of_cons. destruct (String.eqb k' k) eqn:E.
    + apply String.eqb_eq in E. subst. split; [discriminate|].
      intros [H _]. contradiction.
    + apply String.eqb_neq in E. rewrite IH. split; [|tauto].
      intros H. split; [congruence|exact H].
Qed.

Lemma dict_set_fresh {A : Type} (d : list (string * A)) k v :
  k ∉ dict_keys d -> dict_set d k v = (d ++ [(k, v)])%list.
Proof.
  induction d as [|[k' v'] d IH]; simpl; [reflexivity|].
  rewrite not_elem_of_cons. intros [Hne Hnin].
  destruct (String.eqb k' k) eqn:E.
  - apply String.eqb_eq in E. congruence.
  - now rewrite IH.
Qed.

Lemma dict_keys_set {A : Type} (d : list (string * A)) k v :
  dict_keys (dict_set d k v)
  = match dict_get d k with
    | Some _ => dict_keys d
    | None => (dict_keys d ++ [k])%list
    end.
Proof.
  induction d as [|[k' v'] d IH]; simpl; [reflexivity|].
  destruct (String.eqb k' k) eqn:E; simpl; [reflexivity|].
  rewrite IH. destruct (dict_get d k); reflexivity.
Qed.

Lemma dict_set_NoDup {A : Type} (d : list (string * A)) k v :
  NoDup (dict_keys d) -> NoDup (dict_keys (dict_set d k v)).
Proof.
  intros Hd. rewrite dict_keys_set.
  destruct (dict_get d k) eqn:E; [exact Hd|].
  apply dict_get_None in E. apply NoDup_app. split; [exact Hd|].
  split; [|apply NoDup_singleton].
  intros x Hx Hk. apply list_elem_of_singleton in Hk. subst. contradiction.
Qed.

Lemma dict_update_NoDup {A : Type} (other d : list (string * A)) :
  NoDup (dict_keys d) -> NoDup (dict_keys (dict_update d other)).
Proof.
  revert d. unfold dict_update.
  induction other as [|[k v] other IH]; intros d Hd; simpl; [exact Hd|].
  apply IH. now apply dict_set_NoDup.
Qed.

Lemma dict_update_fresh {A : Type} (other d : list (string * A)) :
  NoDup (dict_keys d ++ dict_keys other) ->
  dict_update d other = (d ++ other)%list.
Proof.
  revert d. unfold dict_update.
  induction other as [|[k v] other IH]; intros d Hd; simpl.
  - now rewrite List.app_nil_r.
  - assert (Hk : k ∉ dict_keys d).
    { apply NoDup_app in Hd. destruct Hd as (_ & Hd & _).
      intros Hin. apply (Hd k Hin). simpl. left. }
    rewrite (dict_set_fresh d k v Hk). rewrite IH.
    + now rewrite <- List.app_assoc.
    + unfold dict_keys in *. rewrite List.map_app. simpl.
      rewrite <- List.app_assoc. exact Hd.
Qed.

Lemma dict_set_Forall {A : Type} (Q : string * A -> Prop)
    (d : list (string * A)) k v :
  (forall k', Q (k', v)) -> Forall Q d -> Forall Q (dict_set d k v).
Proof.
  intros Hv. induction 1 as [|[k' v'] d Hq Hd IH]; simpl.
  - constructor; [apply Hv|constructor].
  - destruct (String.eqb k' k); constructor; auto.
Qed.

Lemma dict_update_Forall {A : Type} (Q : string * A -> Prop)
    (other d : list (string * A)) :
  (forall k k' v, Q (k, v) -> Q (k', v)) ->
  Forall Q other -> Forall Q d -> Forall Q (dict_update d other).
Proof.
  intros Hk Hother. revert d. unfold dict_update.
  induction Hother as [|[k v] other Hq Ho IH]; intros d Hd; simpl;
    [exact Hd|].
  apply IH. apply dict_set_Forall; [|exact Hd].
  intros k'. apply (Hk k). exact Hq.
Qed.

Lemma dict_get_Forall {A : Type} (Q : A -> Prop) (d : list (string * A)) k v :
  Forall (fun kv => Q (snd kv)) d -> dict_get d k = Some v -> Q v.
Proof.
  induction 1 as [|[k' v'] d Hq Hd IH]; simpl; [discriminate|].
  destruct (String.eqb k' k); [|exact IH].
  intros H. injection H as <-. exact Hq.
Qed.

(** [json_native], unfolded on a dictionary. *)
Lemma json_native_dict (d : list (string * pyval)) :
  json_native (PDict d) = true
  <-> NoDup (dict_keys d) /\ Forall (fun kv => json_native (snd kv) = true) d.
Proof.
  simpl. rewrite andb_true_iff, distinct_NoDup, forallb_forall,
    List.Forall_forall.
  split; intros [H1 H2]; (split; [exact H1|]); intros x Hx; apply H2;
    exact Hx.
Qed.

Lemma json_roundtrip (v : pyval) :
  json_native v = true -> json_load (json_dump v) = v.
Proof.
  induction v as [| | | |l IH|l IH|d IH] using pyval_nested_ind;
    intros Hn; try reflexivity; try discriminate.
  - simpl. f_equal. rewrite List.map_map. simpl in Hn.
    induction IH as [|x l Hx _ IHl]; simpl in *; [reflexivity|].
    apply andb_true_iff in Hn as [H1 H2]. f_equal; auto.
  - apply json_native_dict in Hn as [Hkeys Hvalues].
    simpl. f_equal. rewrite List.map_map. simpl.
    assert (Hmap :
      List.map (fun kv : string * pyval =>
                  (fst kv, json_load (json_dump (snd kv)))) d = d).
    { clear Hkeys.
      induction IH as [|[k x] d Hx _ IHd]; simpl in *; [reflexivity|].
      inversion Hvalues; subst. f_equal; [|auto]. f_equal. auto. }
    rewrite Hmap. unfold dict_of_pairs.
    rewrite dict_update_fresh; [reflexivity|exact Hkeys].
Qed.

Lemma json_load_native (j : json) : json_native (json_load j) = true.
Proof.
  induction j as [| | | |items IH|members IH] using json_nested_ind;
    try reflexivity.
  - simpl. apply forallb_forall. intros x Hx.
    apply List.in_map_iff in Hx as (y & <- & Hy).
    rewrite List.Forall_forall in IH. auto.
  - change (json_native
              (PDict (dict_of_pairs
                        (List.map (fun kv => (fst kv, json_load (snd kv)))
                           members))) = true).
    apply json_native_dict. split.
    + apply dict_update_NoDup. constructor.
    + apply dict_update_Forall; [auto| |constructor].
      induction IH as [|[k x] members Hx _ IHm]; simpl; constructor; auto.
Qed.

Lemma json_native_get (d : list (string * pyval)) (k : string) (v : pyval) :
  json_native (PDict d) = true -> dict_get d k = Some v ->
  json_native v = true.
Proof.
  intros Hd Hget. apply json_native_dict in Hd as [_ Hd].
  exact (dict_get_Forall (fun v => json_native v = true) d k v Hd Hget).
Qed.

Lemma json_native_set (d : list (string * pyval)) (k : string) (v : pyval) :
  json_native (PDict d) = true -> json_native v = true ->
  json_native (PDict (dict_set d k v)) = true.
Proof.
  intros Hd Hv. apply json_native_dict in Hd as [Hkeys Hd].
  apply json_native_dict. split; [now apply dict_set_NoDup|].
  apply dict_set_Forall; auto.
Qed.

Lemma json_native_update (d other : list (string * pyval)) :
  json_native (PDict d) = true -> json_native (PDict other) = true ->
  json_native (PDict (dict_update d other)) = true.
Proof.
  intros Hd Ho. apply json_native_dict in Hd as [Hkeys Hd].
  apply json_native_dict in Ho as [_ Ho].
  apply json_native_dict. split; [now apply dict_update_NoDup|].
  apply dict_update_Forall; auto.
Qed.

(** ** The result store *)

Lemma files_write_json_eq (path : string) (v : pyval) (w : world) :
  files (write_json path v w) !! path = Some (json_dump v).
Proof. unfold write_json, set_files. simpl. apply lookup_insert_eq. Qed.

Lemma files_write_json_ne (path path' : string) (v : pyval) (w : world) :
  path <> path' -> files (write_json path v w) !! path' = files w !! path'.
Proof.
  intros Hne. unfold write_json, set_files. simpl.
  now apply lookup_insert_ne.
Qed.

(** C5, as stated, fails: [json.dump] writes a tuple as an array and
    [json.load] reads an array as a list, and a list is not equal to a
    tuple. *)
Lemma C5_counterexample :
  ~ (forall work_dir P R w,
        py_eq (StateManager._get_result (StateManager.__init__ work_dir) P
                 (StateManager._save_result (StateManager.__init__ work_dir)
                    P R w))
          R = true).
Proof.
  intros H.
  specialize (H "/work" "discovery" result_with_tuple empty_world).
  unfold StateManager._get_result, StateManager._save_result in H.
  rewrite files_write_json_eq in H. vm_compute in H. discriminate H.
Qed.

(** C5, amended.  For every phase name and every result made of [None],
    booleans, integers, strings, lists and dictionaries with string keys,
    saving the result and then reading the phase returns the result, from
    the instance that saved it and from a fresh instance over the same
    working directory; and reading a phase whose file does not exist
    returns [None]. *)
Theorem C5_save_then_get
    (work_dir P : string) (R : pyval) (w : world) :
  json_native R = true ->
  let store := StateManager.__init__ work_dir in
  let w' := StateManager._save_result store P R w in
  StateManager._get_result store P w' = R
  /\ (forall fresh,
        StateManager.work_dir fresh = work_dir ->
        StateManager._get_result fresh P w' = R)
  /\ (forall other w0,
        files w0 !! StateManager._get_state_file other P = None ->
        StateManager._get_result other P w0 = PNone).
Proof.
  intros Hnative store w'. unfold w', store.
  unfold StateManager._get_result, StateManager._save_result.
  split; [|split].
  - rewrite files_write_json_eq. apply json_roundtrip. exact Hnative.
  - intros [fresh_dir] Hdir. simpl in Hdir. subst fresh_dir.
    rewrite files_write_json_eq. apply json_roundtrip. exact Hnative.
  - intros other w0 Habsent. now rewrite Habsent.
Qed.

Lemma C5_save_then_get_witness :
  StateManager._get_result (StateManager.__init__ "/work") "discovery"
    (StateManager._save_result (StateManager.__init__ "/work") "discovery"
       (PDict [("phase", PStr "discovery"); ("usages", PList [])])
       empty_world)
  = PDict [("phase", PStr "discovery"); ("usages", PList [])].
Proof.
  exact (proj1 (C5_save_then_get "/work" "discovery"
                  (PDict [("phase", PStr "discovery"); ("usages", PList [])])
                  empty_world eq_refl)).
Defined.

(** ** The progress log *)

Section Progress.

Import ProgressTracker.

Lemma dict_set_not_nil {A : Type} (d : list (string * A)) k v :
  dict_set d k v <> [].
Proof.
  destruct d as [|[k' v'] d]; simpl; [discriminate|].
  destruct (String.eqb k' k); discriminate.
Qed.

Lemma truthy_dict_set (d : list (string * pyval)) k v :
  truthy (PDict (dict_set d k v)) = true.
Proof.
  simpl. pose proof (dict_set_not_nil d k v).
  destruct (dict_set d k v); congruence.
Qed.

Lemma read_progress_native (self : t) (w : world) :
  json_native (read_progress self w) = true.
Proof.
  unfold read_progress. destruct (files w !! progress_file self).
  - apply json_load_native.
  - reflexivity.
Qed.

Lemma read_progress_written (self : t) (progress : pyval) (w : world) :
  json_native progress = true ->
  read_progress self (_write_progress self progress w) = progress.
Proof.
  intros Hn. unfold read_progress, _write_progress.
  rewrite files_write_json_eq. now apply json_roundtrip.
Qed.

Lemma phase_entry_native (self : t) (phase : string) (w : world) pr ph e :
  phase_entry self phase w = Ok (pr, ph, e) ->
  json_native (PDict pr) = true
  /\ json_native (PDict ph) = true
  /\ json_native (PDict e) = true.
Proof.
  unfold phase_entry.
  assert (Hprogress :
    json_native (py_or (read_progress self w) (PDict [("phases", PDict [])]))
    = true).
  { unfold py_or. destruct (truthy (read_progress self w));
      [apply read_progress_native|reflexivity]. }
  destruct (py_or (read_progress self w) (PDict [("phases", PDict [])]))
    as [|b|z|s|l|l|pr0]; try discriminate.
  unfold py_getitem at 1.
  destruct (dict_get pr0 "phases") as [phases|] eqn:Hphases; [|discriminate].
  pose proof (json_native_get pr0 "phases" phases Hprogress Hphases) as Hph.
  cbn [res_bind].
  destruct phases as [|b|z|s|l|l|ph0]; try discriminate;
    cbn [py_contains res_bind].
  - destruct (str_contains s phase); discriminate.
  - destruct (existsb _ l); discriminate.
  - destruct (dict_get ph0 phase) as [entry|] eqn:Hentry.
    + cbn [res_bind py_getitem]. rewrite Hentry.
      pose proof (json_native_get ph0 phase entry Hph Hentry) as He.
      destruct entry; try discriminate.
      intros H. injection H as <- <- <-. auto.
    + cbn [res_bind py_setitem py_getitem]. rewrite dict_get_set_eq.
      intros H. injection H as <- <- <-.
      repeat split; auto. now apply json_native_set.
Qed.

Lemma update_entry_ok (self : t) (phase : string)
    (fields : string -> list (string * pyval)) (w : world) pr ph e :
  phase_entry self phase w = Ok (pr, ph, e) ->
  update_entry self phase fields w
  = (_write_progress self
       (updated_record pr ph phase
          (dict_update e (fields (clock w (ticks w) +:+ "Z"))))
       (snd (utcnow_isoformat w)),
     Ok tt).
Proof.
  intros H. unfold update_entry. rewrite H. reflexivity.
Qed.

(** Once an entry has been written, and as long as the record read is the
    one written, the next [phase_entry] finds it. *)
Lemma phase_entry_updated (self : t) (phase : string) (w : world) pr ph e :
  read_progress self w = updated_record pr ph phase e ->
  phase_entry self phase w
  = Ok (dict_set pr "phases" (PDict (dict_set ph phase (PDict e))),
        dict_set ph phase (PDict e), e).
Proof.
  intros Hread. unfold phase_entry. rewrite Hread.
  unfold updated_record, py_or. rewrite truthy_dict_set.
  unfold py_getitem at 1. rewrite dict_get_set_eq. cbn [res_bind py_contains].
  rewrite dict_get_set_eq. cbn [res_bind py_getitem].
  rewrite dict_get_set_eq. reflexivity.
Qed.

Lemma updated_record_native pr ph phase e :
  json_native (PDict pr) = true -> json_native (PDict ph) = true ->
  json_native (PDict e) = true ->
  json_native (updated_record pr ph phase e) = true.
Proof.
  intros Hpr Hph He. unfold updated_record.
  apply json_native_set; [exact Hpr|].
  apply json_native_set; [exact Hph|exact He].
Qed.


(** What a successful [update_entry] leaves: the record read afterwards is
    the record read before with the fields set in the phase's entry. *)
Lemma update_entry_read (self : t) (phase : string)
    (fields : string -> list (string * pyval)) (w w' : world) :
  (forall now, json_native (PDict (fields now)) = true) ->
  update_entry self phase fields w = (w', Ok tt) ->
  exists pr ph e,
    phase_entry self phase w = Ok (pr, ph, e)
    /\ json_native (PDict pr) = true
    /\ json_native (PDict ph) = true
    /\ json_native (PDict e) = true
    /\ w' = _write_progress self
              (updated_record pr ph phase
                 (dict_update e (fields (clock w (ticks w) +:+ "Z"))))
              (snd (utcnow_isoformat w))
    /\ read_progress self w'
       = updated_record pr ph phase
           (dict_update e (fields (clock w (ticks w) +:+ "Z"))).
Proof.
  intros Hfields Hrun.
  destruct (phase_entry self phase w) as [[[pr ph] e]|err] eqn:Hentry.
  - rewrite (update_entry_ok _ _ _ _ _ _ _ Hentry) in Hrun.
    injection Hrun as <-.
    destruct (phase_entry_native _ _ _ _ _ _ Hentry) as (Hpr & Hph & He).
    exists pr, ph, e. repeat split; auto.
    apply read_progress_written. apply updated_record_native; auto.
    apply json_native_update; auto.
  - unfold update_entry in Hrun. rewrite Hentry in Hrun. discriminate.
Qed.

End Progress.

(** C7. After [init_progress] the record read has the project name, the
    reading of the clock as start time and an empty map of phases;
    [mark_phase_started] then gives the phase the status [in_progress] and
    a start time; [mark_phase_completed] after it gives the status
    [completed], keeps that start time, adds a completion time and the
    summary as given; [mark_phase_failed] instead gives the status [failed]
    and the error text as given. *)
Theorem C7_progress_log_lifecycle
    (self : ProgressTracker.t) (project P summary msg : string) (w : world) :
  let t_init := clock w (ticks w) +:+ "Z" in
  let t_started := clock w (S (ticks w)) +:+ "Z" in
  let t_ended := clock w (S (S (ticks w))) +:+ "Z" in
  let record phases :=
    PDict [("project", PStr project); ("started_at", PStr t_init);
           ("phases", PDict phases)] in
  let w0 := ProgressTracker.init_progress self project w in
  ProgressTracker.read_progress self w0 = record []
  /\ exists w1,
       ProgressTracker.mark_phase_started self P w0 = (w1, Ok tt)
       /\ ProgressTracker.read_progress self w1
          = record [(P, PDict [("status", PStr "in_progress");
                               ("started_at", PStr t_started)])]
       /\ (exists w2,
             ProgressTracker.mark_phase_completed self P summary w1
             = (w2, Ok tt)
             /\ ProgressTracker.read_progress self w2
                = record [(P, PDict [("status", PStr "completed");
                                     ("started_at", PStr t_started);
                                     ("completed_at", PStr t_ended);
                                     ("summary", PStr summary)])])
       /\ (exists w2,
             ProgressTracker.mark_phase_failed self P msg w1 = (w2, Ok tt)
             /\ ProgressTracker.read_progress self w2
                = record [(P, PDict [("status", PStr "failed");
                                     ("started_at", PStr t_started);
                                     ("failed_at", PStr t_ended);
                                     ("error", PStr msg)])]).
Proof.
  intros t_init t_started t_ended record w0.
  assert (Hread0 : ProgressTracker.read_progress self w0 = record []).
  { unfold w0, ProgressTracker.init_progress. simpl.
    now apply read_progress_written. }
  split; [exact Hread0|].
  assert (Hentry0 :
    ProgressTracker.phase_entry self P w0
    = Ok ([("project", PStr project); ("started_at", PStr t_init);
           ("phases", PDict [])],
          [(P, PDict [])], [])).
  { unfold ProgressTracker.phase_entry. rewrite Hread0. simpl.
    now rewrite String.eqb_refl. }
  pose proof (update_entry_ok self P
                (fun now => [("status", PStr "in_progress");
                             ("started_at", PStr now)])
                w0 _ _ _ Hentry0) as Hstart.
  cbn [dict_update fold_left fst snd dict_set] in Hstart.
  unfold updated_record in Hstart. simpl dict_set in Hstart.
  rewrite String.eqb_refl in Hstart.
  eexists. split; [exact Hstart|].
  match goal with
  | |- ProgressTracker.read_progress self ?w = _ /\ _ =>
      set (w1 := w) in *
  end.
  assert (Hread1 :
    ProgressTracker.read_progress self w1
    = updated_record
        [("project", PStr project); ("started_at", PStr t_init);
         ("phases", PDict [])]
        [] P
        [("status", PStr "in_progress"); ("started_at", PStr t_started)]).
  { unfold w1. now apply read_progress_written. }
  split; [exact Hread1|].
  pose proof (phase_entry_updated self P w1 _ _ _ Hread1) as Hentry1.
  split.
  - pose proof (update_entry_ok self P
                  (fun now => [("status", PStr "completed");
                               ("completed_at", PStr now);
                               ("summary", PStr summary)])
                  w1 _ _ _ Hentry1) as Hdone.
    eexists. split; [exact Hdone|].
    rewrite read_progress_written.
    + unfold updated_record. simpl. now rewrite !String.eqb_refl.
    + unfold updated_record. simpl. now rewrite !String.eqb_refl.
  - pose proof (update_entry_ok self P
                  (fun now => [("status", PStr "failed");
                               ("failed_at", PStr now);
                               ("error", PStr msg)])
                  w1 _ _ _ Hentry1) as Hfail.
    eexists. split; [exact Hfail|].
    rewrite read_progress_written.
    + unfold updated_record. simpl. now rewrite !String.eqb_refl.
    + unfold updated_record. simpl. now rewrite !String.eqb_refl.
Qed.

(** ** The phase runner *)

Lemma read_progress_same_file (self : ProgressTracker.t) (w w' : world) :
  files w' !! ProgressTracker.progress_file self
  = files w !! ProgressTracker.progress_file self ->
  ProgressTracker.read_progress self w' = ProgressTracker.read_progress self w.
Proof. intros H. unfold ProgressTracker.read_progress. now rewrite H. Qed.




(** ** The orchestrator *)

Lemma append_inj_prefix (p a b : string) : p +:+ a = p +:+ b -> a = b.
Proof.
  induction p as [|c p IH]; simpl; [auto|].
  intros H. injection H as H. auto.
Qed.

(** The file of a phase's result is never the progress file. *)
Lemma state_file_not_progress_file (work_dir phase : string) :
  StateManager._get_state_file (StateManager.__init__ work_dir) phase
  <> ProgressTracker.progress_file (ProgressTracker.__init__ work_dir).
Proof.
  unfold StateManager._get_state_file, ProgressTracker.__init__, path_join.
  simpl. intros H. apply append_inj_prefix in H.
  cbv in H. injection H as H.
  do 22 (destruct phase as [|? phase];
         [discriminate H | injection H as _ H]).
  destruct phase; discriminate H.
Qed.

Lemma update_entry_files (self : ProgressTracker.t) (phase : string)
    (fields : string -> list (string * pyval)) (w : world) (path : string) :
  path <> ProgressTracker.progress_file self ->
  files (fst (ProgressTracker.update_entry self phase fields w)) !! path
  = files w !! path.
Proof.
  intros Hne. unfold ProgressTracker.update_entry.
  destruct (ProgressTracker.phase_entry self phase w) as [[[pr ph] e]|err];
    simpl; [|reflexivity].
  apply lookup_insert_ne. congruence.
Qed.

Lemma validate_phase_result_files (self : Orchestrator.t) (phase : string)
    (result : pyval) (w : world) :
  files (fst (Orchestrator._validate_phase_result self phase result w))
  = files w.
Proof.
  unfold Orchestrator._validate_phase_result.
  destruct (Orchestrator.gate_of phase) as [gate|]; [|reflexivity].
  destruct (snd (gate result)) as [[]|e]; [reflexivity|].
  destruct (gates.is_GateError e); reflexivity.
Qed.

Lemma run_phases_app (_execute_phase : PhaseRunner.t -> M pyval)
    (self : Orchestrator.t) (l1 l2 : list string) (w : world) :
  Orchestrator.run_phases _execute_phase self (l1 ++ l2)%list w
  = match Orchestrator.run_phases _execute_phase self l1 w with
    | (w', Ok true) => Orchestrator.run_phases _execute_phase self l2 w'
    | other => other
    end.
Proof.
  revert w. induction l1 as [|phase l1 IH]; intros w; [reflexivity|].
  simpl. unfold bind, effect, ret.
  destruct (PhaseRunner.run _ _ _) as [w1 [result|e]]; [|reflexivity].
  destruct (truthy result); simpl; [|reflexivity].
  destruct (Orchestrator._validate_phase_result _ _ _ _) as [w2 [[|]|e]];
    simpl; try reflexivity.
  apply IH.
Qed.

(** C10. When the runner returns a result that is falsy (an empty
    dictionary as well as [None]), the pipeline prints the phase's failure
    message and returns failure: the world it ends in is the one the runner
    left plus that one line, so no gate message is printed and no later
    phase is started. *)
Theorem C10_falsy_result_fails_pipeline
    (_execute_phase : PhaseRunner.t -> M pyval) (self : Orchestrator.t)
    (done rest : list string) (phase : string) (w w1 w2 : world)
    (result : pyval) :
  Orchestrator.PHASES = (done ++ phase :: rest)%list ->
  Orchestrator.run_phases _execute_phase self done
    (ProgressTracker.init_progress (Orchestrator.progress_tracker self)
       (schema.project_name (Orchestrator.config self)) w)
  = (w1, Ok true) ->
  PhaseRunner.run _execute_phase
    (PhaseRunner.__init__ (Orchestrator.config self)
       (Orchestrator.state_manager self) (Orchestrator.progress_tracker self)
       phase)
    (print ("Starting phase: " +:+ phase) w1)
  = (w2, Ok result) ->
  truthy result = false ->
  Orchestrator.run_pipeline _execute_phase self w
  = (print ("Phase " +:+ phase +:+ " failed") w2, Ok false).
Proof.
  intros Hphases Hdone Hrun Hfalsy.
  unfold Orchestrator.run_pipeline. rewrite Hphases.
  rewrite run_phases_app, Hdone.
  simpl. unfold bind, effect, ret. simpl.
  rewrite Hrun, Hfalsy. reflexivity.
Qed.

Lemma C10_falsy_result_fails_pipeline_witness :
  exists w2,
    Orchestrator.run_pipeline (scripted_collaborator empty_migration_script)
      (Orchestrator.__init__ sample_Config) empty_world
    = (print ("Phase " +:+ "migration" +:+ " failed") w2, Ok false).
Proof.
  eexists.
  eapply (C10_falsy_result_fails_pipeline
            (scripted_collaborator empty_migration_script)
            (Orchestrator.__init__ sample_Config)
            ["discovery"; "narrowing"; "generation"] ["validation"]
            "migration" empty_world).
  - reflexivity.
  - vm_compute. reflexivity.
  - vm_compute. reflexivity.
  - reflexivity.
Defined.

(** The orchestrator and the runner write the progress file only: what is
    read from the result store changes with the collaborator alone. *)
Lemma mark_get_result (tracker : ProgressTracker.t) (results : StateManager.t)
    (work_dir phase Q : string)
    (fields : string -> list (string * pyval)) (w : world) :
  tracker = ProgressTracker.__init__ work_dir ->
  results = StateManager.__init__ work_dir ->
  StateManager._get_result results Q
    (fst (ProgressTracker.update_entry tracker phase fields w))
  = StateManager._get_result results Q w.
Proof.
  intros -> ->. unfold StateManager._get_result.
  rewrite update_entry_files; [reflexivity|].
  apply state_file_not_progress_file.
Qed.

Section ResultStore.

Variable _execute_phase : PhaseRunner.t -> M pyval.
Variable config : schema.Config.
Variable I : world -> Prop.

Let self := Orchestrator.__init__ config.
Let results := Orchestrator.state_manager self.
Let tracker := Orchestrator.progress_tracker self.
Let runner (phase : string) :=
  PhaseRunner.__init__ config results tracker phase.

Hypothesis I_store :
  forall w1 w2,
    (forall Q, StateManager._get_result results Q w2
               = StateManager._get_result results Q w1) ->
    I w1 -> I w2.
Hypothesis I_collaborator :
  forall phase w, I w -> I (fst (_execute_phase (runner phase) w)).

Lemma I_mark (phase : string) (fields : string -> list (string * pyval))
    (w : world) :
  I w -> I (fst (ProgressTracker.update_entry tracker phase fields w)).
Proof.
  apply I_store. intros Q.
  exact (mark_get_result tracker results (schema.work_dir config) phase Q
           fields w eq_refl eq_refl).
Qed.

Lemma I_print (line : string) (w : world) : I w -> I (print line w).
Proof. apply I_store. reflexivity. Qed.

Lemma I_run (phase : string) (w : world) :
  I w -> I (fst (PhaseRunner.run _execute_phase (runner phase) w)).
Proof.
  intros Hw. unfold PhaseRunner.run, bind, try_except, ret, raise.
  change (PhaseRunner.progress_tracker (runner phase)) with tracker.
  change (PhaseRunner.phase (runner phase)) with phase.
  unfold ProgressTracker.mark_phase_started,
    ProgressTracker.mark_phase_completed, ProgressTracker.mark_phase_failed.
  pose proof (I_mark phase
                (fun now => [("status", PStr "in_progress");
                             ("started_at", PStr now)]) w Hw) as Hstarted.
  destruct (ProgressTracker.update_entry tracker phase _ w) as [w1 [[]|e]];
    cbn [fst] in Hstarted; [|exact Hstarted].
  pose proof (I_collaborator phase w1 Hstarted) as Hdone.
  destruct (_execute_phase (runner phase) w1) as [w2 [result|e]];
    cbn [fst] in Hdone.
  - destruct (truthy result).
    + pose proof (I_mark phase
                    (fun now => [("status", PStr "completed");
                                 ("completed_at", PStr now);
                                 ("summary",
                                  PStr ("Phase " +:+ phase
                                        +:+ " completed successfully"))])
                    w2 Hdone) as Hmark.
      destruct (ProgressTracker.update_entry tracker phase _ w2)
        as [w3 [[]|e]]; cbn [fst] in Hmark.
      * exact Hmark.
      * destruct (is_Exception e); [|exact Hmark].
        pose proof (I_mark phase
                      (fun now => [("status", PStr "failed");
                                   ("failed_at", PStr now);
                                   ("error", PStr (exn_msg e))])
                      w3 Hmark) as Hmark'.
        destruct (ProgressTracker.update_entry tracker phase _ w3)
          as [w4 [[]|e']]; exact Hmark'.
    + pose proof (I_mark phase
                    (fun now => [("status", PStr "failed");
                                 ("failed_at", PStr now);
                                 ("error",
                                  PStr ("Phase " +:+ phase
                                        +:+ " produced no results"))])
                    w2 Hdone) as Hmark.
      destruct (ProgressTracker.update_entry tracker phase _ w2)
        as [w3 [[]|e]]; cbn [fst] in Hmark.
      * exact Hmark.
      * destruct (is_Exception e); [|exact Hmark].
        pose proof (I_mark phase
                      (fun now => [("status", PStr "failed");
                                   ("failed_at", PStr now);
                                   ("error", PStr (exn_msg e))])
                      w3 Hmark) as Hmark'.
        destruct (ProgressTracker.update_entry tracker phase _ w3)
          as [w4 [[]|e']]; exact Hmark'.
  - destruct (is_Exception e); [|exact Hdone].
    pose proof (I_mark phase
                  (fun now => [("status", PStr "failed");
                               ("failed_at", PStr now);
                               ("error", PStr (exn_msg e))])
                  w2 Hdone) as Hmark.
    destruct (ProgressTracker.update_entry tracker phase _ w2)
      as [w3 [[]|e']]; exact Hmark.
Qed.

Lemma I_validate (phase : string) (result : pyval) (w : world) :
  I w -> I (fst (Orchestrator._validate_phase_result self phase result w)).
Proof.
  apply I_store. intros Q. unfold StateManager._get_result.
  now rewrite validate_phase_result_files.
Qed.

Lemma I_run_phases (phases : list string) (w : world) :
  I w -> I (fst (Orchestrator.run_phases _execute_phase self phases w)).
Proof.
  revert w. induction phases as [|phase phases IH]; intros w Hw; [exact Hw|].
  cbn [Orchestrator.run_phases]. unfold bind, effect, ret.
  pose proof (I_run phase _ (I_print ("Starting phase: " +:+ phase) w Hw))
    as Hrun.
  change (PhaseRunner.__init__ (Orchestrator.config self)
            (Orchestrator.state_manager self)
            (Orchestrator.progress_tracker self) phase) with (runner phase).
  destruct (PhaseRunner.run _execute_phase (runner phase) _)
    as [w2 [result|e]]; cbn [fst] in Hrun; [|exact Hrun].
  destruct (truthy result); cbn [negb].
  - pose proof (I_validate phase result w2 Hrun) as Hgate.
    destruct (Orchestrator._validate_phase_result self phase result w2)
      as [w3 [[|]|e]]; cbn [fst negb] in Hgate |- *.
    + apply IH. now apply I_print.
    + now apply I_print.
    + exact Hgate.
  - now apply I_print.
Qed.

Lemma I_run_pipeline (w : world) :
  I w -> I (fst (Orchestrator.run_pipeline _execute_phase self w)).
Proof.
  intros Hw. unfold Orchestrator.run_pipeline.
  assert (H0 : I (ProgressTracker.init_progress
                    (Orchestrator.progress_tracker self)
                    (schema.project_name (Orchestrator.config self)) w)).
  { revert Hw. apply I_store. intros Q.
    unfold StateManager._get_result, ProgressTracker.init_progress,
      utcnow_isoformat, ProgressTracker._write_progress.
    rewrite files_write_json_ne; [reflexivity|].
    intros H. symmetry in H. revert H.
    apply (state_file_not_progress_file (schema.work_dir config)). }
  pose proof (I_run_phases Orchestrator.PHASES _ H0) as Hrun.
  destruct (Orchestrator.run_phases _execute_phase self Orchestrator.PHASES _)
    as [w' [b|e]]; cbn [fst] in Hrun; [exact Hrun|].
  destruct (is_Exception e); [|exact Hrun].
  now apply I_print.
Qed.

End ResultStore.

(** C2, as stated, fails: with a collaborator that answers discovery with a
    result the gate accepts and saves nothing, the loop goes on to the next
    phase and the result store has nothing for discovery. *)
Lemma C2_counterexample :
  ~ (forall (_execute_phase : PhaseRunner.t -> M pyval) (self : Orchestrator.t)
            (done rest : list string) (phase : string) (w w1 w2 w3 : world)
            (result : pyval),
        Orchestrator.PHASES = (done ++ phase :: rest)%list ->
        In phase ["discovery"; "narrowing"; "generation"] ->
        Orchestrator.run_phases _execute_phase self done
          (ProgressTracker.init_progress (Orchestrator.progress_tracker self)
             (schema.project_name (Orchestrator.config self)) w)
        = (w1, Ok true) ->
        PhaseRunner.run _execute_phase
          (PhaseRunner.__init__ (Orchestrator.config self)
             (Orchestrator.state_manager self)
             (Orchestrator.progress_tracker self) phase)
          (print ("Starting phase: " +:+ phase) w1)
        = (w2, Ok result) ->
        Orchestrator.run_phases _execute_phase self (done ++ [phase])
          (ProgressTracker.init_progress (Orchestrator.progress_tracker self)
             (schema.project_name (Orchestrator.config self)) w)
        = (w3, Ok true) ->
        py_eq (StateManager._get_result (Orchestrator.state_manager self)
                 phase w3)
          result = true).
Proof.
  intros H.
  pose (self := Orchestrator.__init__ sample_Config).
  pose (w1 := ProgressTracker.init_progress
                (Orchestrator.progress_tracker self)
                (schema.project_name (Orchestrator.config self)) empty_world).
  pose (w2 := fst (PhaseRunner.run (scripted_collaborator complete_script)
                     (PhaseRunner.__init__ (Orchestrator.config self)
                        (Orchestrator.state_manager self)
                        (Orchestrator.progress_tracker self) "discovery")
                     (print ("Starting phase: " +:+ "discovery") w1))).
  pose (w3 := fst (Orchestrator.run_phases
                     (scripted_collaborator complete_script) self
                     ["discovery"] w1)).
  specialize (H (scripted_collaborator complete_script) self []
                ["narrowing"; "generation"; "migration"; "validation"]
                "discovery"
                empty_world w1 w2 w3 discovery_result eq_refl
                (or_introl eq_refl) eq_refl).
  assert (Hrun :
    PhaseRunner.run (scripted_collaborator complete_script)
      (PhaseRunner.__init__ (Orchestrator.config self)
         (Orchestrator.state_manager self)
         (Orchestrator.progress_tracker self) "discovery")
      (print ("Starting phase: " +:+ "discovery") w1)
    = (w2, Ok discovery_result)).
  { vm_compute. reflexivity. }
  assert (Hloop :
    Orchestrator.run_phases (scripted_collaborator complete_script) self
      ([] ++ ["discovery"]) w1
    = (w3, Ok true)).
  { vm_compute. reflexivity. }
  specialize (H Hrun Hloop).
  vm_compute in H. discriminate H.
Qed.

(** C2, amended.  An orchestrated run writes nothing to the result store:
    whatever holds of what the store returns and is kept by every call of
    the collaborator holds after [run_pipeline] when it held before.  What
    is read for a phase after the run is thus what the collaborator has
    saved through its tools, and [None] for a phase whose result it has
    returned without saving it, whether or not the gates have passed. *)
Theorem C2_result_store_is_left_to_collaborator
    (_execute_phase : PhaseRunner.t -> M pyval) (config : schema.Config)
    (I : world -> Prop) (w : world) :
  let self := Orchestrator.__init__ config in
  let results := Orchestrator.state_manager self in
  (forall w1 w2,
     (forall Q, StateManager._get_result results Q w2
                = StateManager._get_result results Q w1) ->
     I w1 -> I w2) ->
  (forall phase w1,
     I w1 ->
     I (fst (_execute_phase
               (PhaseRunner.__init__ config results
                  (Orchestrator.progress_tracker self) phase) w1))) ->
  I w ->
  I (fst (Orchestrator.run_pipeline _execute_phase self w)).
Proof.
  intros self results Hstore Hcollaborator Hw.
  exact (I_run_pipeline _execute_phase config I Hstore Hcollaborator w Hw).
Qed.

Lemma C2_result_store_is_left_to_collaborator_witness :
  let self := Orchestrator.__init__ sample_Config in
  let run :=
    Orchestrator.run_pipeline (scripted_collaborator complete_script) self
      empty_world in
  snd run = Ok true
  /\ forall Q,
       StateManager._get_result (Orchestrator.state_manager self) Q (fst run)
       = PNone.
Proof.
  intros self run. split; [vm_compute; reflexivity|].
  apply (C2_result_store_is_left_to_collaborator
           (scripted_collaborator complete_script) sample_Config
           (fun w => forall Q,
              StateManager._get_result
                (Orchestrator.state_manager
                   (Orchestrator.__init__ sample_Config)) Q w = PNone)
           empty_world).
  - intros w1 w2 Hsame Hw1 Q. now rewrite Hsame.
  - intros phase w1 Hw1. exact Hw1.
  - intros Q. reflexivity.
Defined.

(* ===================================================================== *)
(** * Part III: further properties of the code *)
(* ===================================================================== *)

(** ** The result store and the tools over it *)

Lemma append_inj_suffix (s a b : string) : a +:+ s = b +:+ s -> a = b.
Proof.
  intros H.
  assert (Hlen : forall x y : string,
             String.length (x +:+ y) = String.length x + String.length y).
  { intros x y. induction x as [|c x IH]; [reflexivity|].
    change (S (String.length (x +:+ y)) = S (String.length x + String.length y)).
    now rewrite IH. }
  revert b H. induction a as [|c a IH]; intros [|c' b] H.
  - reflexivity.
  - apply (f_equal String.length) in H. rewrite !Hlen in H.
    simpl in H. lia.
  - apply (f_equal String.length) in H. rewrite !Hlen in H.
    simpl in H. lia.
  - injection H as -> H. f_equal. auto.
Qed.

(** Two phases have two files. *)
Lemma state_file_inj (self : StateManager.t) (P Q : string) :
  StateManager._get_state_file self P = StateManager._get_state_file self Q ->
  P = Q.
Proof.
  unfold StateManager._get_state_file, path_join. intros H.
  apply append_inj_prefix in H. injection H as H.
  apply (append_inj_prefix "") in H.
  now apply append_inj_suffix in H.
Qed.

Lemma get_result_save_other (self : StateManager.t) (P Q : string)
    (R : pyval) (w : world) :
  P <> Q ->
  StateManager._get_result self Q (StateManager._save_result self P R w)
  = StateManager._get_result self Q w.
Proof.
  intros Hne.
  unfold StateManager._get_result, StateManager._save_result.
  rewrite files_write_json_ne; [reflexivity|].
  intros H. apply Hne. exact (state_file_inj self P Q H).
Qed.

(** X1. Saving is a full overwrite: after two saves for the same phase the
    files are what the second save alone would have left, and reading the
    phase returns the second result. *)
Theorem X1_save_overwrites
    (self : StateManager.t) (P : string) (R1 R2 : pyval) (w : world) :
  json_native R2 = true ->
  files (StateManager._save_result self P R2
           (StateManager._save_result self P R1 w))
  = files (StateManager._save_result self P R2 w)
  /\ StateManager._get_result self P
       (StateManager._save_result self P R2
          (StateManager._save_result self P R1 w))
     = R2.
Proof.
  intros Hnative. split.
  - unfold StateManager._save_result, write_json, set_files. simpl.
    apply insert_insert_eq.
  - unfold StateManager._get_result, StateManager._save_result.
    rewrite files_write_json_eq. now apply json_roundtrip.
Qed.

Lemma X1_save_overwrites_witness :
  StateManager._get_result (StateManager.__init__ "/work") "discovery"
    (StateManager._save_result (StateManager.__init__ "/work") "discovery"
       discovery_result
       (StateManager._save_result (StateManager.__init__ "/work") "discovery"
          result_with_tuple empty_world))
  = discovery_result.
Proof.
  exact (proj2 (X1_save_overwrites (StateManager.__init__ "/work")
                  "discovery" result_with_tuple discovery_result empty_world
                  eq_refl)).
Defined.

(** X2. The slots of the five phases are independent: saving one phase
    leaves what is read for another phase as it was, and two saves for two
    phases leave the same files in either order. *)
Theorem X2_phase_slots_are_independent
    (self : StateManager.t) (P Q : string) (R R' : pyval) (w : world) :
  In P Orchestrator.PHASES -> In Q Orchestrator.PHASES -> P <> Q ->
  StateManager._get_result self Q (StateManager._save_result self P R w)
  = StateManager._get_result self Q w
  /\ files (StateManager._save_result self Q R'
              (StateManager._save_result self P R w))
     = files (StateManager._save_result self P R
                (StateManager._save_result self Q R' w)).
Proof.
  intros _ _ Hne.
  assert (Hpath :
    StateManager._get_state_file self P <> StateManager._get_state_file self Q).
  { intros H. apply Hne. exact (state_file_inj self P Q H). }
  split.
  - now apply get_result_save_other.
  - unfold StateManager._save_result, write_json, set_files. simpl.
    apply insert_insert_ne. congruence.
Qed.

Lemma X2_phase_slots_are_independent_witness :
  StateManager._get_result (StateManager.__init__ "/work") "narrowing"
    (StateManager._save_result (StateManager.__init__ "/work") "discovery"
       discovery_result empty_world)
  = StateManager._get_result (StateManager.__init__ "/work") "narrowing"
      empty_world.
Proof.
  apply (X2_phase_slots_are_independent (StateManager.__init__ "/work")
           "discovery" "narrowing" discovery_result PNone empty_world).
  - simpl. left. reflexivity.
  - simpl. right. left. reflexivity.
  - discriminate.
Defined.

(** X3. Each save tool of the registry answers with the confirmation that
    names its phase; the get tool of the same phase then returns the result
    saved, as the state manager does, and the get tools of the other
    phases return what they returned before. *)
Theorem X3_registry_save_then_get
    (self : ToolRegistry.t) (P : string)
    (save : ToolRegistry.t -> pyval -> world -> world * pyval)
    (get : ToolRegistry.t -> world -> pyval) (R : pyval) (w : world) :
  In (P, save, get) registry_tools ->
  json_native R = true ->
  snd (save self R w) = ToolRegistry.saved P
  /\ get self (fst (save self R w)) = R
  /\ StateManager._get_result (ToolRegistry.state_manager self) P
       (fst (save self R w)) = R
  /\ forall P' save' get',
       In (P', save', get') registry_tools -> P' <> P ->
       get' self (fst (save self R w)) = get' self w.
Proof.
  intros Hin Hnative.
  assert (Hshape :
    forall P0 save0 get0, In (P0, save0, get0) registry_tools ->
      In P0 Orchestrator.PHASES
      /\ (forall r w0,
            save0 self r w0
            = (StateManager._save_result (ToolRegistry.state_manager self)
                 P0 r w0, ToolRegistry.saved P0))
      /\ (forall w0,
            get0 self w0
            = StateManager._get_result (ToolRegistry.state_manager self)
                P0 w0)).
  { intros P0 save0 get0 H0. simpl in H0.
    destruct H0 as [H0|[H0|[H0|[H0|[H0|[]]]]]]; injection H0 as <- <- <-;
      (split; [simpl; tauto|split; reflexivity]). }
  destruct (Hshape P save get Hin) as (HP & Hsave & Hget).
  rewrite Hsave, Hget. cbn [fst snd].
  unfold StateManager._get_result at 1 2, StateManager._save_result.
  rewrite files_write_json_eq, (json_roundtrip R Hnative).
  repeat split.
  intros P' save' get' Hin' Hne.
  destruct (Hshape P' save' get' Hin') as (HP' & _ & Hget').
  rewrite !Hget'.
  apply (get_result_save_other (ToolRegistry.state_manager self) P P' R w).
  congruence.
Qed.

Lemma X3_registry_save_then_get_witness :
  ToolRegistry.get_generation_result
    (ToolRegistry.__init__ sample_Config (StateManager.__init__ "/work"))
    (fst (ToolRegistry.save_generation_result
            (ToolRegistry.__init__ sample_Config
               (StateManager.__init__ "/work"))
            generation_result empty_world))
  = generation_result.
Proof.
  apply (X3_registry_save_then_get
           (ToolRegistry.__init__ sample_Config (StateManager.__init__ "/work"))
           "generation" ToolRegistry.save_generation_result
           ToolRegistry.get_generation_result generation_result empty_world).
  - simpl. right. right. left. reflexivity.
  - reflexivity.
Defined.

(** ** The progress log, in any state *)

Lemma dict_set_set_eq {A : Type} (d : list (string * A)) k v v' :
  dict_set (dict_set d k v) k v' = dict_set d k v'.
Proof.
  induction d as [|[k0 v0] d IH]; simpl.
  - now rewrite String.eqb_refl.
  - destruct (String.eqb k0 k) eqn:E; simpl; rewrite E; [reflexivity|].
    now rewrite IH.
Qed.

Lemma dict_get_update_ne {A : Type} (other d : list (string * A)) k :
  k ∉ dict_keys other -> dict_get (dict_update d other) k = dict_get d k.
Proof.
  unfold dict_update. revert d.
  induction other as [|[k0 v0] other IH]; intros d Hk; simpl; [reflexivity|].
  simpl in Hk. apply not_elem_of_cons in Hk as [Hne Hk].
  rewrite IH by exact Hk. apply dict_get_set_ne. congruence.
Qed.

Lemma dict_get_some_not_nil {A : Type} (d : list (string * A)) k v :
  dict_get d k = Some v -> d <> [].
Proof. destruct d; [discriminate|discriminate]. Qed.

Lemma marks_are_updates (summary error : string)
    (mark : ProgressTracker.t -> string -> M unit)
    (fields : string -> list (string * pyval)) :
  In (mark, fields) (marks summary error) ->
  (forall self phase, mark self phase
                      = ProgressTracker.update_entry self phase fields)
  /\ (forall now, json_native (PDict (fields now)) = true)
  /\ (forall now, dict_get (fields now) "status" <> None).
Proof.
  simpl. intros [H|[H|[H|[]]]]; injection H as <- <-;
    repeat split; discriminate.
Qed.

(** When [phase_entry] succeeds, and only then, the working record has a
    dictionary of phases in which the phase has no entry or a dictionary. *)
Lemma phase_entry_inv (self : ProgressTracker.t) (phase : string) (w : world)
    pr ph0 e :
  ProgressTracker.phase_entry self phase w = Ok (pr, ph0, e) ->
  exists ph,
    working_record self w = PDict pr
    /\ dict_get pr "phases" = Some (PDict ph)
    /\ entry_of ph phase = Some e
    /\ forall X, dict_set ph0 phase X = dict_set ph phase X.
Proof.
  unfold ProgressTracker.phase_entry. fold (working_record self w).
  destruct (working_record self w) as [|b|z|s|l|l|pr0]; try discriminate.
  unfold py_getitem at 1.
  destruct (dict_get pr0 "phases") as [phases|] eqn:Hphases; [|discriminate].
  cbn [res_bind].
  destruct phases as [|b|z|s|l|l|ph]; try discriminate;
    cbn [py_contains res_bind].
  - destruct (str_contains s phase); discriminate.
  - destruct (existsb _ l); discriminate.
  - destruct (existsb _ l); discriminate.
  - unfold entry_of.
    destruct (dict_get ph phase) as [entry|] eqn:Hentry.
    + cbn [res_bind py_getitem]. rewrite Hentry.
      destruct entry; try discriminate.
      intros H. injection H as <- <- <-. exists ph.
      repeat split; auto. now rewrite Hentry.
    + cbn [res_bind py_setitem py_getitem]. rewrite dict_get_set_eq.
      intros H. injection H as <- <- <-. exists ph.
      repeat split; auto; try (now rewrite Hentry).
      intros X. apply dict_set_set_eq.
Qed.

Lemma phase_entry_intro (self : ProgressTracker.t) (phase : string) (w : world)
    pr ph e :
  working_record self w = PDict pr ->
  dict_get pr "phases" = Some (PDict ph) ->
  entry_of ph phase = Some e ->
  exists ph0,
    ProgressTracker.phase_entry self phase w = Ok (pr, ph0, e)
    /\ forall X, dict_set ph0 phase X = dict_set ph phase X.
Proof.
  intros Hrecord Hphases Hentry.
  unfold ProgressTracker.phase_entry. fold (working_record self w).
  rewrite Hrecord. unfold py_getitem at 1. rewrite Hphases.
  cbn [res_bind py_contains]. unfold entry_of in Hentry.
  destruct (dict_get ph phase) as [entry|] eqn:Hget.
  - destruct entry; try discriminate. injection Hentry as <-.
    cbn [res_bind py_getitem]. rewrite Hget. eauto.
  - injection Hentry as <-.
    cbn [res_bind py_setitem py_getitem]. rewrite dict_get_set_eq.
    eexists. split; [reflexivity|]. intros X. apply dict_set_set_eq.
Qed.

Lemma working_record_native (self : ProgressTracker.t) (w : world) :
  json_native (working_record self w) = true.
Proof.
  unfold working_record, py_or.
  destruct (truthy (ProgressTracker.read_progress self w));
    [apply read_progress_native|reflexivity].
Qed.

Lemma entry_of_native ph phase e :
  json_native (PDict ph) = true -> entry_of ph phase = Some e ->
  json_native (PDict e) = true.
Proof.
  intros Hph. unfold entry_of.
  destruct (dict_get ph phase) as [entry|] eqn:Hget.
  - destruct entry; try discriminate. intros H. injection H as <-.
    exact (json_native_get ph phase _ Hph Hget).
  - intros H. injection H as <-. reflexivity.
Qed.

(** What an update does, in full. *)
Lemma update_entry_spec (self : ProgressTracker.t) (phase : string)
    (fields : string -> list (string * pyval)) (w : world) pr ph e :
  working_record self w = PDict pr ->
  dict_get pr "phases" = Some (PDict ph) ->
  entry_of ph phase = Some e ->
  (forall now, json_native (PDict (fields now)) = true) ->
  exists w',
    ProgressTracker.update_entry self phase fields w = (w', Ok tt)
    /\ ProgressTracker.read_progress self w'
       = PDict (dict_set pr "phases"
                  (PDict (dict_set ph phase
                            (PDict (dict_update e
                                      (fields (clock w (ticks w) +:+ "Z")))))))
    /\ clock w' = clock w
    /\ ticks w' = S (ticks w)
    /\ stdout w' = stdout w.
Proof.
  intros Hrecord Hphases Hentry Hfields.
  destruct (phase_entry_intro self phase w pr ph e Hrecord Hphases Hentry)
    as (ph0 & Hpe & Hset).
  rewrite (update_entry_ok self phase fields w pr ph0 e Hpe).
  eexists. split; [reflexivity|].
  pose proof (working_record_native self w) as Hnative.
  rewrite Hrecord in Hnative.
  pose proof (json_native_get pr "phases" _ Hnative Hphases) as Hph.
  pose proof (entry_of_native ph phase e Hph Hentry) as He.
  split; [|repeat split].
  unfold updated_record. rewrite Hset.
  apply read_progress_written.
  apply json_native_set; [exact Hnative|].
  apply json_native_set; [exact Hph|].
  apply json_native_update; [exact He|apply Hfields].
Qed.

Lemma py_path_cons (o : pyval) (k : string) (ks : list string) :
  py_path o (k :: ks) = res_bind (py_getitem o k) (fun v => py_path v ks).
Proof.
  unfold py_path. simpl. destruct (py_getitem o k) as [v|e]; [reflexivity|].
  simpl. induction ks as [|k' ks IH]; [reflexivity|exact IH].
Qed.

Lemma py_getitem_ok (o : pyval) (k : string) (v : pyval) :
  py_getitem o k = Ok v <-> exists d, o = PDict d /\ dict_get d k = Some v.
Proof.
  split.
  - destruct o; simpl; try discriminate.
    destruct (dict_get d k) eqn:E; [|discriminate].
    intros H. injection H as <-. eauto.
  - intros (d & -> & H). simpl. now rewrite H.
Qed.

Lemma py_path_dict (d : list (string * pyval)) (k : string) (ks : list string) :
  py_path (PDict d) (k :: ks)
  = match dict_get d k with
    | Some v => py_path v ks
    | None => Raise (KeyError ("'" +:+ k +:+ "'"))
    end.
Proof.
  rewrite py_path_cons. simpl. destruct (dict_get d k); reflexivity.
Qed.

Lemma dict_get_update_eq {A : Type} (other d : list (string * A)) k v :
  NoDup (dict_keys other) -> dict_get other k = Some v ->
  dict_get (dict_update d other) k = Some v.
Proof.
  unfold dict_update. revert d.
  induction other as [|[k0 v0] other IH]; intros d Hnd Hget; [discriminate|].
  simpl in Hnd. apply NoDup_cons in Hnd as [Hk0 Hnd]. simpl in *.
  destruct (String.eqb k0 k) eqn:E.
  - apply String.eqb_eq in E. subst k0. injection Hget as <-.
    change (dict_get (dict_update (dict_set d k v0) other) k = Some v0).
    rewrite dict_get_update_ne by exact Hk0. apply dict_get_set_eq.
  - apply IH; assumption.
Qed.

(** X4. Marking a phase when there is no progress record (the file is not
    there, or holds an empty value) does not fail: the record written has
    the phases only, with the phase's entry made of the fields the method
    sets, and neither project name nor start time. *)
Theorem X4_mark_without_record
    (self : ProgressTracker.t) (P summary error : string)
    (mark : ProgressTracker.t -> string -> M unit)
    (fields : string -> list (string * pyval)) (w : world) :
  In (mark, fields) (marks summary error) ->
  truthy (ProgressTracker.read_progress self w) = false ->
  exists w',
    mark self P w = (w', Ok tt)
    /\ ProgressTracker.read_progress self w'
       = PDict [("phases",
                 PDict [(P, PDict (fields (clock w (ticks w) +:+ "Z")))])].
Proof.
  intros Hin Hempty.
  destruct (marks_are_updates summary error mark fields Hin)
    as (Hmark & Hnative & _).
  assert (Hrecord : working_record self w = PDict [("phases", PDict [])]).
  { unfold working_record, py_or. now rewrite Hempty. }
  destruct (update_entry_spec self P fields w _ [] [] Hrecord eq_refl eq_refl
              Hnative) as (w' & Hrun & Hread & _).
  exists w'. rewrite Hmark. split; [exact Hrun|]. rewrite Hread.
  simpl in Hin. destruct Hin as [H|[H|[H|[]]]]; injection H as <- <-;
    reflexivity.
Qed.

Lemma X4_mark_without_record_witness :
  exists w',
    ProgressTracker.mark_phase_failed
      (ProgressTracker.__init__ "/work") "discovery" "boom" empty_world
    = (w', Ok tt)
    /\ ProgressTracker.read_progress (ProgressTracker.__init__ "/work") w'
       = PDict [("phases",
                 PDict [("discovery",
                         PDict [("status", PStr "failed");
                                ("failed_at", PStr ("" +:+ "Z"));
                                ("error", PStr "boom")])])].
Proof.
  apply (X4_mark_without_record (ProgressTracker.__init__ "/work")
           "discovery" "ok" "boom"
           (fun self phase =>
              ProgressTracker.mark_phase_failed self phase "boom")
           (fun now => [("status", PStr "failed"); ("failed_at", PStr now);
                        ("error", PStr "boom")])
           empty_world).
  - simpl. right. right. left. reflexivity.
  - reflexivity.
Defined.

(** X5. A [mark_phase_*] call that raises leaves the world as it was:
    nothing is written and the clock is not read.  It raises [KeyError]
    when the record read is a dictionary that is not empty and has no
    [phases]. *)
Theorem X5_failed_mark_changes_nothing
    (self : ProgressTracker.t) (P summary error : string)
    (mark : ProgressTracker.t -> string -> M unit)
    (fields : string -> list (string * pyval)) (w : world) :
  In (mark, fields) (marks summary error) ->
  (forall w' e, mark self P w = (w', Raise e) -> w' = w)
  /\ (forall pr,
        ProgressTracker.read_progress self w = PDict pr ->
        pr <> [] ->
        dict_get pr "phases" = None ->
        mark self P w = (w, Raise (KeyError "'phases'"))).
Proof.
  intros Hin.
  destruct (marks_are_updates summary error mark fields Hin) as (Hmark & _).
  rewrite Hmark. unfold ProgressTracker.update_entry. split.
  - intros w' e.
    destruct (ProgressTracker.phase_entry self P w) as [[[pr ph] e0]|e0].
    + destruct (utcnow_isoformat w). discriminate.
    + intros H. now injection H as <- _.
  - intros pr Hread Hne Hnone.
    unfold ProgressTracker.phase_entry, py_or. rewrite Hread.
    destruct pr as [|kv pr]; [congruence|]. cbn [truthy].
    unfold py_getitem at 1. rewrite Hnone. reflexivity.
Qed.

Lemma X5_failed_mark_changes_nothing_witness :
  let w := write_json "/work/migration-progress.txt"
             (PDict [("project", PStr "p")]) empty_world in
  ProgressTracker.mark_phase_started (ProgressTracker.__init__ "/work")
    "discovery" w
  = (w, Raise (KeyError "'phases'")).
Proof.
  intros w.
  apply (proj2 (X5_failed_mark_changes_nothing
                  (ProgressTracker.__init__ "/work")
                  "discovery" "" "" ProgressTracker.mark_phase_started
                  (fun now => [("status", PStr "in_progress");
                               ("started_at", PStr now)])
                  w (or_introl eq_refl))
           [("project", PStr "p")]).
  - vm_compute. reflexivity.
  - discriminate.
  - reflexivity.
Defined.

(** X6. A successful [mark_phase_*] call touches the entry of its phase
    only: the entry of every other phase and every top-level field other
    than [phases] read afterwards are those of the record the call worked
    on. *)
Theorem X6_mark_touches_one_entry
    (self : ProgressTracker.t) (P summary error : string)
    (mark : ProgressTracker.t -> string -> M unit)
    (fields : string -> list (string * pyval)) (w w' : world) :
  In (mark, fields) (marks summary error) ->
  mark self P w = (w', Ok tt) ->
  (forall Q, Q <> P ->
     py_path (ProgressTracker.read_progress self w') ["phases"; Q]
     = py_path (working_record self w) ["phases"; Q])
  /\ (forall k, k <> "phases" ->
        py_path (ProgressTracker.read_progress self w') [k]
        = py_path (working_record self w) [k]).
Proof.
  intros Hin Hrun.
  destruct (marks_are_updates summary error mark fields Hin)
    as (Hmark & Hnative & _).
  rewrite Hmark in Hrun.
  destruct (update_entry_read self P fields w w' Hnative Hrun)
    as (pr & ph0 & e & Hentry & _ & _ & _ & _ & Hread).
  destruct (phase_entry_inv self P w pr ph0 e Hentry)
    as (ph & Hrecord & Hphases & _ & Hset).
  rewrite Hread, Hrecord. unfold updated_record. rewrite Hset. split.
  - intros Q HQ. rewrite !py_path_dict, dict_get_set_eq, Hphases.
    rewrite !py_path_dict. rewrite dict_get_set_ne by congruence.
    reflexivity.
  - intros k Hk. rewrite !py_path_dict.
    rewrite dict_get_set_ne by congruence. reflexivity.
Qed.

Lemma X6_mark_touches_one_entry_witness :
  let tracker := ProgressTracker.__init__ "/work" in
  let w :=
    fst (ProgressTracker.mark_phase_started tracker "discovery"
           (ProgressTracker.init_progress tracker "p" empty_world)) in
  let w' := fst (ProgressTracker.mark_phase_started tracker "narrowing" w) in
  py_path (ProgressTracker.read_progress tracker w') ["phases"; "discovery"]
  = py_path (working_record tracker w) ["phases"; "discovery"].
Proof.
  intros tracker w w'.
  apply (X6_mark_touches_one_entry tracker "narrowing" "" ""
           ProgressTracker.mark_phase_started
           (fun now => [("status", PStr "in_progress");
                        ("started_at", PStr now)])
           w w' (or_introl eq_refl)).
  - vm_compute. reflexivity.
  - discriminate.
Defined.

(** An update of an entry that exists. *)
Lemma update_existing_entry
    (self : ProgressTracker.t) (P : string)
    (fields : string -> list (string * pyval)) (w : world)
    (e : list (string * pyval)) :
  (forall now, json_native (PDict (fields now)) = true) ->
  py_path (ProgressTracker.read_progress self w) ["phases"; P] = Ok (PDict e) ->
  exists w',
    ProgressTracker.update_entry self P fields w = (w', Ok tt)
    /\ forall k,
         py_path (ProgressTracker.read_progress self w') ["phases"; P; k]
         = match dict_get (fields (clock w (ticks w) +:+ "Z")) k with
           | Some v => Ok v
           | None => py_path (PDict e) [k]
           end.
Proof.
  intros Hnative Hpath.
  rewrite py_path_cons in Hpath.
  destruct (py_getitem (ProgressTracker.read_progress self w) "phases")
    as [phases|] eqn:Hphases; [|discriminate].
  apply py_getitem_ok in Hphases as (pr & Hread & Hphases).
  cbn [res_bind] in Hpath. rewrite py_path_cons in Hpath.
  destruct (py_getitem phases P) as [entry|] eqn:Hentry; [|discriminate].
  apply py_getitem_ok in Hentry as (ph & -> & Hentry).
  cbn in Hpath. injection Hpath as ->.
  assert (Hrecord : working_record self w = PDict pr).
  { unfold working_record, py_or. rewrite Hread.
    pose proof (dict_get_some_not_nil pr _ _ Hphases).
    destruct pr; [congruence|reflexivity]. }
  assert (Heo : entry_of ph P = Some e).
  { unfold entry_of. now rewrite Hentry. }
  destruct (update_entry_spec self P fields w pr ph e Hrecord Hphases Heo
              Hnative) as (w' & Hrun & Hread' & _).
  exists w'. split; [exact Hrun|].
  intros k. rewrite Hread'.
  rewrite py_path_dict, dict_get_set_eq, py_path_dict, dict_get_set_eq.
  rewrite py_path_dict.
  destruct (dict_get (fields (clock w (ticks w) +:+ "Z")) k) as [v|] eqn:Hk.
  - rewrite (dict_get_update_eq _ e k v); [reflexivity| |exact Hk].
    exact (proj1 (proj1 (json_native_dict _) (Hnative _))).
  - rewrite dict_get_update_ne; [now rewrite py_path_dict|].
    now apply dict_get_None.
Qed.

(** X7. On a phase that has an entry, a [mark_phase_*] call succeeds; the
    fields it sets read as set, and every other field of the entry reads
    as before: a start time outlives completion and failure, a summary
    outlives a later failure. *)
Theorem X7_mark_keeps_other_fields
    (self : ProgressTracker.t) (P summary error : string)
    (mark : ProgressTracker.t -> string -> M unit)
    (fields : string -> list (string * pyval)) (w : world)
    (e : list (string * pyval)) :
  In (mark, fields) (marks summary error) ->
  py_path (ProgressTracker.read_progress self w) ["phases"; P] = Ok (PDict e) ->
  exists w',
    mark self P w = (w', Ok tt)
    /\ forall k,
         py_path (ProgressTracker.read_progress self w') ["phases"; P; k]
         = match dict_get (fields (clock w (ticks w) +:+ "Z")) k with
           | Some v => Ok v
           | None => py_path (PDict e) [k]
           end.
Proof.
  intros Hin Hpath.
  destruct (marks_are_updates summary error mark fields Hin)
    as (Hmark & Hnative & _).
  rewrite Hmark.
  exact (update_existing_entry self P fields w e Hnative Hpath).
Qed.

Lemma X7_mark_keeps_other_fields_witness :
  let tracker := ProgressTracker.__init__ "/work" in
  let w :=
    fst (ProgressTracker.mark_phase_started tracker "discovery"
           (ProgressTracker.init_progress tracker "p" empty_world)) in
  exists w',
    ProgressTracker.mark_phase_failed tracker "discovery" "boom" w
    = (w', Ok tt)
    /\ forall k,
         py_path (ProgressTracker.read_progress tracker w')
           ["phases"; "discovery"; k]
         = match dict_get [("status", PStr "failed");
                           ("failed_at", PStr (clock w (ticks w) +:+ "Z"));
                           ("error", PStr "boom")] k with
           | Some v => Ok v
           | None =>
               py_path (PDict [("status", PStr "in_progress");
                               ("started_at", PStr ("" +:+ "Z"))]) [k]
           end.
Proof.
  intros tracker w.
  apply (X7_mark_keeps_other_fields tracker "discovery" "" "boom"
           (fun self phase =>
              ProgressTracker.mark_phase_failed self phase "boom")
           (fun now => [("status", PStr "failed"); ("failed_at", PStr now);
                        ("error", PStr "boom")])
           w).
  - simpl. right. right. left. reflexivity.
  - vm_compute. reflexivity.
Defined.

Lemma sessions_of_native e l :
  json_native (PDict e) = true -> sessions_of e = Some l ->
  json_native (PList l) = true.
Proof.
  intros He. unfold sessions_of.
  destruct (dict_get e "sessions") as [sessions|] eqn:Hget.
  - destruct sessions; try discriminate. intros H. injection H as <-.
    exact (json_native_get e "sessions" _ He Hget).
  - intros H. injection H as <-. reflexivity.
Qed.

Lemma json_native_append l x :
  json_native (PList l) = true -> json_native x = true ->
  json_native (PList (l ++ [x])) = true.
Proof.
  simpl. intros Hl Hx. rewrite forallb_app, Hl. simpl. now rewrite Hx.
Qed.

(** X8. [add_session_log] appends: on a record with a dictionary of phases,
    for a phase with no entry or a dictionary and no sessions or a list of
    them, the call succeeds; the sessions read afterwards are the former
    ones followed by the new one, with the identifier, the model and the
    turns as given and the reading of the clock; the other fields of the
    entry and the entries of the other phases read as before. *)
Theorem X8_add_session_log_appends
    (self : ProgressTracker.t) (P session_id model : string) (turns : Z)
    (w : world) (pr ph e : list (string * pyval)) (l : list pyval) :
  working_record self w = PDict pr ->
  dict_get pr "phases" = Some (PDict ph) ->
  entry_of ph P = Some e ->
  sessions_of e = Some l ->
  exists w',
    ProgressTracker.add_session_log self P session_id model turns w
    = (w', Ok tt)
    /\ py_path (ProgressTracker.read_progress self w')
         ["phases"; P; "sessions"]
       = Ok (PList
               (l ++ [PDict [("session_id", PStr session_id);
                             ("model", PStr model);
                             ("turns", PInt turns);
                             ("logged_at",
                              PStr (clock w (ticks w) +:+ "Z"))]]))
    /\ (forall k, k <> "sessions" ->
          py_path (ProgressTracker.read_progress self w') ["phases"; P; k]
          = py_path (PDict e) [k])
    /\ (forall Q, Q <> P ->
          py_path (ProgressTracker.read_progress self w') ["phases"; Q]
          = py_path (PDict ph) [Q]).
Proof.
  intros Hrecord Hphases Hentry Hsessions.
  pose proof (working_record_native self w) as Hpr. rewrite Hrecord in Hpr.
  pose proof (json_native_get pr "phases" _ Hpr Hphases) as Hph.
  pose proof (entry_of_native ph P e Hph Hentry) as He.
  pose proof (sessions_of_native e l He Hsessions) as Hl.
  set (session_log :=
         PDict [("session_id", PStr session_id); ("model", PStr model);
                ("turns", PInt turns);
                ("logged_at", PStr (clock w (ticks w) +:+ "Z"))]).
  assert (Hlog : json_native session_log = true) by reflexivity.
  set (record' :=
         PDict (dict_set pr "phases"
                  (PDict (dict_set ph P
                            (PDict (dict_set e "sessions"
                                      (PList (l ++ [session_log])))))))).
  assert (Hrun :
    ProgressTracker.add_session_log self P session_id model turns w
    = (ProgressTracker._write_progress self record'
         (snd (utcnow_isoformat w)), Ok tt)).
  { unfold ProgressTracker.add_session_log. fold (working_record self w).
    rewrite Hrecord. unfold py_getitem at 1. rewrite Hphases.
    cbn [res_bind py_contains].
    unfold entry_of in Hentry. unfold sessions_of in Hsessions.
    destruct (dict_get ph P) as [entry|] eqn:HgetP.
    - destruct entry; try discriminate. injection Hentry as ->.
      cbn [res_bind py_getitem py_contains]. rewrite HgetP.
      cbn [res_bind py_contains].
      destruct (dict_get e "sessions") as [sessions|] eqn:HgetS.
      + destruct sessions; try discriminate. injection Hsessions as ->.
        cbn [res_bind py_setitem py_getitem utcnow_isoformat].
        rewrite HgetS. cbn [res_bind py_append py_setitem]. reflexivity.
      + injection Hsessions as <-.
        cbn [res_bind py_setitem py_getitem utcnow_isoformat].
        rewrite dict_get_set_eq. cbn [res_bind py_append py_setitem].
        rewrite dict_set_set_eq. reflexivity.
    - injection Hentry as <-.
      cbn [res_bind py_setitem py_getitem py_contains].
      rewrite dict_get_set_eq. cbn [res_bind py_contains dict_get].
      injection Hsessions as <-.
      cbn [res_bind py_setitem py_getitem utcnow_isoformat dict_set].
      cbn [dict_get]. rewrite String.eqb_refl.
      cbn [res_bind py_append py_setitem dict_set].
      rewrite dict_set_set_eq. reflexivity. }
  eexists. split; [exact Hrun|].
  rewrite read_progress_written.
  - unfold record'. repeat split.
    + rewrite py_path_dict, dict_get_set_eq, py_path_dict, dict_get_set_eq.
      rewrite py_path_dict, dict_get_set_eq. reflexivity.
    + intros k Hk.
      rewrite py_path_dict, dict_get_set_eq, py_path_dict, dict_get_set_eq.
      rewrite !py_path_dict. rewrite dict_get_set_ne by congruence.
      reflexivity.
    + intros Q HQ. rewrite py_path_dict, dict_get_set_eq.
      rewrite !py_path_dict. rewrite dict_get_set_ne by congruence.
      reflexivity.
  - unfold record'.
    apply json_native_set; [exact Hpr|].
    apply json_native_set; [exact Hph|].
    apply json_native_set; [exact He|].
    now apply json_native_append.
Qed.

Lemma X8_add_session_log_appends_witness :
  let tracker := ProgressTracker.__init__ "/work" in
  let w := ProgressTracker.init_progress tracker "p" empty_world in
  exists w',
    ProgressTracker.add_session_log tracker "discovery" "session_123"
      "claude-sonnet-4-5" 0 w
    = (w', Ok tt)
    /\ py_path (ProgressTracker.read_progress tracker w')
         ["phases"; "discovery"; "sessions"]
       = Ok (PList
               ([] ++ [PDict [("session_id", PStr "session_123");
                              ("model", PStr "claude-sonnet-4-5");
                              ("turns", PInt 0);
                              ("logged_at",
                               PStr (clock w (ticks w) +:+ "Z"))]])).
Proof.
  intros tracker w.
  destruct (X8_add_session_log_appends tracker "discovery" "session_123"
              "claude-sonnet-4-5" 0 w
              [("project", PStr "p"); ("started_at", PStr ("" +:+ "Z"));
               ("phases", PDict [])]
              [] [] [] eq_refl eq_refl eq_refl eq_refl)
    as (w' & Hrun & Hsessions & _).
  exists w'. split; [exact Hrun|exact Hsessions].
Defined.

(** ** The runner and the orchestrator, phase after phase *)

Lemma py_path_app (o : pyval) (ks ks' : list string) :
  py_path o (ks ++ ks')%list
  = res_bind (py_path o ks) (fun v => py_path v ks').
Proof.
  revert o. induction ks as [|k ks IH]; intros o; [reflexivity|].
  change ((k :: ks) ++ ks')%list with (k :: (ks ++ ks'))%list.
  rewrite !py_path_cons.
  destruct (py_getitem o k) as [v|e]; [apply IH|reflexivity].
Qed.

Lemma entry_of_well_formed ph P :
  Forall (fun kv : string * pyval => exists e, snd kv = PDict e) ph ->
  exists e, entry_of ph P = Some e.
Proof.
  intros Hph. unfold entry_of.
  destruct (dict_get ph P) as [entry|] eqn:Hget; [|eauto].
  destruct (dict_get_Forall (fun v => exists e, v = PDict e) ph P entry Hph
              Hget) as [e ->].
  eauto.
Qed.

Lemma working_record_well_formed (self : ProgressTracker.t) (w : world) :
  well_formed_record (ProgressTracker.read_progress self w) ->
  working_record self w = ProgressTracker.read_progress self w.
Proof.
  intros (pr & ph & Hread & Hphases & _).
  unfold working_record, py_or. rewrite Hread.
  pose proof (dict_get_some_not_nil pr _ _ Hphases).
  destruct pr; [congruence|reflexivity].
Qed.

(** A mark on a well-formed record. *)
Lemma mark_well_formed (self : ProgressTracker.t) (P summary error : string)
    (mark : ProgressTracker.t -> string -> M unit)
    (fields : string -> list (string * pyval)) (w : world) :
  In (mark, fields) (marks summary error) ->
  well_formed_record (ProgressTracker.read_progress self w) ->
  exists w',
    mark self P w = (w', Ok tt)
    /\ well_formed_record (ProgressTracker.read_progress self w')
    /\ (forall k v,
          dict_get (fields (clock w (ticks w) +:+ "Z")) k = Some v ->
          py_path (ProgressTracker.read_progress self w') ["phases"; P; k]
          = Ok v)
    /\ (forall Q, Q <> P ->
          py_path (ProgressTracker.read_progress self w') ["phases"; Q]
          = py_path (ProgressTracker.read_progress self w) ["phases"; Q])
    /\ (forall k, k <> "phases" ->
          py_path (ProgressTracker.read_progress self w') [k]
          = py_path (ProgressTracker.read_progress self w) [k])
    /\ (forall path, path <> ProgressTracker.progress_file self ->
          files w' !! path = files w !! path)
    /\ stdout w' = stdout w.
Proof.
  intros Hin Hwf.
  destruct (marks_are_updates summary error mark fields Hin)
    as (Hmark & Hnative & _).
  pose proof (working_record_well_formed self w Hwf) as Hrecord.
  destruct Hwf as (pr & ph & Hread & Hphases & Hentries).
  rewrite Hread in Hrecord.
  destruct (entry_of_well_formed ph P Hentries) as [e Hentry].
  destruct (update_entry_spec self P fields w pr ph e Hrecord Hphases Hentry
              Hnative) as (w' & Hrun & Hread' & _ & _ & Hout).
  exists w'. rewrite Hmark. split; [exact Hrun|].
  rewrite Hread', Hread. split; [|split; [|split; [|split; [|split]]]].
  - eexists _, _. split; [reflexivity|]. split; [apply dict_get_set_eq|].
    apply dict_set_Forall; [eauto|exact Hentries].
  - intros k v Hk.
    rewrite py_path_dict, dict_get_set_eq, py_path_dict, dict_get_set_eq.
    rewrite py_path_dict.
    rewrite (dict_get_update_eq _ e k v); [reflexivity| |exact Hk].
    simpl in Hin. destruct Hin as [H|[H|[H|[]]]]; injection H as <- <-;
      apply distinct_NoDup; reflexivity.
  - intros Q HQ. rewrite !py_path_dict, dict_get_set_eq, Hphases.
    rewrite !py_path_dict. rewrite dict_get_set_ne by congruence.
    reflexivity.
  - intros k Hk. rewrite !py_path_dict.
    rewrite dict_get_set_ne by congruence. reflexivity.
  - intros path Hpath.
    pose proof (update_entry_files self P fields w path Hpath) as Hf.
    now rewrite Hrun in Hf.
  - exact Hout.
Qed.

(** The runner on a well-formed record, with a collaborator that returns
    and leaves the progress file alone. *)
Lemma run_returns (_execute_phase : PhaseRunner.t -> M pyval)
    (self : PhaseRunner.t) (w : world) :
  let tracker := PhaseRunner.progress_tracker self in
  let P := PhaseRunner.phase self in
  well_formed_record (ProgressTracker.read_progress tracker w) ->
  (forall w1, files (fst (_execute_phase self w1))
                !! ProgressTracker.progress_file tracker
              = files w1 !! ProgressTracker.progress_file tracker) ->
  (forall w1, exists result, snd (_execute_phase self w1) = Ok result) ->
  exists w1 w3 result,
    snd (_execute_phase self w1) = Ok result
    /\ PhaseRunner.run _execute_phase self w = (w3, Ok result)
    /\ well_formed_record (ProgressTracker.read_progress tracker w3)
    /\ py_path (ProgressTracker.read_progress tracker w3)
         ["phases"; P; "status"]
       = Ok (PStr (if truthy result then "completed" else "failed"))
    /\ py_path (ProgressTracker.read_progress tracker w3)
         ["phases"; P; if truthy result then "summary" else "error"]
       = Ok (PStr ("Phase " +:+ P +:+
                   (if truthy result then " completed successfully"
                    else " produced no results")))
    /\ py_path (ProgressTracker.read_progress tracker w3)
         ["phases"; P; "started_at"]
       = Ok (PStr (clock w (ticks w) +:+ "Z"))
    /\ (forall Q, Q <> P ->
          py_path (ProgressTracker.read_progress tracker w3) ["phases"; Q]
          = py_path (ProgressTracker.read_progress tracker w) ["phases"; Q])
    /\ (forall k, k <> "phases" ->
          py_path (ProgressTracker.read_progress tracker w3) [k]
          = py_path (ProgressTracker.read_progress tracker w) [k]).
Proof.
  intros tracker P Hwf Hfile Hreturns.
  destruct (mark_well_formed tracker P "" "" ProgressTracker.mark_phase_started
              _ w (or_introl eq_refl) Hwf)
    as (w1 & Hstart & Hwf1 & Hset1 & Hframe1 & Htop1 & _).
  destruct (Hreturns w1) as [result Hresult].
  destruct (_execute_phase self w1) as [w2 outcome] eqn:Hexec.
  simpl in Hresult. subst outcome.
  pose proof (Hfile w1) as Hfile1. rewrite Hexec in Hfile1. simpl in Hfile1.
  pose proof (read_progress_same_file tracker w1 w2 Hfile1) as Hread2.
  assert (Hwf2 : well_formed_record (ProgressTracker.read_progress tracker w2))
    by now rewrite Hread2.
  assert (Hstarted :
    py_path (ProgressTracker.read_progress tracker w2)
      ["phases"; P; "started_at"]
    = Ok (PStr (clock w (ticks w) +:+ "Z"))).
  { rewrite Hread2. apply Hset1. reflexivity. }
  set (summary := "Phase " +:+ P +:+ " completed successfully").
  set (error := "Phase " +:+ P +:+ " produced no results").
  assert (Hkeep :
    forall mark fields w3,
      In (mark, fields) (marks summary error) ->
      (forall now, dict_get (fields now) "started_at" = None) ->
      mark tracker P w2 = (w3, Ok tt) ->
      py_path (ProgressTracker.read_progress tracker w3)
        ["phases"; P; "started_at"]
      = Ok (PStr (clock w (ticks w) +:+ "Z"))).
  { intros mark fields w3 Hin Hnone Hmark3.
    assert (Hentry : exists e,
               py_path (ProgressTracker.read_progress tracker w2)
                 ["phases"; P] = Ok (PDict e)
               /\ dict_get e "started_at"
                  = Some (PStr (clock w (ticks w) +:+ "Z"))).
    { change ["phases"; P; "started_at"]
        with (["phases"; P] ++ ["started_at"])%list in Hstarted.
      rewrite py_path_app in Hstarted.
      destruct (py_path (ProgressTracker.read_progress tracker w2)
                  ["phases"; P]) as [entry|]; [|discriminate].
      cbn [res_bind] in Hstarted. rewrite py_path_cons in Hstarted.
      destruct (py_getitem entry "started_at") as [v|] eqn:Hv;
        [|discriminate].
      apply py_getitem_ok in Hv as (e & -> & Hv).
      cbn in Hstarted. injection Hstarted as ->. eauto. }
    destruct Hentry as (e & Hentry & Hget).
    destruct (marks_are_updates summary error mark fields Hin)
      as (Hupdate & Hnative & _).
    destruct (update_existing_entry tracker P fields w2 e Hnative Hentry)
      as (w3' & Hmark3' & Hfields).
    rewrite <- Hupdate in Hmark3'.
    rewrite Hmark3 in Hmark3'. injection Hmark3' as <-.
    rewrite Hfields, Hnone, py_path_dict. now rewrite Hget. }
  unfold PhaseRunner.run, bind, try_except, ret, raise.
  fold tracker P. rewrite Hstart, Hexec.
  destruct (truthy result) eqn:Htruthy.
  - destruct (mark_well_formed tracker P summary error
                (fun self phase =>
                   ProgressTracker.mark_phase_completed self phase summary)
                _ w2 (or_intror (or_introl eq_refl)) Hwf2)
      as (w3 & Hdone & Hwf3 & Hset3 & Hframe3 & Htop3 & _).
    exists w1, w3, result. rewrite Hexec. fold summary. rewrite Hdone.
    repeat split; auto.
    + rewrite Htruthy. apply Hset3. reflexivity.
    + rewrite Htruthy. apply Hset3. reflexivity.
    + apply (Hkeep _ _ w3 (or_intror (or_introl eq_refl)));
        [reflexivity|exact Hdone].
    + intros Q HQ. rewrite (Hframe3 Q HQ), Hread2. apply Hframe1. exact HQ.
    + intros k Hk. rewrite (Htop3 k Hk), Hread2. apply Htop1. exact Hk.
  - destruct (mark_well_formed tracker P summary error
                (fun self phase =>
                   ProgressTracker.mark_phase_failed self phase error)
                _ w2 (or_intror (or_intror (or_introl eq_refl))) Hwf2)
      as (w3 & Hfail & Hwf3 & Hset3 & Hframe3 & Htop3 & _).
    exists w1, w3, result. rewrite Hexec. fold error. rewrite Hfail.
    repeat split; auto.
    + rewrite Htruthy. apply Hset3. reflexivity.
    + rewrite Htruthy. apply Hset3. reflexivity.
    + apply (Hkeep _ _ w3 (or_intror (or_intror (or_introl eq_refl))));
        [reflexivity|exact Hfail].
    + intros Q HQ. rewrite (Hframe3 Q HQ), Hread2. apply Hframe1. exact HQ.
    + intros k Hk. rewrite (Htop3 k Hk), Hread2. apply Htop1. exact Hk.
Qed.

(** X9. The runner on a phase whose collaborator returns: the phase is
    recorded with the status the returned value decides ([completed] with
    the summary for a truthy value, [failed] with "produced no results"
    for a falsy one), the start time of the first mark is kept, the entries
    of the other phases are as before, and the value is handed back.  The
    record is well formed and the collaborator leaves the progress file
    alone. *)
Theorem X9_run_records_the_outcome
    (_execute_phase : PhaseRunner.t -> M pyval)
    (self : PhaseRunner.t) (w : world) :
  let tracker := PhaseRunner.progress_tracker self in
  let P := PhaseRunner.phase self in
  well_formed_record (ProgressTracker.read_progress tracker w) ->
  (forall w1, files (fst (_execute_phase self w1))
                !! ProgressTracker.progress_file tracker
              = files w1 !! ProgressTracker.progress_file tracker) ->
  (forall w1, exists result, snd (_execute_phase self w1) = Ok result) ->
  exists w1 w3 result,
    snd (_execute_phase self w1) = Ok result
    /\ PhaseRunner.run _execute_phase self w = (w3, Ok result)
    /\ py_path (ProgressTracker.read_progress tracker w3)
         ["phases"; P; "status"]
       = Ok (PStr (if truthy result then "completed" else "failed"))
    /\ py_path (ProgressTracker.read_progress tracker w3)
         ["phases"; P; if truthy result then "summary" else "error"]
       = Ok (PStr ("Phase " +:+ P +:+
                   (if truthy result then " completed successfully"
                    else " produced no results")))
    /\ py_path (ProgressTracker.read_progress tracker w3)
         ["phases"; P; "started_at"]
       = Ok (PStr (clock w (ticks w) +:+ "Z"))
    /\ (forall Q, Q <> P ->
          py_path (ProgressTracker.read_progress tracker w3) ["phases"; Q]
          = py_path (ProgressTracker.read_progress tracker w) ["phases"; Q]).
Proof.
  intros tracker P Hwf Hfile Hreturns.
  destruct (run_returns _execute_phase self w Hwf Hfile Hreturns)
    as (w1 & w3 & result & H1 & H2 & _ & H3 & H4 & H5 & H6 & _).
  exists w1, w3, result. repeat split; assumption.
Qed.

Lemma init_progress_read (self : ProgressTracker.t) (project : string)
    (w : world) :
  ProgressTracker.read_progress self
    (ProgressTracker.init_progress self project w)
  = PDict [("project", PStr project);
           ("started_at", PStr (clock w (ticks w) +:+ "Z"));
           ("phases", PDict [])].
Proof.
  unfold ProgressTracker.init_progress, utcnow_isoformat.
  apply read_progress_written. reflexivity.
Qed.

Lemma init_progress_well_formed (self : ProgressTracker.t) (project : string)
    (w : world) :
  well_formed_record
    (ProgressTracker.read_progress self
       (ProgressTracker.init_progress self project w)).
Proof.
  rewrite init_progress_read. eexists _, []. split; [reflexivity|].
  split; [reflexivity|constructor].
Qed.

Lemma X9_run_records_the_outcome_witness :
  let self :=
    PhaseRunner.__init__ sample_Config (StateManager.__init__ "/work")
      (ProgressTracker.__init__ "/work") "discovery" in
  let tracker := PhaseRunner.progress_tracker self in
  let w := ProgressTracker.init_progress tracker "p" empty_world in
  exists w1 w3 result,
    snd (PhaseRunner.placeholder self w1) = Ok result
    /\ PhaseRunner.run PhaseRunner.placeholder self w = (w3, Ok result)
    /\ py_path (ProgressTracker.read_progress tracker w3)
         ["phases"; "discovery"; "status"]
       = Ok (PStr (if truthy result then "completed" else "failed"))
    /\ py_path (ProgressTracker.read_progress tracker w3)
         ["phases"; "discovery"; if truthy result then "summary" else "error"]
       = Ok (PStr ("Phase " +:+ "discovery" +:+
                   (if truthy result then " completed successfully"
                    else " produced no results")))
    /\ py_path (ProgressTracker.read_progress tracker w3)
         ["phases"; "discovery"; "started_at"]
       = Ok (PStr (clock w (ticks w) +:+ "Z"))
    /\ (forall Q, Q <> "discovery" ->
          py_path (ProgressTracker.read_progress tracker w3) ["phases"; Q]
          = py_path (ProgressTracker.read_progress tracker w) ["phases"; Q]).
Proof.
  intros self tracker w.
  apply (X9_run_records_the_outcome PhaseRunner.placeholder self w).
  - apply init_progress_well_formed.
  - intros w1. reflexivity.
  - intros w1. exists PNone. reflexivity.
Defined.

(** The loop of the pipeline over phases that all pass. *)
Lemma run_phases_pass (_execute_phase : PhaseRunner.t -> M pyval)
    (self : Orchestrator.t) (phases : list string) :
  let tracker := Orchestrator.progress_tracker self in
  let runner P :=
    PhaseRunner.__init__ (Orchestrator.config self)
      (Orchestrator.state_manager self) tracker P in
  NoDup phases ->
  (forall P w1, In P phases ->
     files (fst (_execute_phase (runner P) w1))
       !! ProgressTracker.progress_file tracker
     = files w1 !! ProgressTracker.progress_file tracker) ->
  (forall P w1, In P phases ->
     exists result,
       snd (_execute_phase (runner P) w1) = Ok result
       /\ truthy result = true
       /\ forall gate, Orchestrator.gate_of P = Some gate ->
                       snd (gate result) = Ok tt) ->
  forall w,
    well_formed_record (ProgressTracker.read_progress tracker w) ->
    exists w',
      Orchestrator.run_phases _execute_phase self phases w = (w', Ok true)
      /\ well_formed_record (ProgressTracker.read_progress tracker w')
      /\ (forall P, In P phases ->
            py_path (ProgressTracker.read_progress tracker w')
              ["phases"; P; "status"] = Ok (PStr "completed"))
      /\ (forall Q, ~ In Q phases ->
            py_path (ProgressTracker.read_progress tracker w') ["phases"; Q]
            = py_path (ProgressTracker.read_progress tracker w) ["phases"; Q])
      /\ (forall k, k <> "phases" ->
            py_path (ProgressTracker.read_progress tracker w') [k]
            = py_path (ProgressTracker.read_progress tracker w) [k]).
Proof.
  intros tracker runner Hnodup. 
  induction Hnodup as [|P rest Hnotin Hnodup IH]; intros Hfile Hpass w Hwf.
  - exists w. repeat split; auto. intros P [].
  - set (w0 := print ("Starting phase: " +:+ P) w).
    assert (Hread0 : ProgressTracker.read_progress tracker w0
                     = ProgressTracker.read_progress tracker w)
      by (apply read_progress_same_file; reflexivity).
    assert (Hwf0 : well_formed_record
                     (ProgressTracker.read_progress tracker w0))
      by now rewrite Hread0.
    assert (Hreturns :
      forall w1, exists result,
        snd (_execute_phase (runner P) w1) = Ok result).
    { intros w1. destruct (Hpass P w1 (or_introl eq_refl)) as (r & Hr & _).
      eauto. }
    rewrite list_elem_of_In in Hnotin.
    destruct (run_returns _execute_phase (runner P) w0 Hwf0
                (fun w1 => Hfile P w1 (or_introl eq_refl)) Hreturns)
      as (w1 & w3 & result & Hres & Hrun & Hwf3 & Hstatus & _ & _ & Hframe
          & Htop).
    change (PhaseRunner.progress_tracker (runner P)) with tracker in *.
    change (PhaseRunner.phase (runner P)) with P in *.
    destruct (Hpass P w1 (or_introl eq_refl))
      as (result' & Hres' & Htruthy & Hgate).
    rewrite Hres in Hres'. injection Hres' as <-.
    rewrite Htruthy in Hstatus.
    assert (Hvalid :
      Orchestrator._validate_phase_result self P result w3 = (w3, Ok true)).
    { unfold Orchestrator._validate_phase_result.
      destruct (Orchestrator.gate_of P) as [gate|] eqn:Hg; [|reflexivity].
      now rewrite (Hgate gate eq_refl). }
    set (w4 := print ("Phase " +:+ P +:+ " completed successfully") w3).
    assert (Hread4 : ProgressTracker.read_progress tracker w4
                     = ProgressTracker.read_progress tracker w3)
      by (apply read_progress_same_file; reflexivity).
    destruct (IH (fun Q w1 HQ => Hfile Q w1 (or_intror HQ))
                (fun Q w1 HQ => Hpass Q w1 (or_intror HQ)) w4)
      as (w' & Hrest & Hwf' & Hdone & Hframe' & Htop').
    { now rewrite Hread4. }
    exists w'. split; [|split; [exact Hwf'|split; [|split]]].
    + cbn [Orchestrator.run_phases]. unfold bind, effect, ret.
      fold w0. fold tracker. fold (runner P). rewrite Hrun, Htruthy.
      cbn [negb]. rewrite Hvalid. cbn [negb]. fold w4. exact Hrest.
    + intros Q [<-|HQ]; [|now apply Hdone].
      change ["phases"; P; "status"] with (["phases"; P] ++ ["status"])%list.
      rewrite py_path_app, (Hframe' P Hnotin), Hread4, <- py_path_app.
      exact Hstatus.
    + intros Q HQ. rewrite Hframe', Hread4 by (intros H; apply HQ; now right).
      rewrite Hframe, Hread0; [reflexivity|].
      intros ->. apply HQ. now left.
    + intros k Hk. rewrite (Htop' k Hk), Hread4, (Htop k Hk), Hread0.
      reflexivity.
Qed.

(** X10. A pipeline whose collaborator returns, for every phase, a truthy
    result that the phase's gate accepts, and leaves the progress file
    alone: [run_pipeline] returns [True], the record lists all five phases
    as [completed], and its project name is the configured one. *)
Theorem X10_pipeline_succeeds
    (_execute_phase : PhaseRunner.t -> M pyval) (config : schema.Config)
    (w : world) :
  let self := Orchestrator.__init__ config in
  let tracker := Orchestrator.progress_tracker self in
  let runner P :=
    PhaseRunner.__init__ config (Orchestrator.state_manager self) tracker P in
  (forall P w1, In P Orchestrator.PHASES ->
     files (fst (_execute_phase (runner P) w1))
       !! ProgressTracker.progress_file tracker
     = files w1 !! ProgressTracker.progress_file tracker) ->
  (forall P w1, In P Orchestrator.PHASES ->
     exists result,
       snd (_execute_phase (runner P) w1) = Ok result
       /\ truthy result = true
       /\ forall gate, Orchestrator.gate_of P = Some gate ->
                       snd (gate result) = Ok tt) ->
  exists w',
    Orchestrator.run_pipeline _execute_phase self w = (w', Ok true)
    /\ (forall P, In P Orchestrator.PHASES ->
          py_path (Orchestrator.get_pipeline_status self w')
            ["phases"; P; "status"] = Ok (PStr "completed"))
    /\ py_path (Orchestrator.get_pipeline_status self w') ["project"]
       = Ok (PStr (schema.project_name config)).
Proof.
  intros self tracker runner Hfile Hpass.
  assert (Hnodup : NoDup Orchestrator.PHASES).
  { apply distinct_NoDup. reflexivity. }
  destruct (run_phases_pass _execute_phase self Orchestrator.PHASES Hnodup
              Hfile Hpass
              (ProgressTracker.init_progress tracker
                 (schema.project_name config) w)
              (init_progress_well_formed _ _ _))
    as (w' & Hrun & _ & Hdone & _ & Htop).
  exists w'. unfold Orchestrator.run_pipeline.
  change (Orchestrator.progress_tracker self) with tracker.
  change (schema.project_name (Orchestrator.config self))
    with (schema.project_name config).
  rewrite Hrun. split; [reflexivity|]. split; [exact Hdone|].
  unfold Orchestrator.get_pipeline_status.
  change (Orchestrator.progress_tracker self) with tracker.
  rewrite Htop by discriminate. rewrite init_progress_read. reflexivity.
Qed.

Lemma X10_pipeline_succeeds_witness :
  let self := Orchestrator.__init__ sample_Config in
  exists w',
    Orchestrator.run_pipeline (scripted_collaborator complete_script) self
      empty_world = (w', Ok true)
    /\ (forall P, In P Orchestrator.PHASES ->
          py_path (Orchestrator.get_pipeline_status self w')
            ["phases"; P; "status"] = Ok (PStr "completed"))
    /\ py_path (Orchestrator.get_pipeline_status self w') ["project"]
       = Ok (PStr (schema.project_name sample_Config)).
Proof.
  apply (X10_pipeline_succeeds (scripted_collaborator complete_script)
           sample_Config empty_world).
  - intros P w1 _. reflexivity.
  - intros P w1 HP. simpl in HP.
    destruct HP as [<-|[<-|[<-|[<-|[<-|[]]]]]];
      (eexists; split; [reflexivity|]; split; [reflexivity|]);
      intros gate Hgate; try discriminate;
      injection Hgate as <-; reflexivity.
Defined.

(** ** What the gates accept *)

Lemma check_migrations_ok (items : list pyval) :
  gates.check_migrations items = Ok tt -> Forall filled_migration items.
Proof.
  induction items as [|m items IH]; simpl; intros H; [constructor|].
  destruct m as [|b|z|s|l|l|d]; simpl in H; try discriminate.
  destruct (dict_get d "graphql_query") as [q|] eqn:Hq.
  - destruct q as [|b|z|q|l|l|d']; simpl in H; try discriminate.
    destruct (String.eqb (strip q) "") eqn:Eq; simpl in H; [discriminate|].
    destruct (dict_get d "new_code") as [c|] eqn:Hc.
    + destruct c as [|b|z|c|l|l|d']; simpl in H; try discriminate.
      destruct (String.eqb (strip c) "") eqn:Ec; simpl in H; [discriminate|].
      constructor; [|now apply IH].
      exists q, c. simpl. rewrite Hq, Hc.
      apply String.eqb_neq in Eq, Ec. auto.
    + simpl in H. discriminate.
  - simpl in H. discriminate.
Qed.

(** X11. What passes a gate, exactly: a dictionary tagged with the phase's
    name whose collection is present and truthy and, for generation, can be
    iterated and holds only items with a query and a code that are not
    blank.  The collection is tested for truth only, so that a value other
    than a list passes the discovery and narrowing gates. *)
Theorem X11_gate_passes_exactly
    (P coll : string) (gate : ST pyval unit) (r : pyval) :
  In (P, coll, gate) gated ->
  snd (gate r) = Ok tt
  <-> py_field r "phase" = Some (PStr P)
      /\ exists v,
           py_field r coll = Some v
           /\ truthy v = true
           /\ (P = "generation" ->
               exists items,
                 py_iter v = Ok items /\ Forall filled_migration items).
Proof.
  intros Hin. simpl in Hin.
  destruct r as [|b|z|s|l|l|d];
    try (split;
         [ destruct Hin as [H|[H|[H|[]]]]; injection H as <- <- <-;
           discriminate
         | intros [H _]; discriminate ]).
  assert (Hgate :
    snd (gate (PDict d))
    = match dict_get d "phase" with
      | Some ph =>
          if py_eq ph (PStr P)
          then match dict_get d coll with
               | Some v =>
                   if truthy v
                   then (if String.eqb P "generation"
                         then res_bind (py_iter v) gates.check_migrations
                         else Ok tt)
                   else Raise (Exn "GateError" "")
               | None => Raise (Exn "GateError" "")
               end
          else Raise (Exn "GateError" "")
      | None => Raise (Exn "GateError" "")
      end
    \/ exists msg, snd (gate (PDict d)) = Raise (gates.GateError msg)
                   /\ (dict_get d "phase" = None
                       \/ (exists ph, dict_get d "phase" = Some ph
                                      /\ py_eq ph (PStr P) = false)
                       \/ dict_get d coll = None
                       \/ exists v, dict_get d coll = Some v
                                    /\ truthy v = false)).
  { destruct Hin as [H|[H|[H|[]]]]; injection H as <- <- <-;
      cbv [gates.validate_discovery_gate gates.validate_narrowing_gate
           gates.validate_generation_gate bind gates.isinstance_dict
           gates.result_get reading raise ret py_get negb];
      (destruct (dict_get d "phase") as [ph|] eqn:Hph;
       [|right; simpl; eexists; split; [reflexivity|auto]]);
      (lazymatch goal with
       | |- context [py_eq ph ?p] =>
           destruct (py_eq ph p) eqn:Heq;
           [|right; simpl; eexists; split; [reflexivity|eauto]]
       end);
      (lazymatch goal with
       | |- context [match dict_get d ?k with _ => _ end] =>
           destruct (dict_get d k) as [v|] eqn:Hv;
           [|right; simpl; eexists; split; [reflexivity|auto]]
       end);
      (destruct (truthy v) eqn:Hv';
       [|right; simpl; eexists; split; [reflexivity|eauto 6]]);
      left; simpl; try reflexivity;
      destruct (py_iter v); reflexivity. }
  simpl py_field.
  destruct Hgate as [Hgate|(msg & Hgate & Hbad)]; rewrite Hgate.
  - destruct (dict_get d "phase") as [ph|] eqn:Hph;
      [|split; [discriminate|intros [H _]; discriminate]].
    destruct (py_eq ph (PStr P)) eqn:Heq.
    2:{ split; [discriminate|]. intros [H _]. injection H as ->.
        assert (py_eq (PStr P) (PStr P) = true) by now apply py_eq_str.
        congruence. }
    apply py_eq_str in Heq. subst ph.
    destruct (dict_get d coll) as [v|] eqn:Hv;
      [|split; [discriminate|intros (_ & v & H & _); discriminate]].
    destruct (truthy v) eqn:Hv'.
    2:{ split; [discriminate|]. intros (_ & v' & H & H' & _).
        injection H as <-. congruence. }
    destruct (String.eqb P "generation") eqn:HP.
    + apply String.eqb_eq in HP. split.
      * intros Hcheck. split; [reflexivity|]. exists v.
        repeat split; auto. intros _.
        destruct (py_iter v) as [items|]; [|discriminate].
        exists items. split; [reflexivity|].
        now apply check_migrations_ok.
      * intros (_ & v' & H & _ & Hitems). injection H as <-.
        destruct (Hitems HP) as (items & -> & Hfilled).
        now apply check_migrations_filled.
    + apply String.eqb_neq in HP. split; [|reflexivity].
      intros _. split; [reflexivity|]. exists v. repeat split; auto.
      intros. contradiction.
  - split; [discriminate|]. intros (Hphase & v & Hv & Hv' & _).
    destruct Hbad as [H|[(ph & H & Hne)|[H|(v' & H & Hne)]]];
      try congruence.
    rewrite Hphase in H. injection H as <-.
    assert (py_eq (PStr P) (PStr P) = true) by now apply py_eq_str.
    congruence.
Qed.

Lemma X11_gate_passes_exactly_witness :
  snd (gates.validate_discovery_gate
         (PDict [("phase", PStr "discovery"); ("usages", PInt 1)]))
  = Ok tt
  <-> py_field (PDict [("phase", PStr "discovery"); ("usages", PInt 1)])
        "phase" = Some (PStr "discovery")
      /\ exists v,
           py_field (PDict [("phase", PStr "discovery"); ("usages", PInt 1)])
             "usages" = Some v
           /\ truthy v = true
           /\ ("discovery" = "generation" ->
               exists items,
                 py_iter v = Ok items /\ Forall filled_migration items).
Proof.
  apply (X11_gate_passes_exactly "discovery" "usages"
           gates.validate_discovery_gate).
  simpl. left. reflexivity.
Defined.

Lemma check_migrations_app (good items : list pyval) :
  Forall filled_migration good ->
  gates.check_migrations (good ++ items)%list = gates.check_migrations items.
Proof.
  induction 1 as [|m good Hm _ IH]; [reflexivity|].
  destruct Hm as (q & c & Hq & Hq' & Hc & Hc').
  destruct m; simpl in Hq, Hc; try discriminate.
  simpl. rewrite Hq. simpl.
  rewrite (proj2 (String.eqb_neq _ _) Hq'). simpl.
  rewrite Hc. simpl.
  rewrite (proj2 (String.eqb_neq _ _) Hc'). simpl.
  exact IH.
Qed.

(** X12. The generation gate on a list of migrations whose first item that
    is not filled is no dictionary, or is a dictionary whose query is no
    string: the gate raises the interpreter's [AttributeError] for the
    missing [get] or [strip], not a [GateError], and
    [_validate_phase_result] prints nothing and lets it through. *)
Theorem X12_generation_gate_item_errors
    (self : Orchestrator.t) (r bad : pyval) (good rest : list pyval)
    (w : world) :
  py_field r "phase" = Some (PStr "generation") ->
  py_field r "generated_migrations" = Some (PList (good ++ bad :: rest)) ->
  Forall filled_migration good ->
  let e :=
    match bad with
    | PDict d =>
        match dict_get d "graphql_query" with
        | Some (PStr _) | None => None
        | Some q => Some (no_attribute q "strip")
        end
    | _ => Some (no_attribute bad "get")
    end in
  forall err, e = Some err ->
    snd (gates.validate_generation_gate r) = Raise err
    /\ gates.is_GateError err = false
    /\ Orchestrator._validate_phase_result self "generation" r w
       = (w, Raise err).
Proof.
  intros Hphase Hcoll Hgood e err He.
  destruct r as [| | | | | |d]; simpl in Hphase, Hcoll; try discriminate.
  assert (Hgate : snd (gates.validate_generation_gate (PDict d))
                  = gates.check_migrations (bad :: rest)).
  { cbv [gates.validate_generation_gate bind gates.isinstance_dict
         gates.result_get reading raise ret py_get negb].
    rewrite Hphase. simpl. rewrite Hcoll.
    assert (Htruthy : truthy (PList (good ++ bad :: rest)) = true)
      by (destruct good; reflexivity).
    rewrite Htruthy. cbn [snd py_iter res_bind].
    now apply check_migrations_app. }
  assert (Herr : gates.check_migrations (bad :: rest) = Raise err
                 /\ gates.is_GateError err = false).
  { subst e. destruct bad as [|b|z|s|l|l|d']; try (injection He as <-);
      try (split; reflexivity).
    simpl. destruct (dict_get d' "graphql_query") as [q|]; [|discriminate].
    destruct q; try discriminate; injection He as <-; split; reflexivity. }
  destruct Herr as [Herr Hclass]. rewrite Hgate. repeat split; auto.
  unfold Orchestrator._validate_phase_result.
  change (Orchestrator.gate_of "generation")
    with (Some gates.validate_generation_gate).
  cbv beta iota. rewrite Hgate, Herr, Hclass. reflexivity.
Qed.

Lemma X12_generation_gate_item_errors_witness :
  let r :=
    PDict [("phase", PStr "generation");
           ("generated_migrations", PList [PStr "not a migration"])] in
  snd (gates.validate_generation_gate r)
  = Raise (no_attribute (PStr "not a migration") "get")
  /\ gates.is_GateError (no_attribute (PStr "not a migration") "get") = false
  /\ Orchestrator._validate_phase_result
       (Orchestrator.__init__ sample_Config) "generation" r empty_world
     = (empty_world, Raise (no_attribute (PStr "not a migration") "get")).
Proof.
  intros r.
  apply (X12_generation_gate_item_errors
           (Orchestrator.__init__ sample_Config) r (PStr "not a migration")
           [] [] empty_world).
  - reflexivity.
  - reflexivity.
  - constructor.
  - reflexivity.
Defined.

(** The gates raise exceptions of classes derived from [Exception]. *)
Lemma check_migrations_Exception (items : list pyval) (e : exn) :
  gates.check_migrations items = Raise e -> is_Exception e = true.
Proof.
  induction items as [|m items IH]; simpl; [discriminate|].
  destruct m as [|b|z|s|l|l|d]; simpl;
    try (intros H; injection H as <-; reflexivity).
  destruct (dict_get d "graphql_query") as [[|b|z|q|l|l|d']|]; simpl;
    try (intros H; injection H as <-; reflexivity).
  destruct (String.eqb (strip q) ""); simpl;
    try (intros H; injection H as <-; reflexivity).
  destruct (dict_get d "new_code") as [[|b|z|c|l|l|d']|]; simpl;
    try (intros H; injection H as <-; reflexivity).
  destruct (String.eqb (strip c) ""); simpl;
    try (intros H; injection H as <-; reflexivity).
  exact IH.
Qed.

Lemma gate_raises_Exception (phase : string) (gate : ST pyval unit)
    (r : pyval) (e : exn) :
  Orchestrator.gate_of phase = Some gate ->
  snd (gate r) = Raise e -> is_Exception e = true.
Proof.
  unfold Orchestrator.gate_of. intros Hgate.
  assert (Hcases : gate = gates.validate_discovery_gate
                   \/ gate = gates.validate_narrowing_gate
                   \/ gate = gates.validate_generation_gate).
  { destruct (String.eqb phase "discovery");
      [injection Hgate as <-; auto|].
    destruct (String.eqb phase "narrowing");
      [injection Hgate as <-; auto|].
    destruct (String.eqb phase "generation");
      [injection Hgate as <-; auto|discriminate]. }
  destruct Hcases as [-> | [-> | ->]];
    cbv [gates.validate_discovery_gate gates.validate_narrowing_gate
         gates.validate_generation_gate bind gates.isinstance_dict
         gates.result_get reading raise ret py_get negb];
    (destruct r as [|b|z|s|l|l|d]; simpl;
     try (intros H; injection H as <-; reflexivity));
    (destruct (dict_get d "phase") as [ph|]; simpl;
     try (intros H; injection H as <-; reflexivity));
    (lazymatch goal with
     | |- context [py_eq ph ?p] =>
         destruct (py_eq ph p); simpl;
         try (intros H; injection H as <-; reflexivity)
     end);
    (lazymatch goal with
     | |- context [match dict_get d ?k with _ => _ end] =>
         destruct (dict_get d k) as [v|]; simpl;
         try (intros H; injection H as <-; reflexivity)
     end);
    (destruct (truthy v); simpl;
     try (intros H; injection H as <-; reflexivity));
    try discriminate.
  destruct v as [|b|z|s|l|l|d']; simpl;
    try (intros H; injection H as <-; reflexivity);
    apply check_migrations_Exception.
Qed.

(** X13. A phase whose truthy result its gate refuses ends the pipeline.
    On a [GateError] the gate's message and then the phase's "validation
    failed" line are printed; on any other exception of the gate the line
    is "Pipeline failed" with the exception's text.  In both cases
    [run_pipeline] returns [False], the world is the one the runner left
    plus these lines, and no later phase is started. *)
Theorem X13_gate_refusal_stops_pipeline
    (_execute_phase : PhaseRunner.t -> M pyval) (self : Orchestrator.t)
    (done rest : list string) (phase : string) (w w1 w2 : world)
    (result : pyval) (gate : ST pyval unit) (e : exn) :
  Orchestrator.PHASES = (done ++ phase :: rest)%list ->
  Orchestrator.run_phases _execute_phase self done
    (ProgressTracker.init_progress (Orchestrator.progress_tracker self)
       (schema.project_name (Orchestrator.config self)) w)
  = (w1, Ok true) ->
  PhaseRunner.run _execute_phase
    (PhaseRunner.__init__ (Orchestrator.config self)
       (Orchestrator.state_manager self) (Orchestrator.progress_tracker self)
       phase)
    (print ("Starting phase: " +:+ phase) w1)
  = (w2, Ok result) ->
  truthy result = true ->
  Orchestrator.gate_of phase = Some gate ->
  snd (gate result) = Raise e ->
  Orchestrator.run_pipeline _execute_phase self w
  = if gates.is_GateError e
    then (print ("Phase " +:+ phase +:+ " validation failed")
            (print ("Gate validation failed for " +:+ phase +:+ ": "
                    +:+ exn_msg e) w2),
          Ok false)
    else (print ("Pipeline failed: " +:+ exn_msg e) w2, Ok false).
Proof.
  intros Hphases Hdone Hrun Htruthy Hgate Hraise.
  pose proof (gate_raises_Exception phase gate result e Hgate Hraise)
    as Hexception.
  unfold Orchestrator.run_pipeline. rewrite Hphases.
  rewrite run_phases_app, Hdone.
  simpl. unfold bind, effect, ret. simpl.
  rewrite Hrun, Htruthy. simpl.
  unfold Orchestrator._validate_phase_result.
  rewrite Hgate, Hraise.
  destruct (gates.is_GateError e); [reflexivity|].
  unfold raise. now rewrite Hexception.
Qed.

Lemma X13_gate_refusal_stops_pipeline_witness :
  let script :=
    [("discovery", discovery_result);
     ("narrowing", PDict [("phase", PStr "narrowing")])] in
  exists w2,
    Orchestrator.run_pipeline (scripted_collaborator script)
      (Orchestrator.__init__ sample_Config) empty_world
    = (print ("Phase " +:+ "narrowing" +:+ " validation failed")
         (print ("Gate validation failed for " +:+ "narrowing" +:+ ": "
                 +:+ "Narrowing must produce at least one narrowed usage")
            w2),
       Ok false).
Proof.
  intros script. eexists.
  eapply (X13_gate_refusal_stops_pipeline (scripted_collaborator script)
            (Orchestrator.__init__ sample_Config)
            ["discovery"] ["generation"; "migration"; "validation"]
            "narrowing" empty_world _ _ _ gates.validate_narrowing_gate
            (gates.GateError
               "Narrowing must produce at least one narrowed usage")).
  - reflexivity.
  - vm_compute. reflexivity.
  - vm_compute. reflexivity.
  - reflexivity.
  - reflexivity.
  - reflexivity.
Defined.

(** X14. An exception that leaves the runner (the collaborator's, once the
    runner has recorded it, or one of a mark on a damaged record) ends the
    pipeline and no later phase is started.  When its class derives from
    [Exception], [run_pipeline] catches it, prints "Pipeline failed" with
    its text and returns [False].  Any other exception, a cancellation or
    an interrupt, leaves [run_pipeline] as well: nothing is printed and
    nothing is returned. *)
Theorem X14_exception_stops_pipeline
    (_execute_phase : PhaseRunner.t -> M pyval) (self : Orchestrator.t)
    (done rest : list string) (phase : string) (w w1 w2 : world) (e : exn) :
  Orchestrator.PHASES = (done ++ phase :: rest)%list ->
  Orchestrator.run_phases _execute_phase self done
    (ProgressTracker.init_progress (Orchestrator.progress_tracker self)
       (schema.project_name (Orchestrator.config self)) w)
  = (w1, Ok true) ->
  PhaseRunner.run _execute_phase
    (PhaseRunner.__init__ (Orchestrator.config self)
       (Orchestrator.state_manager self) (Orchestrator.progress_tracker self)
       phase)
    (print ("Starting phase: " +:+ phase) w1)
  = (w2, Raise e) ->
  Orchestrator.run_pipeline _execute_phase self w
  = if is_Exception e
    then (print ("Pipeline failed: " +:+ exn_msg e) w2, Ok false)
    else (w2, Raise e).
Proof.
  intros Hphases Hdone Hrun.
  unfold Orchestrator.run_pipeline. rewrite Hphases.
  rewrite run_phases_app, Hdone.
  simpl. unfold bind, effect, ret. simpl.
  rewrite Hrun. reflexivity.
Qed.

Lemma X14_exception_stops_pipeline_witness :
  (exists w2,
     Orchestrator.run_pipeline
       (raising_collaborator (Exn "RuntimeError" "agent crashed"))
       (Orchestrator.__init__ sample_Config) empty_world
     = (print ("Pipeline failed: " +:+ "agent crashed") w2, Ok false))
  /\ (exists w2,
        Orchestrator.run_pipeline
          (raising_collaborator (CancelledError ""))
          (Orchestrator.__init__ sample_Config) empty_world
        = (w2, Raise (CancelledError ""))).
Proof.
  split; eexists.
  - eapply (X14_exception_stops_pipeline
              (raising_collaborator (Exn "RuntimeError" "agent crashed"))
              (Orchestrator.__init__ sample_Config)
              [] ["narrowing"; "generation"; "migration"; "validation"]
              "discovery" empty_world _ _
              (Exn "RuntimeError" "agent crashed")).
    + reflexivity.
    + reflexivity.
    + vm_compute. reflexivity.
  - eapply (X14_exception_stops_pipeline
              (raising_collaborator (CancelledError ""))
              (Orchestrator.__init__ sample_Config)
              [] ["narrowing"; "generation"; "migration"; "validation"]
              "discovery" empty_world _ _ (CancelledError "")).
    + reflexivity.
    + reflexivity.
    + vm_compute. reflexivity.
Defined.

(** The loop of the pipeline with the body [_execute_phase] has in the
    source, on a well-formed record. *)
Lemma shipped_run_phases (self : Orchestrator.t) (w0 : world) :
  let tracker := Orchestrator.progress_tracker self in
  well_formed_record (ProgressTracker.read_progress tracker w0) ->
  exists w3,
    Orchestrator.run_phases PhaseRunner.placeholder self Orchestrator.PHASES w0
    = (print "Phase discovery failed" w3, Ok false)
    /\ stdout w3 = (stdout w0 ++ ["Starting phase: discovery"])%list
    /\ py_path (ProgressTracker.read_progress tracker w3)
         ["phases"; "discovery"; "status"] = Ok (PStr "failed")
    /\ py_path (ProgressTracker.read_progress tracker w3)
         ["phases"; "discovery"; "error"]
       = Ok (PStr "Phase discovery produced no results")
    /\ (forall Q, Q <> "discovery" ->
          py_path (ProgressTracker.read_progress tracker w3) ["phases"; Q]
          = py_path (ProgressTracker.read_progress tracker w0) ["phases"; Q])
    /\ (forall path, path <> ProgressTracker.progress_file tracker ->
          files w3 !! path = files w0 !! path).
Proof.
  intros tracker Hwf.
  set (w0' := print ("Starting phase: " +:+ "discovery") w0).
  assert (Hread0 : ProgressTracker.read_progress tracker w0'
                   = ProgressTracker.read_progress tracker w0)
    by (apply read_progress_same_file; reflexivity).
  assert (Hwf0 : well_formed_record
                   (ProgressTracker.read_progress tracker w0'))
    by now rewrite Hread0.
  destruct (mark_well_formed tracker "discovery" "" ""
              ProgressTracker.mark_phase_started _ w0' (or_introl eq_refl)
              Hwf0)
    as (w1 & Hstart & Hwf1 & _ & Hframe1 & _ & Hfiles1 & Hout1).
  destruct (mark_well_formed tracker "discovery" ""
              "Phase discovery produced no results"
              (fun self phase =>
                 ProgressTracker.mark_phase_failed self phase
                   "Phase discovery produced no results")
              _ w1 (or_intror (or_intror (or_introl eq_refl))) Hwf1)
    as (w3 & Hfail & _ & Hset3 & Hframe3 & _ & Hfiles3 & Hout3).
  exists w3. split; [|split; [|split; [|split; [|split]]]].
  - change (Orchestrator.run_phases PhaseRunner.placeholder self
              Orchestrator.PHASES w0)
      with (let (w2, r) :=
              PhaseRunner.run PhaseRunner.placeholder
                (PhaseRunner.__init__ (Orchestrator.config self)
                   (Orchestrator.state_manager self) tracker "discovery")
                w0' in
            match r with
            | Ok result =>
                (if negb (truthy result)
                 then effect (print ("Phase " +:+ "discovery" +:+ " failed"))
                      ;;; ret false
                 else
                   let* valid :=
                     Orchestrator._validate_phase_result self "discovery"
                       result in
                   if negb valid
                   then effect (print ("Phase " +:+ "discovery"
                                       +:+ " validation failed"))
                        ;;; ret false
                   else
                     effect (print ("Phase " +:+ "discovery"
                                    +:+ " completed successfully"))
                     ;;; Orchestrator.run_phases PhaseRunner.placeholder self
                           ["narrowing"; "generation"; "migration";
                            "validation"]) w2
            | Raise e => (w2, Raise e)
            end).
    unfold PhaseRunner.run, PhaseRunner.placeholder, bind, try_except, ret,
      raise.
    cbn [PhaseRunner.progress_tracker PhaseRunner.phase PhaseRunner.__init__].
    rewrite Hstart. cbn [truthy].
    change ("Phase " +:+ "discovery" +:+ " produced no results")
      with "Phase discovery produced no results".
    rewrite Hfail. reflexivity.
  - rewrite Hout3, Hout1. reflexivity.
  - apply Hset3. reflexivity.
  - apply Hset3. reflexivity.
  - intros Q HQ. now rewrite (Hframe3 Q HQ), (Hframe1 Q HQ), Hread0.
  - intros path Hpath. now rewrite (Hfiles3 path Hpath), (Hfiles1 path Hpath).
Qed.

(** X15. The pipeline with the body [_execute_phase] has in the source:
    whatever the configuration and the world, [run_pipeline] returns
    [False] after two lines of output; discovery is recorded as [failed]
    with "produced no results", no other phase has an entry, and no file
    but the progress file is changed. *)
Theorem X15_shipped_pipeline_fails_at_discovery
    (config : schema.Config) (w : world) :
  let self := Orchestrator.__init__ config in
  exists w',
    Orchestrator.run_pipeline PhaseRunner.placeholder self w = (w', Ok false)
    /\ stdout w'
       = (stdout w
          ++ ["Starting phase: discovery"; "Phase discovery failed"])%list
    /\ py_path (Orchestrator.get_pipeline_status self w')
         ["phases"; "discovery"; "status"] = Ok (PStr "failed")
    /\ py_path (Orchestrator.get_pipeline_status self w')
         ["phases"; "discovery"; "error"]
       = Ok (PStr "Phase discovery produced no results")
    /\ (forall Q, Q <> "discovery" ->
          py_path (Orchestrator.get_pipeline_status self w') ["phases"; Q]
          = Raise (KeyError ("'" +:+ Q +:+ "'")))
    /\ (forall path,
          path <> ProgressTracker.progress_file
                    (Orchestrator.progress_tracker self) ->
          files w' !! path = files w !! path).
Proof.
  intros self.
  set (tracker := Orchestrator.progress_tracker self).
  set (w0 := ProgressTracker.init_progress tracker
               (schema.project_name config) w).
  destruct (shipped_run_phases self w0 (init_progress_well_formed _ _ _))
    as (w3 & Hrun & Hout & Hstatus & Herror & Hframe & Hfiles).
  fold tracker in Hstatus, Herror, Hframe, Hfiles.
  exists (print "Phase discovery failed" w3).
  assert (Hread :
    ProgressTracker.read_progress tracker (print "Phase discovery failed" w3)
    = ProgressTracker.read_progress tracker w3)
    by (apply read_progress_same_file; reflexivity).
  unfold Orchestrator.get_pipeline_status. fold tracker. rewrite Hread.
  split; [|split; [|split; [|split; [|split]]]].
  - unfold Orchestrator.run_pipeline.
    change (ProgressTracker.init_progress
              (Orchestrator.progress_tracker self)
              (schema.project_name (Orchestrator.config self)) w) with w0.
    now rewrite Hrun.
  - cbn [print stdout]. rewrite Hout. unfold w0.
    unfold ProgressTracker.init_progress, utcnow_isoformat,
      ProgressTracker._write_progress, write_json, set_files.
    cbn [stdout]. rewrite <- app_assoc. reflexivity.
  - exact Hstatus.
  - exact Herror.
  - intros Q HQ. rewrite (Hframe Q HQ). unfold w0.
    rewrite init_progress_read. reflexivity.
  - intros path Hpath. cbn [print files]. rewrite (Hfiles path Hpath).
    unfold w0, ProgressTracker.init_progress, utcnow_isoformat,
      ProgressTracker._write_progress.
    rewrite files_write_json_ne by congruence. reflexivity.
Qed.

(** ** The output hooks beside the gates *)

Lemma py_eq_str_refl (s : string) : py_eq (PStr s) (PStr s) = true.
Proof. now apply py_eq_str. Qed.

(** X16. An output hook accepts exactly the data (the output itself, or
    the document a text holds) that are dictionaries tagged with the
    phase's name whose collection is absent or a list.  It is weaker than
    the gate of the phase: a result with a list as collection that passes
    the gate passes the hook, and a tagged result with the collection
    absent or empty passes the hook although the gate refuses it. *)
Theorem X16_hook_is_weaker_than_gate
    (json_loads : string -> option json) (P coll : string)
    (gate : ST pyval unit) (hook : pyval -> bool) (r : pyval) :
  In (P, coll, gate) gated ->
  In (P, coll, hook) (output_hooks json_loads) ->
  (hook r = true
   <-> exists data,
         validation_gates.loaded json_loads r = Some data
         /\ py_field data "phase" = Some (PStr P)
         /\ (py_field data coll = None
             \/ exists l, py_field data coll = Some (PList l)))
  /\ (snd (gate r) = Ok tt ->
      (exists l, py_field r coll = Some (PList l)) ->
      hook r = true)
  /\ (py_field r "phase" = Some (PStr P) ->
      py_field r coll = None \/ py_field r coll = Some (PList []) ->
      hook r = true
      /\ exists msg, snd (gate r) = Raise (gates.GateError msg)).
Proof.
  intros Hgate Hhook.
  assert (Hdef :
    hook r
    = match validation_gates.loaded json_loads r with
      | Some (PDict d) =>
          if negb (py_eq (default PNone (dict_get d "phase")) (PStr P))
          then false
          else match default (PList []) (dict_get d coll) with
               | PList _ => true
               | _ => false
               end
      | _ => false
      end).
  { simpl in Hhook.
    destruct Hhook as [H|[H|[H|[]]]]; injection H as <- <- <-;
      unfold validation_gates.validate_discovery_output,
        validation_gates.validate_narrowing_output,
        validation_gates.validate_generation_output;
      destruct (validation_gates.loaded json_loads r) as [[]|];
      reflexivity. }
  assert (Hiff :
    hook r = true
    <-> exists data,
          validation_gates.loaded json_loads r = Some data
          /\ py_field data "phase" = Some (PStr P)
          /\ (py_field data coll = None
              \/ exists l, py_field data coll = Some (PList l))).
  { rewrite Hdef.
    destruct (validation_gates.loaded json_loads r) as [data|];
      [|split; [discriminate|intros (? & ? & _); discriminate]].
    destruct data as [|b|z|s|l|l|d];
      try (split; [discriminate|];
           intros (? & H & H' & _); injection H as <-; discriminate).
    simpl py_field. split.
    - intros H. exists (PDict d). split; [reflexivity|]. simpl py_field.
      destruct (dict_get d "phase") as [ph|]; simpl in H; [|discriminate].
      destruct (py_eq ph (PStr P)) eqn:Heq; simpl in H; [|discriminate].
      apply py_eq_str in Heq. subst ph. split; [reflexivity|].
      destruct (dict_get d coll) as [v|]; [|now left].
      right. destruct v; simpl in H; try discriminate. eauto.
    - intros (data & H & Hphase & Hcoll). injection H as <-.
      simpl in Hphase, Hcoll. rewrite Hphase. simpl.
      rewrite String.eqb_refl. simpl.
      destruct Hcoll as [->|[l ->]]; reflexivity. }
  split; [exact Hiff|]. split.
  - intros Hok [l Hl].
    destruct r as [|b|z|s|l'|l'|d]; simpl in Hl; try discriminate.
    apply Hiff. exists (PDict d). split; [reflexivity|].
    split; [|right; eauto].
    simpl in Hgate.
    destruct Hgate as [H|[H|[H|[]]]]; injection H as <- <- <-;
      revert Hok;
      cbv [gates.validate_discovery_gate gates.validate_narrowing_gate
           gates.validate_generation_gate bind gates.isinstance_dict
           gates.result_get reading raise ret py_get negb];
      simpl py_field;
      (destruct (dict_get d "phase") as [ph|]; simpl; [|discriminate]);
      (lazymatch goal with
       | |- context [py_eq ph ?p] =>
           destruct (py_eq ph p) eqn:Heq; simpl; [|discriminate]
       end);
      apply py_eq_str in Heq; subst ph; reflexivity.
  - intros Hphase Hcoll.
    destruct r as [|b|z|s|l'|l'|d]; simpl in Hphase; try discriminate.
    split.
    + apply Hiff. exists (PDict d). split; [reflexivity|].
      split; [exact Hphase|]. destruct Hcoll; eauto.
    + simpl in Hcoll, Hgate.
      destruct Hgate as [H|[H|[H|[]]]]; injection H as <- <- <-;
        cbv [gates.validate_discovery_gate gates.validate_narrowing_gate
             gates.validate_generation_gate bind gates.isinstance_dict
             gates.result_get reading raise ret py_get negb];
        rewrite Hphase; simpl;
        destruct Hcoll as [-> | ->]; simpl; eexists; reflexivity.
Qed.

Lemma X16_hook_is_weaker_than_gate_witness :
  let r := PDict [("phase", PStr "discovery")] in
  let hook := validation_gates.validate_discovery_output (fun _ => None) in
  (hook r = true
   <-> exists data,
         validation_gates.loaded (fun _ => None) r = Some data
         /\ py_field data "phase" = Some (PStr "discovery")
         /\ (py_field data "usages" = None
             \/ exists l, py_field data "usages" = Some (PList l)))
  /\ (snd (gates.validate_discovery_gate r) = Ok tt ->
      (exists l, py_field r "usages" = Some (PList l)) ->
      hook r = true)
  /\ (py_field r "phase" = Some (PStr "discovery") ->
      py_field r "usages" = None \/ py_field r "usages" = Some (PList []) ->
      hook r = true
      /\ exists msg,
           snd (gates.validate_discovery_gate r)
           = Raise (gates.GateError msg)).
Proof.
  intros r hook.
  apply (X16_hook_is_weaker_than_gate (fun _ => None) "discovery" "usages"
           gates.validate_discovery_gate hook r).
  - simpl. left. reflexivity.
  - simpl. left. reflexivity.
Defined.

(** ** The command hook *)

Lemma prefix_chars (sub s : string) (c : ascii) :
  String.prefix sub s = true ->
  In c (list_ascii_of_string sub) -> In c (list_ascii_of_string s).
Proof.
  revert s. induction sub as [|a sub IH]; intros s Hp Hin; [destruct Hin|].
  destruct s as [|b s]; simpl in Hp; [discriminate|].
  destruct (Ascii.ascii_dec a b) as [->|]; [|discriminate].
  simpl in Hin |- *. destruct Hin as [->|Hin]; [now left|].
  right. now apply IH.
Qed.

Lemma str_contains_chars (s sub : string) (c : ascii) :
  str_contains s sub = true ->
  In c (list_ascii_of_string sub) -> In c (list_ascii_of_string s).
Proof.
  induction s as [|a s IH]; simpl; intros H Hin.
  - rewrite orb_false_r in H. destruct sub; [destruct Hin|discriminate].
  - apply orb_true_iff in H as [H|H].
    + exact (prefix_chars sub (String a s) c H Hin).
    + right. now apply IH.
Qed.

Lemma split_blank (s : string) : blank s -> security.split s = [].
Proof.
  induction s as [|c s IH]; intros Hb; [reflexivity|].
  simpl. rewrite (Hb c) by now left.
  apply IH. intros c' Hc'. apply Hb. now right.
Qed.

Lemma blank_no_dangerous (command dangerous : string) :
  blank command -> In dangerous security.DANGEROUS_COMMANDS ->
  str_contains command dangerous = false.
Proof.
  intros Hb Hd.
  assert (Hchar : exists c, In c (list_ascii_of_string dangerous)
                            /\ isspace c = false).
  { simpl in Hd.
    repeat (destruct Hd as [<-|Hd];
            [eexists; split; [left; reflexivity|reflexivity]|]).
    destruct Hd. }
  destruct Hchar as (c & Hc & Hspace).
  destruct (str_contains command dangerous) eqn:E; [|reflexivity].
  pose proof (Hb c (str_contains_chars _ _ c E Hc)). congruence.
Qed.

(** X17. The verdict of the command hook, whatever the order in which the
    set of dangerous patterns is visited.  A command is let through
    exactly when it holds none of the patterns and the last piece, between
    slashes, of its first word is in the allowlist: nothing after the first
    word is looked at but for the patterns.  A command that holds a
    pattern is blocked with a message that names a pattern it holds. *)
Theorem X17_command_verdict (order : list string) (command : string) :
  (forall d, In d order <-> In d security.DANGEROUS_COMMANDS) ->
  (security.validate_bash_command order command = None
   <-> (forall d, In d security.DANGEROUS_COMMANDS ->
                  str_contains command d = false)
       /\ exists first rest,
            security.split command = first :: rest
            /\ In (List.last (security.split_on "/"%char first) "")
                 security.SAFE_COMMANDS)
  /\ ((exists d, In d security.DANGEROUS_COMMANDS
                 /\ str_contains command d = true) ->
      exists found,
        In found security.DANGEROUS_COMMANDS
        /\ str_contains command found = true
        /\ security.validate_bash_command order command
           = Some (blocked found)).
Proof.
  intros Horder. unfold security.validate_bash_command.
  destruct (find (fun dangerous => str_contains command dangerous) order)
    as [found|] eqn:Hfind.
  - apply find_some in Hfind as [Hin Hfound]. apply Horder in Hin.
    split.
    + split; [discriminate|]. intros [Hnone _].
      rewrite (Hnone found Hin) in Hfound. discriminate.
    + intros _. exists found. auto.
  - pose proof (find_none _ _ Hfind) as Hnone. cbv beta in Hnone.
    split.
    + split.
      * intros H. split; [intros d Hd; apply Hnone, Horder, Hd|].
        destruct (security.split command) as [|first rest]; [discriminate|].
        exists first, rest. split; [reflexivity|].
        destruct (existsb _ security.SAFE_COMMANDS) eqn:E; [|discriminate].
        apply existsb_exists in E as (x & Hx & Heq).
        apply String.eqb_eq in Heq. now subst x.
      * intros (_ & first & rest & -> & Hsafe).
        assert (E : existsb
                      (String.eqb
                         (List.last (security.split_on "/"%char first) ""))
                      security.SAFE_COMMANDS = true).
        { apply existsb_exists. eexists. split; [exact Hsafe|].
          apply String.eqb_refl. }
        now rewrite E.
    + intros (d & Hd & Hc). apply Horder in Hd.
      rewrite (Hnone d Hd) in Hc. discriminate.
Qed.

Lemma X17_command_verdict_witness :
  let command := "/usr/bin/git status" in
  (security.validate_bash_command (rev security.DANGEROUS_COMMANDS) command
   = None
   <-> (forall d, In d security.DANGEROUS_COMMANDS ->
                  str_contains command d = false)
       /\ exists first rest,
            security.split command = first :: rest
            /\ In (List.last (security.split_on "/"%char first) "")
                 security.SAFE_COMMANDS)
  /\ ((exists d, In d security.DANGEROUS_COMMANDS
                 /\ str_contains command d = true) ->
      exists found,
        In found security.DANGEROUS_COMMANDS
        /\ str_contains command found = true
        /\ security.validate_bash_command (rev security.DANGEROUS_COMMANDS)
             command
           = Some (blocked found)).
Proof.
  intros command.
  apply (X17_command_verdict (rev security.DANGEROUS_COMMANDS) command).
  intros d. symmetry. apply in_rev.
Defined.

(** X18. A command of white space only, the empty one included, is
    answered with "Empty command", whatever the order of the patterns:
    none of them is made of white space alone. *)
Theorem X18_blank_command (order : list string) (command : string) :
  (forall d, In d order -> In d security.DANGEROUS_COMMANDS) ->
  blank command ->
  security.validate_bash_command order command = Some "Empty command".
Proof.
  intros Horder Hb. unfold security.validate_bash_command.
  destruct (find (fun dangerous => str_contains command dangerous) order)
    as [found|] eqn:Hfind.
  - apply find_some in Hfind as [Hin Hfound].
    rewrite (blank_no_dangerous command found Hb (Horder _ Hin)) in Hfound.
    discriminate.
  - now rewrite (split_blank command Hb).
Qed.

Lemma X18_blank_command_witness :
  security.validate_bash_command security.DANGEROUS_COMMANDS "   "
  = Some "Empty command".
Proof.
  apply (X18_blank_command security.DANGEROUS_COMMANDS "   ").
  - intros d Hd. exact Hd.
  - intros c Hc. simpl in Hc.
    destruct Hc as [<-|[<-|[<-|[]]]]; reflexivity.
Defined.

(** ** The report files *)

Lemma readable_perm (l l' : list (string * GradleRunner.parsed)) :
  Permutation l l' -> readable l -> readable l'.
Proof.
  unfold readable. rewrite !List.Forall_forall.
  intros Hperm H file Hfile. apply H.
  exact (Permutation_in _ (Permutation_sym Hperm) Hfile).
Qed.

Lemma cases_of_parsed (l : list (string * GradleRunner.parsed)) :
  List.flat_map (fun file => test_case_records (snd file)) l
  = List.flat_map (fun file => test_case_records (snd file))
      (List.filter
         (fun entry =>
            match snd entry with GradleRunner.Tree _ => true | _ => false end)
         l).
Proof.
  induction l as [|[name [tree| |e]] l IH]; simpl; [reflexivity| |exact IH..].
  now rewrite IH.
Qed.

Lemma first_failure (l : list (string * GradleRunner.parsed))
    (entry : string * GradleRunner.parsed) (e : exn) :
  In entry l -> snd entry = GradleRunner.Fails e ->
  exists before file after e',
    l = (before ++ file :: after)%list
    /\ readable before
    /\ snd file = GradleRunner.Fails e'.
Proof.
  induction l as [|x l IH]; intros Hin Hfails; [destruct Hin|].
  destruct (snd x) as [tree| |e'] eqn:Hx.
  - destruct Hin as [->|Hin]; [congruence|].
    destruct (IH Hin Hfails) as (before & file & after & e' & -> & Hb & Hf).
    exists (x :: before), file, after, e'. split; [reflexivity|].
    split; [|exact Hf]. constructor; [|exact Hb]. intros e0. congruence.
  - destruct Hin as [->|Hin]; [congruence|].
    destruct (IH Hin Hfails) as (before & file & after & e' & -> & Hb & Hf).
    exists (x :: before), file, after, e'. split; [reflexivity|].
    split; [|exact Hf]. constructor; [|exact Hb]. intros e0. congruence.
  - exists [], x, l, e'. split; [reflexivity|]. split; [constructor|exact Hx].
Qed.

(** X19. When the parser raises on no [*.xml] entry, the checks read from
    the report directory depend only on its report files, the [*.xml]
    entries of which the parser makes a tree: the other entries, the
    [*.xml] entries that are no XML document and the order in which the
    directory lists its entries make no difference.  When the parser raises
    another exception than [ParseError] on a [*.xml] entry, the whole parse
    raises.  File names are distinct, as they are in a directory. *)
Theorem X19_reports_decide_the_checks
    (self self' : GradleRunner.t) (p p' : GradleRunner.project)
    (entries entries' : list (string * GradleRunner.parsed)) :
  GradleRunner.test_results p = Some entries ->
  GradleRunner.test_results p' = Some entries' ->
  (readable (GradleRunner.glob_xml entries) ->
   readable (GradleRunner.glob_xml entries') ->
   NoDup (List.map fst (parsed_reports entries)) ->
   Permutation (parsed_reports entries) (parsed_reports entries') ->
   GradleRunner._parse_junit_xml self p
   = GradleRunner._parse_junit_xml self' p')
  /\ (forall entry e,
        In entry (GradleRunner.glob_xml entries) ->
        snd entry = GradleRunner.Fails e ->
        exists e', GradleRunner._parse_junit_xml self p = Raise e').
Proof.
  intros Hentries Hentries'.
  unfold GradleRunner._parse_junit_xml. rewrite Hentries, Hentries'.
  split.
  - intros Hreadable Hreadable' Hnodup Hperm.
    rewrite !parse_loop_readable
      by (eapply readable_perm; [symmetry; apply sorted_perm|assumption]).
    do 3 f_equal. rewrite cases_of_parsed.
    rewrite (cases_of_parsed
               (GradleRunner.sorted (GradleRunner.glob_xml entries'))).
    f_equal.
    assert (Hfiltered : forall l : list (string * GradleRunner.parsed),
      Permutation
        (List.filter
           (fun entry =>
              match snd entry with
              | GradleRunner.Tree _ => true
              | _ => false
              end)
           (GradleRunner.sorted l))
        (List.filter
           (fun entry =>
              match snd entry with
              | GradleRunner.Tree _ => true
              | _ => false
              end)
           l)).
    { intros l. apply filter_perm, sorted_perm. }
    apply sorted_unique.
    + apply filter_strongly_sorted, sorted_strongly.
    + apply filter_strongly_sorted, sorted_strongly.
    + pose proof (Permutation_map fst
                    (Hfiltered (GradleRunner.glob_xml entries))) as Hnames.
      now rewrite Hnames.
    + rewrite !Hfiltered. exact Hperm.
  - intros entry e Hin Hfails.
    assert (Hin' : In entry
                     (GradleRunner.sorted (GradleRunner.glob_xml entries)))
      by exact (Permutation_in _ (Permutation_sym (sorted_perm _)) Hin).
    destruct (first_failure _ entry e Hin' Hfails)
      as (before & file & after & e' & -> & Hbefore & Hfile).
    exists e'. now apply parse_loop_fails.
Qed.

Lemma X19_reports_decide_the_checks_witness :
  GradleRunner._parse_junit_xml (GradleRunner.Build "/repo")
    (GradleRunner.Project true (Some report_directory))
  = GradleRunner._parse_junit_xml (GradleRunner.Build "/repo")
      (GradleRunner.Project true
         (Some [("TEST-orders.xml", GradleRunner.Tree report_orders);
                ("notes.txt", GradleRunner.ParseError);
                ("TEST-users.xml", GradleRunner.Tree report_users)])).
Proof.
  refine (proj1 (X19_reports_decide_the_checks
                   (GradleRunner.Build "/repo") (GradleRunner.Build "/repo")
                   (GradleRunner.Project true (Some report_directory))
                   (GradleRunner.Project true
                      (Some [("TEST-orders.xml",
                              GradleRunner.Tree report_orders);
                             ("notes.txt", GradleRunner.ParseError);
                             ("TEST-users.xml",
                              GradleRunner.Tree report_users)]))
                   report_directory
                   [("TEST-orders.xml", GradleRunner.Tree report_orders);
                    ("notes.txt", GradleRunner.ParseError);
                    ("TEST-users.xml", GradleRunner.Tree report_users)]
                   eq_refl eq_refl) _ _ _ _).
  - vm_compute. repeat constructor; discriminate.
  - vm_compute. repeat constructor; discriminate.
  - apply (bool_decide_unpack _). vm_compute. exact I.
  - vm_compute. apply perm_swap.
Defined.

(** ** Configurations *)

Lemma not_empty_Some {A : Type} (l l' : list A) :
  config.not_empty l = Some l' <-> l' = l /\ l <> [].
Proof.
  destruct l; simpl; split.
  - discriminate.
  - intros [_ H]. congruence.
  - intros H. injection H as <-. split; [reflexivity|discriminate].
  - intros [-> _]. reflexivity.
Qed.

Lemma list_of_Forall {A : Type} (f : pyval -> option A) (Q : A -> Prop)
    (v : pyval) (l : list A) :
  (forall x y, f x = Some y -> Q y) ->
  config.list_of f v = Some l -> Forall Q l.
Proof.
  intros Hf H. unfold config.list_of in H.
  apply bind_Some in H as (items & _ & H).
  apply mapM_Some in H.
  induction H as [|x y items l Hxy _ IH]; constructor; eauto.
Qed.

Lemma validate_Repository_language (v : pyval) (r : schema.Repository) :
  config.validate_Repository v = Some r ->
  schema.language r = "javascript" \/ schema.language r = "java".
Proof.
  destruct v as [| | | | | |d]; simpl; try discriminate.
  intros H.
  apply bind_Some in H as (name & _ & H).
  apply bind_Some in H as (url & _ & H).
  apply bind_Some in H as (branch & _ & H).
  apply bind_Some in H as (language & Hlang & H).
  injection H as <-. simpl.
  unfold config.required in Hlang.
  apply bind_Some in Hlang as (x & _ & Hlang).
  unfold config.as_language in Hlang.
  apply bind_Some in Hlang as (s & _ & Hlang).
  destruct (String.eqb s "javascript") eqn:E1; simpl in Hlang.
  - injection Hlang as <-. left. now apply String.eqb_eq.
  - destruct (String.eqb s "java") eqn:E2; [|discriminate].
    injection Hlang as <-. right. now apply String.eqb_eq.
Qed.

Lemma validate_RestEndpoint_patterns (v : pyval) (ep : schema.RestEndpoint) :
  config.validate_RestEndpoint v = Some ep -> schema.patterns ep <> [].
Proof.
  destruct v as [| | | | | |d]; simpl; try discriminate.
  intros H.
  apply bind_Some in H as (id & _ & H).
  apply bind_Some in H as (method & _ & H).
  apply bind_Some in H as (path & _ & H).
  apply bind_Some in H as (patterns & Hpatterns & H).
  injection H as <-. simpl.
  apply bind_Some in Hpatterns as (l & _ & Hpatterns).
  apply not_empty_Some in Hpatterns as [-> Hne]. exact Hne.
Qed.

Lemma validate_Config_valid (as_bool : pyval -> option bool)
    (as_int : pyval -> option Z) (v : pyval) (c : schema.Config) :
  config.validate_Config as_bool as_int v = Some c -> valid_Config c.
Proof.
  destruct v as [| | | | | |d]; simpl; try discriminate.
  intros H.
  apply bind_Some in H as (project_name & _ & H).
  apply bind_Some in H as (work_dir & _ & H).
  apply bind_Some in H as (repositories & Hrepos & H).
  apply bind_Some in H as (rest_endpoints & Hendpoints & H).
  apply bind_Some in H as (attribute_mappings & _ & H).
  apply bind_Some in H as (graphql_endpoint & _ & H).
  apply bind_Some in H as (graphql_schema_path & _ & H).
  apply bind_Some in H as (options & _ & H).
  injection H as <-. unfold valid_Config. simpl.
  apply bind_Some in Hrepos as (l & Hl & Hrepos).
  apply not_empty_Some in Hrepos as [-> Hne].
  unfold config.required in Hl, Hendpoints.
  apply bind_Some in Hl as (x & _ & Hl).
  apply bind_Some in Hendpoints as (y & _ & Hendpoints).
  split; [exact Hne|]. split.
  - exact (list_of_Forall _ _ x l validate_Repository_language Hl).
  - exact (list_of_Forall _ _ y rest_endpoints
             validate_RestEndpoint_patterns Hendpoints).
Qed.

(** X20. A configuration that [load_config] returns, from a dictionary or
    from a file, has at least one repository, only repositories in
    JavaScript or Java, and only endpoints with at least one pattern. *)
Theorem X20_loaded_config_is_valid
    (as_bool : pyval -> option bool) (as_int : pyval -> option Z)
    (error_text : pyval -> string) (config_source : pyval) (w : world)
    (c : schema.Config) :
  config.load_config as_bool as_int error_text config_source w = Ok c ->
  valid_Config c.
Proof.
  unfold config.load_config. intros H.
  destruct (match config_source with
            | PStr config_path => _
            | _ => _
            end) as [config_dict|]; [|discriminate].
  cbn [res_bind] in H.
  destruct (config.validate_Config as_bool as_int config_dict) as [c'|] eqn:E;
    [|discriminate].
  injection H as <-. exact (validate_Config_valid as_bool as_int _ _ E).
Qed.

Lemma X20_loaded_config_is_valid_witness :
  exists c,
    config.load_config (fun _ => None) (fun _ => None) (fun _ => "")
      config_without_endpoints empty_world = Ok c
    /\ valid_Config c.
Proof.
  eexists. split; [reflexivity|].
  apply (X20_loaded_config_is_valid (fun _ => None) (fun _ => None)
           (fun _ => "") config_without_endpoints empty_world).
  reflexivity.
Defined.

Lemma mapM_dump {A : Type} (f : pyval -> option A) (g : A -> pyval)
    (l : list A) :
  Forall (fun x => f (g x) = Some x) l -> mapM f (List.map g l) = Some l.
Proof.
  intros H. apply mapM_Some.
  induction H as [|x l Hx _ IH]; simpl; constructor; auto.
Qed.

Lemma dump_Config_native (c : schema.Config) :
  json_native (ToolRegistry.dump_Config c) = true.
Proof.
  destruct c as [pn wd rs eps ms ge gs [o1 o2 o3 o4 o5 o6]].
  unfold ToolRegistry.dump_Config. cbn -[ToolRegistry.dump_Repository
    ToolRegistry.dump_RestEndpoint ToolRegistry.dump_AttributeMapping].
  rewrite !andb_true_r.
  repeat (apply andb_true_iff; split);
    apply forallb_forall; intros x Hx; apply in_map_iff in Hx as (y & <- & _).
  - reflexivity.
  - destruct y as [i m p ps]. simpl. rewrite andb_true_r.
    apply forallb_forall. intros z Hz.
    apply in_map_iff in Hz as (s & <- & _). reflexivity.
  - reflexivity.
Qed.

(** X21. What [get_config] returns, loaded again: for a configuration that
    meets the validators, [load_config] on the dictionary, and on a file
    to which that dictionary has been written, returns the configuration
    itself.  The [bool] and [int] fields are taken to accept a [bool] and
    an [int] as they are. *)
Theorem X21_config_dump_load
    (as_bool : pyval -> option bool) (as_int : pyval -> option Z)
    (error_text : pyval -> string) (registry : ToolRegistry.t)
    (path : string) (w : world) :
  (forall b, as_bool (PBool b) = Some b) ->
  (forall z, as_int (PInt z) = Some z) ->
  valid_Config (ToolRegistry.config registry) ->
  config.load_config as_bool as_int error_text
    (ToolRegistry.get_config registry) w
  = Ok (ToolRegistry.config registry)
  /\ config.load_config as_bool as_int error_text (PStr path)
       (write_json path (ToolRegistry.get_config registry) w)
     = Ok (ToolRegistry.config registry).
Proof.
  intros Hbool Hint (Hne & Hlang & Hpatterns).
  assert (Hvalidate :
    config.validate_Config as_bool as_int (ToolRegistry.get_config registry)
    = Some (ToolRegistry.config registry)).
  { unfold ToolRegistry.get_config.
    destruct (ToolRegistry.config registry)
      as [pn wd rs eps ms ge gs [o1 o2 o3 o4 o5 o6]].
    simpl in Hne, Hlang, Hpatterns.
    unfold ToolRegistry.dump_Config, config.validate_Config,
      config.required, config.with_default, config.list_of.
    cbn [dict_get String.eqb Ascii.eqb Bool.eqb config.as_str config.as_list
         mbind option_bind schema.project_name schema.work_dir
         schema.repositories schema.rest_endpoints schema.attribute_mappings
         schema.graphql_endpoint schema.graphql_schema_path schema.options].
    rewrite (mapM_dump config.validate_Repository
               ToolRegistry.dump_Repository rs).
    2:{ eapply Forall_impl; [exact Hlang|]. intros [n u b l] Hl. simpl in Hl.
        unfold ToolRegistry.dump_Repository, config.validate_Repository,
          config.required, config.as_language. simpl.
        destruct Hl as [-> | ->]; reflexivity. }
    cbn [mbind option_bind].
    destruct rs as [|r rs]; [congruence|]. cbn [config.not_empty].
    rewrite (mapM_dump config.validate_RestEndpoint
               ToolRegistry.dump_RestEndpoint eps).
    2:{ eapply Forall_impl; [exact Hpatterns|]. intros [i m p ps] Hps.
        simpl in Hps.
        unfold ToolRegistry.dump_RestEndpoint, config.validate_RestEndpoint,
          config.required, config.list_of. simpl.
        rewrite (mapM_dump config.as_str PStr ps)
          by (apply List.Forall_forall; reflexivity).
        simpl. destruct ps; [congruence|reflexivity]. }
    cbn [mbind option_bind].
    rewrite (mapM_dump config.validate_AttributeMapping
               ToolRegistry.dump_AttributeMapping ms)
      by (apply List.Forall_forall; intros []; reflexivity).
    cbn [mbind option_bind].
    unfold ToolRegistry.dump_ConfigOptions, config.validate_ConfigOptions,
      config.with_default.
    simpl. rewrite !Hbool, !Hint. reflexivity. }
  unfold config.load_config. split.
  - assert (Hdict : exists d, ToolRegistry.get_config registry = PDict d)
      by (eexists; reflexivity).
    destruct Hdict as [d Hd]. rewrite Hd in *. cbn [res_bind].
    now rewrite Hvalidate.
  - rewrite files_write_json_eq.
    rewrite json_roundtrip by apply dump_Config_native.
    cbn [res_bind]. now rewrite Hvalidate.
Qed.

Lemma X21_config_dump_load_witness :
  let registry :=
    ToolRegistry.__init__ sample_Config (StateManager.__init__ "/work") in
  let as_bool v := match v with PBool b => Some b | _ => None end in
  let as_int v := match v with PInt z => Some z | _ => None end in
  config.load_config as_bool as_int (fun _ => "")
    (ToolRegistry.get_config registry) empty_world
  = Ok sample_Config
  /\ config.load_config as_bool as_int (fun _ => "") (PStr "/work/config.json")
       (write_json "/work/config.json" (ToolRegistry.get_config registry)
          empty_world)
     = Ok sample_Config.
Proof.
  intros registry as_bool as_int.
  apply (X21_config_dump_load as_bool as_int (fun _ => "") registry
           "/work/config.json" empty_world).
  - reflexivity.
  - reflexivity.
  - unfold valid_Config. simpl. split; [discriminate|].
    split; repeat constructor. discriminate.
Defined.

(** ** The command line *)

(** X22. What [main] returns.  The exit code is 0 exactly when
    [from_config_file] returns an orchestrator and either the status is
    asked for and the progress file is absent or holds a JSON document, or
    the pipeline is run and returns [True].  Otherwise the exit code is 1,
    with one message on the standard error, unless the pipeline raises an
    exception of a class not derived from [Exception], which leaves [main].
    Nothing goes to the standard error when the exit code is 0.  Asking
    for the status changes no file, and prints one message when the exit
    code is 0. *)
Theorem X22_main_exit_code
    (as_bool : pyval -> option bool) (as_int : pyval -> option Z)
    (error_text py_str : pyval -> string)
    (_execute_phase : PhaseRunner.t -> M pyval)
    (undecodable : string -> option string) (a : main.args) (w : world) :
  let result :=
    main.main as_bool as_int error_text py_str _execute_phase undecodable
      a w in
  let w' := fst (fst result) in
  let err := snd (fst result) in
  let code := snd result in
  (code = Ok 0%Z
   <-> exists orchestrator,
         main.from_config_file as_bool as_int error_text undecodable
           (main.config a) w
         = Ok orchestrator
         /\ (main.status a = true
             /\ main.decode_error undecodable
                  (ProgressTracker.progress_file
                     (Orchestrator.progress_tracker orchestrator)) w
                = None
             \/ main.status a = false
                /\ snd (Orchestrator.run_pipeline _execute_phase orchestrator
                          (print ("Starting migration pipeline with config: "
                                  +:+ main.config a) w))
                   = Ok true))
  /\ (code = Ok 0%Z /\ err = []
      \/ code = Ok 1%Z /\ (exists text, err = [text])
      \/ exists e, code = Raise e /\ is_Exception e = false /\ err = []
                   /\ main.status a = false)
  /\ (main.status a = true ->
      files w' = files w
      /\ (code = Ok 0%Z -> exists text, stdout w' = (stdout w ++ [text])%list)).
Proof.
  cbv zeta. unfold main.main.
  destruct (main.exists_ undecodable (main.config a) w) eqn:Hexists;
    cbn [negb].
  2:{ cbn [fst snd]. split; [split; [discriminate|]|].
      - intros (o & Ho & _). unfold main.exists_ in Hexists.
        unfold main.from_config_file, main.decode_error,
          config.load_config in Ho.
        destruct (files w !! main.config a); [discriminate|].
        destruct (undecodable (main.config a)); discriminate.
      - split; [right; left; split; eauto|].
        intros _. split; [reflexivity|discriminate]. }
  assert (Hhandler : forall w0 e,
    let r := main.handler w0 e in
    fst (fst r) = w0
    /\ snd r <> Ok 0%Z
    /\ (snd r = Ok 1%Z /\ (exists text, snd (fst r) = [text])
        \/ snd r = Raise e /\ is_Exception e = false /\ snd (fst r) = [])).
  { intros w0 e. unfold main.handler. destruct (is_Exception e) eqn:He;
      cbn [fst snd]; (split; [reflexivity|]); (split; [discriminate|]);
      [left|right]; eauto. }
  destruct (main.from_config_file as_bool as_int error_text undecodable
              (main.config a) w) as [orchestrator|e] eqn:Hload.
  - destruct (main.status a) eqn:Hstatus.
    + unfold main.get_pipeline_status.
      destruct (main.decode_error undecodable
                  (ProgressTracker.progress_file
                     (Orchestrator.progress_tracker orchestrator)) w)
        as [e|] eqn:Hdecode.
      * destruct (Hhandler w e) as (Hw & Hcode & Herr).
        split; [split; [intros H; contradiction|]|].
        -- intros (o & Ho & [[_ H]|[H _]]); [|discriminate].
           injection Ho as <-. rewrite Hdecode in H. discriminate.
        -- split.
           ++ destruct Herr as [[H1 H2]|(H1 & H2 & H3)].
              ** right; left. auto.
              ** exfalso. unfold main.handler, main.decode_error in *.
                 destruct (files w !! _); [discriminate|].
                 destruct (undecodable _); [|discriminate].
                 injection Hdecode as <-. discriminate.
           ++ intros _. rewrite Hw. split; [reflexivity|].
              intros H. contradiction.
      * destruct (truthy (Orchestrator.get_pipeline_status orchestrator w));
          cbn [fst snd]; (split; [split; [|reflexivity]|]);
          try (intros _; exists orchestrator; split; [reflexivity|];
               left; split; [reflexivity|exact Hdecode]);
          (split; [left; split; reflexivity|]);
          intros _; split; eauto.
    + destruct (Orchestrator.run_pipeline _execute_phase orchestrator _)
        as [w2 [[|]|e]] eqn:Hrun; cbn [fst snd].
      * split; [split; [|reflexivity]|].
        -- intros _. exists orchestrator. split; [reflexivity|].
           right. split; [reflexivity|]. now rewrite Hrun.
        -- split; [left; split; reflexivity|discriminate].
      * split; [split; [discriminate|]|].
        -- intros (o & Ho & [[H _]|[_ H]]); [discriminate|].
           injection Ho as <-. rewrite Hrun in H. discriminate.
        -- split; [right; left; split; eauto|discriminate].
      * destruct (Hhandler w2 e) as (Hw & Hcode & Herr).
        split; [split; [intros H; contradiction|]|].
        -- intros (o & Ho & [[H _]|[_ H]]); [discriminate|].
           injection Ho as <-. rewrite Hrun in H. discriminate.
        -- split; [|discriminate].
           destruct Herr as [[H1 H2]|(H1 & H2 & H3)].
           ++ right; left. auto.
           ++ right; right. exists e. auto.
  - destruct (Hhandler w e) as (Hw & Hcode & Herr).
    assert (He : is_Exception e = true).
    { unfold main.from_config_file, main.decode_error, config.load_config
        in Hload.
      destruct (files w !! main.config a) as [doc|].
      - cbn [res_bind] in Hload.
        destruct (config.validate_Config as_bool as_int (json_load doc));
          [discriminate|]. now injection Hload as <-.
      - destruct (undecodable (main.config a)); simpl in Hload;
          now injection Hload as <-. }
    split; [split; [intros H; contradiction|]|].
    + intros (o & Ho & _). discriminate.
    + split.
      * destruct Herr as [[H1 H2]|(H1 & H2 & H3)]; [right; left; auto|].
        congruence.
      * intros _. rewrite Hw. split; [reflexivity|].
        intros H. contradiction.
Qed.

(** X23. [main] with the body [_execute_phase] has in the source: a run of
    the pipeline always ends with exit code 1, and the exit code is 0
    exactly when the status is asked for, [from_config_file] returns an
    orchestrator and the progress file is absent or holds a JSON
    document. *)
Theorem X23_shipped_main_exit_code
    (as_bool : pyval -> option bool) (as_int : pyval -> option Z)
    (error_text py_str : pyval -> string)
    (undecodable : string -> option string) (a : main.args) (w : world) :
  let code :=
    snd (main.main as_bool as_int error_text py_str PhaseRunner.placeholder
           undecodable a w) in
  (main.status a = false -> code = Ok 1%Z)
  /\ (code = Ok 0%Z
      <-> main.status a = true
          /\ exists orchestrator,
               main.from_config_file as_bool as_int error_text undecodable
                 (main.config a) w
               = Ok orchestrator
               /\ main.decode_error undecodable
                    (ProgressTracker.progress_file
                       (Orchestrator.progress_tracker orchestrator)) w
                  = None).
Proof.
  cbv zeta. unfold main.main.
  destruct (main.exists_ undecodable (main.config a) w) eqn:Hexists;
    cbn [negb].
  2:{ cbn [snd]. split; [reflexivity|]. split; [discriminate|].
      intros (_ & o & Ho & _). unfold main.exists_ in Hexists.
      unfold main.from_config_file, main.decode_error,
        config.load_config in Ho.
      destruct (files w !! main.config a); [discriminate|].
      destruct (undecodable (main.config a)); discriminate. }
  destruct (main.from_config_file as_bool as_int error_text undecodable
              (main.config a) w) as [orchestrator|e] eqn:Hload.
  - destruct (main.status a) eqn:Hstatus.
    + split; [discriminate|]. unfold main.get_pipeline_status.
      destruct (main.decode_error undecodable
                  (ProgressTracker.progress_file
                     (Orchestrator.progress_tracker orchestrator)) w)
        as [e|] eqn:Hdecode.
      * unfold main.handler. split.
        -- destruct (is_Exception e); discriminate.
        -- intros (_ & o & Ho & H). injection Ho as <-.
           rewrite Hdecode in H. discriminate.
      * destruct (truthy _); cbn [snd]; split; eauto.
    + assert (Hconfig : exists c, orchestrator = Orchestrator.__init__ c).
      { unfold main.from_config_file in Hload.
        destruct (main.decode_error undecodable (main.config a) w);
          [discriminate|].
        destruct (config.load_config as_bool as_int error_text
                    (PStr (main.config a)) w) as [c|]; [|discriminate].
        injection Hload as <-. eauto. }
      destruct Hconfig as [c ->].
      unfold Orchestrator.run_pipeline.
      destruct (shipped_run_phases (Orchestrator.__init__ c) _
                  (init_progress_well_formed
                     (Orchestrator.progress_tracker
                        (Orchestrator.__init__ c))
                     (schema.project_name c)
                     (print ("Starting migration pipeline with config: "
                             +:+ main.config a) w)))
        as (w3 & Hrun & _).
      change (schema.project_name
                (Orchestrator.config (Orchestrator.__init__ c)))
        with (schema.project_name c).
      rewrite Hrun. cbn [snd]. split; [reflexivity|].
      split; [discriminate|]. intros [H _]. discriminate.
  - assert (He : is_Exception e = true).
    { unfold main.from_config_file, main.decode_error, config.load_config
        in Hload.
      destruct (files w !! main.config a) as [doc|].
      - cbn [res_bind] in Hload.
        destruct (config.validate_Config as_bool as_int (json_load doc));
          [discriminate|]. now injection Hload as <-.
      - destruct (undecodable (main.config a)); simpl in Hload;
          now injection Hload as <-. }
    unfold main.handler. rewrite He. cbn [snd].
    split; [reflexivity|]. split; [discriminate|].
    intros (_ & o & Ho & _). discriminate.
Qed.

(** ** Savepoints *)

(** X24. What a git command that ends with a return code other than 0
    becomes.  [create_savepoint] raises [RuntimeError] with the error
    output; [rollback_to_savepoint] raises [RuntimeError] when the checkout
    fails, but [AttributeError] when the listing of the branches fails,
    without trying the checkout; [delete_savepoint] returns normally; and
    [get_current_commit] returns [None]. *)
Theorem X24_failing_git_commands
    (G : Type) (subprocess_run : list string -> ST G (Z * string * string))
    (self : RollbackManager.t) (name : string) (g g' : G)
    (returncode : Z) (out err : string) :
  returncode <> 0%Z ->
  let git args := "git" :: "-C" :: RollbackManager.repo_path self :: args in
  (subprocess_run (git ["checkout"; "-b"; "savepoint/" +:+ name]) g
   = (g', Ok (returncode, out, err)) ->
   RollbackManager.create_savepoint G subprocess_run self name g
   = (g', Raise (RollbackManager.RuntimeError
                   ("Failed to create savepoint: " +:+ err))))
  /\ (subprocess_run (git ["branch"; "-a"]) g
      = (g', Ok (returncode, out, err)) ->
      RollbackManager.rollback_to_savepoint G subprocess_run self name g
      = (g', Raise (AttributeError "'str' object has no attribute 'decode'")))
  /\ (forall g0 out0 err0,
        subprocess_run (git ["branch"; "-a"]) g0 = (g, Ok (0%Z, out0, err0)) ->
        subprocess_run (git ["checkout"; name]) g
        = (g', Ok (returncode, out, err)) ->
        RollbackManager.rollback_to_savepoint G subprocess_run self name g0
        = (g', Raise (RollbackManager.RuntimeError
                        ("Failed to rollback to savepoint: " +:+ err))))
  /\ (subprocess_run (git ["branch"; "-D"; name]) g
      = (g', Ok (returncode, out, err)) ->
      RollbackManager.delete_savepoint G subprocess_run self name g
      = (g', Ok tt))
  /\ (subprocess_run (git ["rev-parse"; "HEAD"]) g
      = (g', Ok (returncode, out, err)) ->
      RollbackManager.get_current_commit G subprocess_run self g
      = (g', Ok None)).
Proof.
  intros Hcode git. subst git. cbv beta. apply Z.eqb_neq in Hcode.
  unfold RollbackManager.create_savepoint,
    RollbackManager.rollback_to_savepoint, RollbackManager.delete_savepoint,
    RollbackManager.get_current_commit, bind, ret, raise.
  repeat split.
  - intros ->. simpl. now rewrite Hcode.
  - intros ->. simpl. now rewrite Hcode.
  - intros g0 out0 err0 Hlisting Hcheckout. rewrite Hlisting. simpl.
    rewrite Hcheckout. simpl. now rewrite Hcode.
  - intros ->. reflexivity.
  - intros ->. simpl. now rewrite Hcode.
Qed.

Lemma X24_failing_git_commands_witness :
  let run : list string -> ST unit (Z * string * string) :=
    fun _ => ret (128%Z, "", "fatal: not a git repository") in
  let self := RollbackManager.__init__ "/repo" in
  RollbackManager.rollback_to_savepoint unit run self "savepoint/migration" tt
  = (tt, Raise (AttributeError "'str' object has no attribute 'decode'")).
Proof.
  intros run self.
  apply (X24_failing_git_commands unit run self "savepoint/migration" tt tt
           128%Z "" "fatal: not a git repository").
  - discriminate.
  - reflexivity.
Defined.

(** ** Results and progress in one working directory *)

(** X25. A state manager and a progress tracker on the same working
    directory do not touch each other's files: saving the result of a
    phase leaves the progress record as it was, and starting the record
    or marking a phase leaves the result read for any phase as it was. *)
Theorem X25_results_and_progress_are_separate
    (work_dir P Q summary error project : string) (R : pyval)
    (mark : ProgressTracker.t -> string -> M unit)
    (fields : string -> list (string * pyval)) (w : world) :
  let results := StateManager.__init__ work_dir in
  let tracker := ProgressTracker.__init__ work_dir in
  In (mark, fields) (marks summary error) ->
  ProgressTracker.read_progress tracker (StateManager._save_result results P R w)
  = ProgressTracker.read_progress tracker w
  /\ StateManager._get_result results Q (fst (mark tracker P w))
     = StateManager._get_result results Q w
  /\ StateManager._get_result results Q
       (ProgressTracker.init_progress tracker project w)
     = StateManager._get_result results Q w.
Proof.
  intros results tracker Hin.
  destruct (marks_are_updates summary error mark fields Hin) as (Hmark & _).
  split; [|split].
  - apply read_progress_same_file. unfold StateManager._save_result.
    apply files_write_json_ne. apply state_file_not_progress_file.
  - unfold StateManager._get_result. rewrite Hmark.
    rewrite update_entry_files; [reflexivity|].
    apply state_file_not_progress_file.
  - unfold StateManager._get_result, ProgressTracker.init_progress,
      utcnow_isoformat, ProgressTracker._write_progress.
    rewrite files_write_json_ne; [reflexivity|].
    intros H. symmetry in H. revert H. apply state_file_not_progress_file.
Qed.

Lemma X25_results_and_progress_are_separate_witness :
  let results := StateManager.__init__ "/work" in
  let tracker := ProgressTracker.__init__ "/work" in
  ProgressTracker.read_progress tracker
    (StateManager._save_result results "discovery" discovery_result
       empty_world)
  = ProgressTracker.read_progress tracker empty_world
  /\ StateManager._get_result results "narrowing"
       (fst (ProgressTracker.mark_phase_started tracker "discovery"
               empty_world))
     = StateManager._get_result results "narrowing" empty_world
  /\ StateManager._get_result results "narrowing"
       (ProgressTracker.init_progress tracker "p" empty_world)
     = StateManager._get_result results "narrowing" empty_world.
Proof.
  intros results tracker.
  apply (X25_results_and_progress_are_separate "/work" "discovery" "narrowing"
           "" "" "p" discovery_result ProgressTracker.mark_phase_started
           (fun now => [("status", PStr "in_progress");
                        ("started_at", PStr now)])
           empty_world).
  simpl. left. reflexivity.
Defined.
